(** * Fertilizer price bulletins: extraction and monthly aggregation

    A shallow embedding of the fertilizer pipeline of [download_data.py]
    ([clean_currency], [create_entry], [extract_date_from_filename],
    [parse_pdf], [process_fertilizer_data]) together with the properties
    its specification states, and of the discovery and download of the
    bulletins ([get_pdf_links], [download_file]) and the rice area and
    yield tables ([extract_value_from_table], [download_yield_data]).

    Conventions of the embedding.
    - Python [str] values are [string]s; the case mappings and the
      whitespace class are Python's on the ASCII range, characters above
      127 carry no case and are not whitespace.
    - Python [float] values are binary64 numbers, [spec_float] at
      precision 53 and maximal exponent 1024; [float(s)] rounds the decimal
      it reads to the nearest binary64 number, ties to even.
    - [None] and [NaT] are [None] of an [option]; the NaN of a float is
      the binary64 NaN, a value that is not [None] and that a data frame
      takes for a missing one ([present]).
    - A pandas data frame is the list of its rows, each a record with one
      field per column.
    - An exception is the [None] (or a dedicated constructor) of the result
      type of the function that raises it.
    - A directory is the finite map from the names of its files to their
      contents; a web page is the list of its anchors, a table the list of
      its rows of cell texts, and the network a function from requests to
      responses. The console output is not part of the embedding. *)

From Stdlib Require Import ZArith Ascii String List DecimalString.
From Stdlib Require Import Floats.SpecFloat Sorting.Sorted Sorting.Permutation.
From stdpp Require Import gmap strings list.

Open Scope string_scope.
Open Scope list_scope.

(** ** Text primitives of Python's [str] *)

Module Str.

Definition code (c : ascii) : N := N_of_ascii c.

(** [str.isspace] on the ASCII range: TAB..CR, FS..US and the space. *)
Definition is_space (c : ascii) : bool :=
  let n := code c in
  ((9 <=? n) && (n <=? 13) || (28 <=? n) && (n <=? 32))%N.

Definition is_digit (c : ascii) : bool :=
  let n := code c in ((48 <=? n) && (n <=? 57))%N.

Definition upper_char (c : ascii) : ascii :=
  let n := code c in
  if ((97 <=? n) && (n <=? 122))%N then ascii_of_N (n - 32) else c.

Definition lower_char (c : ascii) : ascii :=
  let n := code c in
  if ((65 <=? n) && (n <=? 90))%N then ascii_of_N (n + 32) else c.

Fixpoint map (f : ascii -> ascii) (s : string) : string :=
  match s with
  | EmptyString => EmptyString
  | String c s' => String (f c) (map f s')
  end.

Definition upper : string -> string := map upper_char.
Definition lower : string -> string := map lower_char.

(** [s.replace(a, b)] for one-character [a] and [b]. *)
Definition replace_char (a b : ascii) : string -> string :=
  map (fun c => if Ascii.eqb c a then b else c).

(** [s.replace(a, '')] for a one-character [a]. *)
Fixpoint remove_char (a : ascii) (s : string) : string :=
  match s with
  | EmptyString => EmptyString
  | String c s' =>
      if Ascii.eqb c a then remove_char a s' else String c (remove_char a s')
  end.

Fixpoint lstrip (s : string) : string :=
  match s with
  | EmptyString => EmptyString
  | String c s' => if is_space c then lstrip s' else s
  end.

Fixpoint rstrip (s : string) : string :=
  match s with
  | EmptyString => EmptyString
  | String c s' =>
      match rstrip s' with
      | EmptyString => if is_space c then EmptyString else String c EmptyString
      | r => String c r
      end
  end.

Definition strip (s : string) : string := rstrip (lstrip s).

(** [s.startswith(p)] *)
Fixpoint startswith (p s : string) : bool :=
  match p, s with
  | EmptyString, _ => true
  | String a p', String b s' => Ascii.eqb a b && startswith p' s'
  | String _ _, EmptyString => false
  end.

(** [p in s] *)
Fixpoint contains (p s : string) : bool :=
  startswith p s ||
  match s with
  | EmptyString => false
  | String _ s' => contains p s'
  end.

(** [s.split(sep)] for a one-character [sep]: never the empty list. *)
Fixpoint split (sep : ascii) (s : string) : list string :=
  match s with
  | EmptyString => [EmptyString]
  | String c s' =>
      if Ascii.eqb c sep then EmptyString :: split sep s'
      else match split sep s' with
           | l :: ls => String c l :: ls
           | [] => [String c EmptyString]
           end
  end.

(** [sep.join(ls)] *)
Fixpoint join (sep : string) (ls : list string) : string :=
  match ls with
  | [] => EmptyString
  | [l] => l
  | l :: ls' => l +:+ sep +:+ join sep ls'
  end.

Definition newline : ascii := ascii_of_N 10.
Definition space : ascii := " "%char.

(** Truth value of a [str]: non-empty. *)
Definition truthy (s : string) : bool :=
  match s with EmptyString => false | _ => true end.

End Str.

(** ** Python's [float]: binary64 numbers and the [float(str)] constructor *)

Module PyFloat.

Definition prec : Z := 53.
Definition emax : Z := 1024.

(** The binary64 number nearest to [m * 10 ^ e10] (ties to even), with
    the sign [neg]; [m] is not negative. *)
Definition of_decimal (neg : bool) (m e10 : Z) : spec_float :=
  let num := if (0 <=? e10)%Z then (m * 10 ^ e10)%Z else m in
  let den := if (0 <=? e10)%Z then 1%Z else (10 ^ (- e10))%Z in
  match num with
  | Z0 => S754_zero neg
  | _ =>
      let '(q, e, l) := SFdiv_core_binary prec emax num 0 den 0 in
      binary_round_aux prec emax neg q e l
  end.

(** [bool(x)] for a float: every value but the two zeros. *)
Definition truthy (x : spec_float) : bool :=
  match x with S754_zero _ => false | _ => true end.

Definition is_zero (x : spec_float) : bool := negb (truthy x).

Definition digit_val (c : ascii) : Z := Z.of_N (Str.code c) - 48.

Definition read_sign (s : string) : bool * string :=
  match s with
  | String "-" s' => (true, s')
  | String "+" s' => (false, s')
  | _ => (false, s)
  end.

(** The digits that follow a first digit: a digit, or an underscore
    with a digit right after it. Returns the value read, the number of
    digits and the rest of the text. *)
Fixpoint digit_tail (acc cnt : Z) (s : string) : Z * Z * string :=
  match s with
  | String c s' =>
      if Str.is_digit c then digit_tail (10 * acc + digit_val c) (cnt + 1) s'
      else if Ascii.eqb c "_" then
        match s' with
        | String d s'' =>
            if Str.is_digit d
            then digit_tail (10 * acc + digit_val d) (cnt + 1) s''
            else (acc, cnt, s)
        | EmptyString => (acc, cnt, s)
        end
      else (acc, cnt, s)
  | EmptyString => (acc, cnt, s)
  end.

(** digitpart ::= digit (["_"] digit)* *)
Definition digitpart (s : string) : option (Z * Z * string) :=
  match s with
  | String c s' =>
      if Str.is_digit c then Some (digit_tail (digit_val c) 1 s') else None
  | EmptyString => None
  end.

(** number ::= [digitpart] "." digitpart | digitpart ["."]; the result
    is the integer made of all the digits, the number of digits after
    the point, and the rest of the text. *)
Definition number (s : string) : option (Z * Z * string) :=
  match digitpart s with
  | Some (i, _, r) =>
      match r with
      | String "." r' =>
          match digitpart r' with
          | Some (f, nf, r'') => Some (i * 10 ^ nf + f, nf, r'')
          | None => Some (i, 0, r')
          end
      | _ => Some (i, 0, r)
      end
  | None =>
      match s with
      | String "." r' => digitpart r'
      | _ => None
      end
  end%Z.

(** exponent ::= ("e" | "E") [sign] digitpart *)
Definition exponent (s : string) : option (Z * string) :=
  match s with
  | String c s' =>
      if Ascii.eqb c "e" || Ascii.eqb c "E" then
        let '(neg, r) := read_sign s' in
        match digitpart r with
        | Some (v, _, r') => Some (if neg then (- v)%Z else v, r')
        | None => None
        end
      else None
  | EmptyString => None
  end.

(** [float(s)] for a string [s]; [None] is [ValueError]. *)
Definition of_string (s : string) : option spec_float :=
  let '(neg, r) := read_sign (Str.strip s) in
  let name := Str.lower r in
  if String.eqb name "inf" || String.eqb name "infinity" then
    Some (S754_infinity neg)
  else if String.eqb name "nan" then Some S754_nan
  else
    match number r with
    | Some (m, nf, EmptyString) => Some (of_decimal neg m (- nf))
    | Some (m, nf, r') =>
        match exponent r' with
        | Some (e, EmptyString) => Some (of_decimal neg m (e - nf))
        | _ => None
        end
    | None => None
    end.

End PyFloat.

(** ** Cells, prices and records *)

(** A cell of an extracted table: a text, or [None]. *)
Definition cell := option string.

(** [str(c)] *)
Definition str (c : cell) : string :=
  match c with Some s => s | None => "None" end.

(** [clean_currency(value)] *)
Definition clean_currency (value : cell) : option spec_float :=
  match value with
  | None => None
  | Some v =>
      if negb (Str.truthy v) || String.eqb (Str.strip v) "" then None
      else
        let cleaned :=
          Str.strip (Str.remove_char " " (Str.remove_char "," v)) in
        PyFloat.of_string cleaned
  end.

(** Truth value of an optional float, as [any(prices)] tests it. *)
Definition price_truthy (p : option spec_float) : bool :=
  match p with Some x => PyFloat.truthy x | None => false end.

(** [any(prices)] *)
Definition any (prices : list (option spec_float)) : bool :=
  existsb price_truthy prices.

(** ** Timestamps *)

Record timestamp := { ts_year : Z; ts_month : Z; ts_day : Z }.

Definition month_names : list string :=
  ["January"; "February"; "March"; "April"; "May"; "June"; "July";
   "August"; "September"; "October"; "November"; "December"].

(** [date.month_name()] *)
Definition month_name (d : timestamp) : string :=
  nth (Z.to_nat (ts_month d - 1)) month_names "".

Definition is_alpha (c : ascii) : bool :=
  let n := Str.code (Str.lower_char c) in ((97 <=? n) && (n <=? 122))%N.

Fixpoint span (p : ascii -> bool) (s : string) : string * string :=
  match s with
  | String c s' =>
      if p c then let '(a, b) := span p s' in (String c a, b)
      else (EmptyString, s)
  | EmptyString => (EmptyString, EmptyString)
  end.

(** Number of the month a word names: the English name or its first
    three letters, in any case. *)
Fixpoint month_index (w : string) (names : list string) (i : Z) : option Z :=
  match names with
  | [] => None
  | n :: names' =>
      let l := Str.lower n in
      if String.eqb w l || String.eqb w (String.substring 0 3 l)
      then Some i else month_index w names' (i + 1)
  end.

Definition month_of_name (w : string) : option Z :=
  month_index (Str.lower w) month_names 1.

Fixpoint int_of_digits (acc : Z) (s : string) : Z :=
  match s with
  | EmptyString => acc
  | String c s' => int_of_digits (10 * acc + PyFloat.digit_val c) s'
  end.

Fixpoint all_digits (s : string) : bool :=
  match s with
  | EmptyString => true
  | String c s' => Str.is_digit c && all_digits s'
  end.

(** [pd.to_datetime(s)] on the two shapes of text the program builds,
    [<month> 1 <year>] and [<month> 1, <year>]: the first day of the month
    for an English month name or its three-letter abbreviation and a
    four-digit year that a pandas timestamp can hold; [None], the
    parser's exception, for a text of these shapes that names no month or
    no such year. *)
Definition to_datetime (s : string) : option timestamp :=
  let '(w, r) := span is_alpha s in
  match month_of_name w, r with
  | Some m, String " " (String "1" r1) =>
      let r2 := match r1 with String "," r' => r' | _ => r1 end in
      match r2 with
      | String " " y =>
          let n := int_of_digits 0 y in
          if all_digits y && (String.length y =? 4)%nat
             && (1678 <=? n)%Z && (n <=? 2261)%Z
          then Some {| ts_year := n; ts_month := m; ts_day := 1 |}
          else None
      | _ => None
      end
  | _, _ => None
  end.

(** ** Extracted records *)

Record entry := {
  Date : option timestamp;
  Month : option string;
  Year : option Z;
  Region : option string;
  Province : option string;
  Urea_Prilled : option spec_float;
  Urea_Granular : option spec_float;
  Ammosul : option spec_float;
  Complete : option spec_float;
  Ammophos : option spec_float;
  MOP : option spec_float;
  DAP : option spec_float;
  Source_File : string
}.

(** The seven price fields of a record, in column order. *)
Definition entry_prices (e : entry) : list (option spec_float) :=
  [Urea_Prilled e; Urea_Granular e; Ammosul e; Complete e; Ammophos e;
   MOP e; DAP e].

(** [create_entry(date, region, province, prices, filename)] *)
Definition create_entry (date : option timestamp) (region province : string)
    (prices : list (option spec_float)) (filename : string) : entry :=
  let prices := take 7 (prices ++ repeat None 7) in
  let price i := nth i prices None in
  {| Date := date;
     Month := month_name <$> date;
     Year := ts_year <$> date;
     Region := Some region;
     Province := Some province;
     Urea_Prilled := price 0%nat;
     Urea_Granular := price 1%nat;
     Ammosul := price 2%nat;
     Complete := price 3%nat;
     Ammophos := price 4%nat;
     MOP := price 5%nat;
     DAP := price 6%nat;
     Source_File := filename |}.

(** ** The filename date inferrer *)

(** [re.search]: the match at the leftmost position where [m] matches. *)
Fixpoint re_search (m : string -> option string) (s : string) : option string :=
  match m s with
  | Some g => Some g
  | None =>
      match s with
      | EmptyString => None
      | String _ s' => re_search m s'
      end
  end.

(** The pattern [(20\d{2})] at the start of [s]. *)
Definition match_year (s : string) : option string :=
  match s with
  | String "2" (String "0" (String a (String b _))) =>
      if Str.is_digit a && Str.is_digit b
      then Some (String "2" (String "0" (String a (String b EmptyString))))
      else None
  | _ => None
  end.

(** An alternation [(a1|a2|...)] at the start of [s]: the first
    alternative, in the order written, that matches. *)
Definition match_alt (alts : list string) (s : string) : option string :=
  List.find (fun a => Str.startswith a s) alts.

Definition months : list string :=
  ["january"; "february"; "march"; "april"; "may"; "june"; "july";
   "august"; "september"; "october"; "november"; "december"; "jan"; "feb";
   "mar"; "apr"; "may"; "jun"; "jul"; "aug"; "sep"; "sept"; "oct"; "nov";
   "dec"].

(** [l.sort(key=len, reverse=True)]: stable, longest first. *)
Fixpoint insert_by_len (x : string) (l : list string) : list string :=
  match l with
  | [] => [x]
  | y :: l' =>
      if (String.length x <? String.length y)%nat
      then y :: insert_by_len x l' else x :: l
  end.

Definition sort_by_len_desc (l : list string) : list string :=
  foldr insert_by_len [] l.

(** [extract_date_from_filename(filename)]; [None] is [pd.NaT]. *)
Definition extract_date_from_filename (filename : string) : option timestamp :=
  let filename_lower :=
    Str.replace_char "." "-" (Str.replace_char "_" "-" (Str.lower filename)) in
  let year := re_search match_year filename_lower in
  let months := sort_by_len_desc months in
  let month_str := re_search (match_alt months) filename_lower in
  match month_str, year with
  | Some month_str, Some year =>
      if Str.truthy month_str && Str.truthy year then
        let month_str :=
          if String.eqb month_str "sept" then "sep" else month_str in
        match to_datetime (month_str +:+ " 1 " +:+ year) with
        | Some d => Some d
        | None => None
        end
      else None
  | _, _ => None
  end.

(** ** The document parser *)

Definition row := list cell.
Definition table := list row.
Definition page := list table.

(** A document: its file name and what table extraction yields for it,
    [None] when opening or extracting raises. *)
Record document := { doc_name : string; doc_pages : option (list page) }.

(** The parse state of one document. *)
Record parse_state := { current_region : string; data : list entry }.

(** [row[1:8]] normalized cell by cell. *)
Definition row_prices (r : row) : list (option spec_float) :=
  clean_currency <$> take 7 (drop 1 r).

(** [if any(prices): data.append(create_entry(...))] *)
Definition emit (file_date : option timestamp) (filename region province : string)
    (prices : list (option spec_float)) (data : list entry) : list entry :=
  if any prices
  then data ++ [create_entry file_date region province prices filename]
  else data.

(** The body of the loop over the rows of a table. *)
Definition parse_row (file_date : option timestamp) (filename : string)
    (st : parse_state) (r : row) : parse_state :=
  match r with
  | [] => st
  | c0 :: _ =>
      if negb (Str.truthy (Str.strip (str c0))) then st else
      let raw_col := Str.strip (str c0) in
      let first_col := Str.upper raw_col in
      if Str.contains "REGION" first_col && Str.contains "PROVINCE" first_col
      then st else
      if Str.contains "FERTILIZER" first_col || Str.contains "UREA" first_col
      then st else
      if Str.startswith "46-0-0" first_col || String.eqb first_col "PRICE"
      then st else
      if Str.contains "REGION" first_col
         || existsb (String.eqb first_col) ["CAR"; "CARAGA"; "BARMM"]
      then
        let lines := Str.split Str.newline raw_col in
        let current_region := Str.strip (hd "" lines) in
        if (length lines =? 1)%nat then
          let prices := row_prices r in
          {| current_region := current_region;
             data := emit file_date filename current_region
                       "Regional Summary" prices (data st) |}
        else
          let province := Str.strip (Str.join " " (tl lines)) in
          let prices := row_prices r in
          {| current_region := current_region;
             data := emit file_date filename current_region
                       province prices (data st) |}
      else
      if String.eqb first_col "AVE" || String.eqb first_col "AVERAGE PRICE"
      then
        let prices := row_prices r in
        {| current_region := current_region st;
           data := emit file_date filename (current_region st)
                     "Regional Average" prices (data st) |}
      else
        let province :=
          Str.strip (Str.replace_char Str.newline " " raw_col) in
        let prices := row_prices r in
        {| current_region := current_region st;
           data := emit file_date filename (current_region st)
                     province prices (data st) |}
  end.

Definition parse_table (file_date : option timestamp) (filename : string)
    (st : parse_state) (t : table) : parse_state :=
  fold_left (parse_row file_date filename) t st.

Definition parse_page (file_date : option timestamp) (filename : string)
    (st : parse_state) (p : page) : parse_state :=
  fold_left (parse_table file_date filename) p st.

Definition parse_pages (file_date : option timestamp) (filename : string)
    (st : parse_state) (ps : list page) : parse_state :=
  fold_left (parse_page file_date filename) ps st.

Definition initial_state : parse_state :=
  {| current_region := "Unknown"; data := [] |}.

(** [parse_pdf(pdf_path)]: the rows of the data frame it returns, [None]
    when the extraction raises. *)
Definition parse_pdf (doc : document) : option (list entry) :=
  let file_date := extract_date_from_filename (doc_name doc) in
  match file_date with
  | None => Some []
  | Some _ =>
      match doc_pages doc with
      | None => None
      | Some ps =>
          Some (data (parse_pages file_date (doc_name doc) initial_state ps))
      end
  end.

(** ** Data-frame operations used by the corpus aggregator *)

(** A stable sort for the order [leb] (insertion sort): rows that compare
    equal keep their relative order, as in [sort_values] on several
    columns and in the sorted group keys of [groupby]. *)
Section StableSort.
Context {A : Type} (leb : A -> A -> bool).

Fixpoint insert_sorted (x : A) (l : list A) : list A :=
  match l with
  | [] => [x]
  | y :: l' => if leb y x then y :: insert_sorted x l' else x :: l
  end.

Definition stable_sort (l : list A) : list A :=
  fold_left (fun acc x => insert_sorted x acc) l [].
End StableSort.

(** [Series.str.contains(pat, case=False, na=False)] for a pattern without
    regular-expression operators: [pat] occurs in the text up to case. *)
Fixpoint startswith_nocase (p s : string) : bool :=
  match p, s with
  | EmptyString, _ => true
  | String a p', String b s' =>
      Ascii.eqb (Str.lower_char a) (Str.lower_char b) && startswith_nocase p' s'
  | String _ _, EmptyString => false
  end.

Fixpoint contains_nocase (p s : string) : bool :=
  startswith_nocase p s ||
  match s with
  | EmptyString => false
  | String _ s' => contains_nocase p s'
  end.

Definition str_contains (pat : string) (x : option string) : bool :=
  match x with
  | Some s => contains_nocase pat s
  | None => false
  end.

(** [Series.isin(values)]: a missing value is in no list of texts. *)
Definition isin (values : list string) (x : option string) : bool :=
  match x with
  | Some s => existsb (String.eqb s) values
  | None => false
  end.

(** A price as a frame holds it: [NaN] is a missing value. *)
Definition present (p : option spec_float) : option spec_float :=
  match p with
  | Some S754_nan => None
  | _ => p
  end.

(** The accumulators that the ['mean'] aggregation of pandas keeps for a
    group and a column: the number of values seen, their running sum, and
    the running compensation of the sum's rounding errors. *)
Record mean_state := {
  nobs : Z;
  sumx : spec_float;
  compensation : spec_float
}.

(** One row of the group enters the accumulators: a missing value is
    passed over; a value is added by Kahan's compensated step, and a
    compensation that is not a number is reset to zero. *)
Definition mean_step (st : mean_state) (p : option spec_float) : mean_state :=
  match present p with
  | None => st
  | Some val =>
      let y := SFsub PyFloat.prec PyFloat.emax val (compensation st) in
      let t := SFadd PyFloat.prec PyFloat.emax (sumx st) y in
      let c :=
        SFsub PyFloat.prec PyFloat.emax
          (SFsub PyFloat.prec PyFloat.emax t (sumx st)) y in
      {| nobs := nobs st + 1;
         sumx := t;
         compensation :=
           match c with S754_nan => S754_zero false | _ => c end |}
  end.

(** The ['mean'] aggregation of a column of a group: the compensated sum
    of the values that are present, taken in row order, over their
    number; [NaN] when none is. *)
Definition mean (col : list (option spec_float)) : spec_float :=
  let st :=
    fold_left mean_step col
      {| nobs := 0; sumx := S754_zero false;
         compensation := S754_zero false |} in
  if (nobs st =? 0)%Z then S754_nan
  else SFdiv PyFloat.prec PyFloat.emax (sumx st)
         (PyFloat.of_decimal false (nobs st) 0).

(** The key of the monthly grouping, [None] when a key column is missing
    (such rows belong to no group). *)
Definition key : Type := Z * string * string * string.

Definition entry_key (e : entry) : option key :=
  match Year e, Month e, Region e, Province e with
  | Some y, Some m, Some r, Some p => Some (y, m, r, p)
  | _, _, _, _ => None
  end.

Definition lex (c1 c2 : comparison) : comparison :=
  match c1 with Eq => c2 | _ => c1 end.

Definition key_compare (k1 k2 : key) : comparison :=
  let '(y1, m1, r1, p1) := k1 in
  let '(y2, m2, r2, p2) := k2 in
  lex (Z.compare y1 y2)
    (lex (String.compare m1 m2)
       (lex (String.compare r1 r2) (String.compare p1 p2))).

Definition key_leb (k1 k2 : key) : bool :=
  match key_compare k1 k2 with Gt => false | _ => true end.

Definition has_key (k : key) (e : entry) : bool :=
  bool_decide (entry_key e = Some k).

(** [df.groupby(['Year', 'Month', 'Region', 'Province'])]: the distinct
    keys in ascending order, each with its rows in frame order. *)
Definition groupby (df : list entry) : list (key * list entry) :=
  let keys := stable_sort key_leb (remove_dups (omap entry_key df)) in
  (fun k => (k, filter (fun e => has_key k e = true) df)) <$> keys.

Definition timestamp_compare (d1 d2 : timestamp) : comparison :=
  lex (Z.compare (ts_year d1) (ts_year d2))
    (lex (Z.compare (ts_month d1) (ts_month d2))
       (Z.compare (ts_day d1) (ts_day d2))).

(** [str(y)] for an integer. *)
Definition str_of_int (y : Z) : string :=
  DecimalString.NilZero.string_of_int (Z.to_int y).

(** ** Rows of the monthly aggregate *)

Module Monthly.
Record t := {
  Date : timestamp;
  Year : Z;
  Month : string;
  Region : string;
  Province : string;
  Urea_Prilled : spec_float;
  Urea_Granular : spec_float;
  Ammosul : spec_float;
  Complete : spec_float;
  Ammophos : spec_float;
  MOP : spec_float;
  DAP : spec_float
}.

Definition prices (r : t) : list spec_float :=
  [Urea_Prilled r; Urea_Granular r; Ammosul r; Complete r; Ammophos r;
   MOP r; DAP r].

(** The order of [sort_values(by=["Date", "Province"])]. *)
Definition leb (r1 r2 : t) : bool :=
  match lex (timestamp_compare (Date r1) (Date r2))
            (String.compare (Province r1) (Province r2)) with
  | Gt => false
  | _ => true
  end.
End Monthly.

(** One group aggregated, with the date rebuilt from its month and year;
    [None] when [pd.to_datetime] raises on the rebuilt text. *)
Definition aggregate_group (g : key * list entry) : option Monthly.t :=
  let '((y, m, r, p), rows) := g in
  match to_datetime (m +:+ " 1, " +:+ str_of_int y) with
  | Some d =>
      Some {| Monthly.Date := d;
              Monthly.Year := y;
              Monthly.Month := m;
              Monthly.Region := r;
              Monthly.Province := p;
              Monthly.Urea_Prilled := mean (Urea_Prilled <$> rows);
              Monthly.Urea_Granular := mean (Urea_Granular <$> rows);
              Monthly.Ammosul := mean (Ammosul <$> rows);
              Monthly.Complete := mean (Complete <$> rows);
              Monthly.Ammophos := mean (Ammophos <$> rows);
              Monthly.MOP := mean (MOP <$> rows);
              Monthly.DAP := mean (DAP <$> rows) |}
  | None => None
  end.

Definition sentinels : list string := ["Regional Summary"; "Regional Average"].

(** The regional filter of [process_fertilizer_data], for a frame whose
    [Region] column holds texts; on a column with rows and no text at all
    the [.str] accessor of pandas raises instead of filtering. *)
Definition region_7 (full_df : list entry) : list entry :=
  filter (fun e => str_contains "REGION VII" (Region e) = true) full_df.

(** The rows that enter the monthly aggregate. *)
Definition region_7_provinces (region_7_df : list entry) : list entry :=
  filter (fun e => isin sentinels (Province e) = false) region_7_df.

(** The monthly aggregate of the Region VII rows, sorted; [None] when
    rebuilding a date raises. *)
Definition monthly_aggregate (region_7_df : list entry) : option (list Monthly.t) :=
  match mapM aggregate_group (groupby (region_7_provinces region_7_df)) with
  | Some monthly_df => Some (stable_sort Monthly.leb monthly_df)
  | None => None
  end.

(** ** The corpus aggregator *)

(** Index of the last ["."] of [s], counting from [i]. *)
Fixpoint rfind_dot (s : string) (i : nat) (acc : option nat) : option nat :=
  match s with
  | EmptyString => acc
  | String c s' => rfind_dot s' (S i) (if Ascii.eqb c "." then Some i else acc)
  end.

(** [Path.suffix]: the text from the last dot of the name, when that dot
    is neither its first nor its last character. *)
Definition suffix (name : string) : string :=
  match rfind_dot name 0 None with
  | Some i =>
      if (0 <? i)%nat && (i <? String.length name - 1)%nat
      then String.substring i (String.length name - i) name
      else EmptyString
  | None => EmptyString
  end.

(** [Path.with_suffix(new)]; [None] is the [ValueError] of an empty name. *)
Definition with_suffix (name new : string) : option string :=
  match name with
  | EmptyString => None
  | _ =>
      let old := suffix name in
      Some (String.substring 0 (String.length name - String.length old) name
            +:+ new)
  end.

(** What [process_fertilizer_data] reports on the console before it
    returns; [Raised] when an exception leaves it instead. *)
Inductive report :=
| No_PDF_links_found
| No_data_extracted
| No_Region_VII_data_found
| Aggregated_data_saved
| Raised.

(** The files the aggregator reads and writes: the cache artifacts by
    name, and the aggregate output file when there is one. *)
Record files (csv : Type) := {
  cache : gmap string csv;
  aggregate_file : option (list Monthly.t)
}.
Arguments cache {csv} _.
Arguments aggregate_file {csv} _.

Section Corpus.
(** The content of a cache artifact, with the writer and the reader of
    pandas ([None]: reading raises), and the download of a link ([None]:
    it raises). *)
Context {csv : Type}.
Variable to_csv : list entry -> csv.
Variable read_csv : csv -> option (list entry).
Variable download_file : string -> option document.

(** The body of the loop over the documents: the cache and the frames
    collected so far. An exception leaves both as they are. *)
Definition process_pdf_file (st : gmap string csv * list (list entry))
    (pdf_file : document) : gmap string csv * list (list entry) :=
  let '(files, all_data) := st in
  match with_suffix (doc_name pdf_file) ".csv" with
  | None => st
  | Some csv_name =>
      match files !! csv_name with
      | Some f =>
          match read_csv f with
          | Some df => (files, all_data ++ [df])
          | None => st
          end
      | None =>
          match parse_pdf pdf_file with
          | Some [] => st
          | Some df => (<[csv_name := to_csv df]> files, all_data ++ [df])
          | None => st
          end
      end
  end.

(** [process_fertilizer_data(out_dir)], given the links that
    [get_pdf_links] returns. *)
Definition process_fertilizer_data (links : list string) (fs : files csv)
    : report * files csv :=
  match links with
  | [] => (No_PDF_links_found, fs)
  | _ =>
      let pdf_files := omap download_file links in
      let '(files, all_data) :=
        fold_left process_pdf_file pdf_files (cache fs, []) in
      let fs' := {| cache := files; aggregate_file := aggregate_file fs |} in
      match all_data with
      | [] => (No_data_extracted, fs')
      | _ =>
          let full_df := concat all_data in
          match region_7 full_df with
          | [] => (No_Region_VII_data_found, fs')
          | region_7_df =>
              match monthly_aggregate region_7_df with
              | Some monthly_df =>
                  (Aggregated_data_saved,
                   {| cache := files; aggregate_file := Some monthly_df |})
              | None => (Raised, fs')
              end
          end
      end
  end.
End Corpus.


(** * Vocabulary of the specification *)

(** [t] occurs in [s]. *)
Definition occurs (t s : string) : Prop :=
  exists pre post : string, s = pre +:+ t +:+ post.

(** A text made of whitespace only; the empty text is one. *)
Fixpoint whitespace_only (s : string) : bool :=
  match s with
  | EmptyString => true
  | String c s' => Str.is_space c && whitespace_only s'
  end.

(** The cleanup as the specification words it: every comma and every
    whitespace character is removed. *)
Fixpoint remove_commas_and_whitespace (s : string) : string :=
  match s with
  | EmptyString => EmptyString
  | String c s' =>
      if Ascii.eqb c "," || Str.is_space c
      then remove_commas_and_whitespace s'
      else String c (remove_commas_and_whitespace s')
  end.

(** The cleanup with commas and space characters removed and the
    whitespace at both ends trimmed. *)
Definition remove_commas_and_spaces (s : string) : string :=
  Str.strip (Str.remove_char " " (Str.remove_char "," s)).

(** The first cell of a row as the classifier reads it: its text with the
    whitespace at both ends trimmed (the empty text for an empty row). *)
Definition first_cell (r : row) : string :=
  match r with
  | [] => EmptyString
  | c0 :: _ => Str.strip (str c0)
  end.

(** The header and label rules, on the upper-cased first cell. *)
Definition header_rule (first_col : string) : bool :=
  Str.contains "REGION" first_col && Str.contains "PROVINCE" first_col
  || (Str.contains "FERTILIZER" first_col || Str.contains "UREA" first_col)
  || (Str.startswith "46-0-0" first_col || String.eqb first_col "PRICE").

(** A row that one of the skip rules discards: a blank first cell, or a
    header or label row. *)
Definition skipped (r : row) : bool :=
  negb (Str.truthy (first_cell r)) || header_rule (Str.upper (first_cell r)).

(** A region-marker row: not skipped, and its first cell contains
    ["REGION"] or is one of the three region names without it. *)
Definition region_marker (r : row) : bool :=
  let first_col := Str.upper (first_cell r) in
  negb (skipped r)
  && (Str.contains "REGION" first_col
      || existsb (String.eqb first_col) ["CAR"; "CARAGA"; "BARMM"]).

(** A regional-average row. *)
Definition regional_average (r : row) : bool :=
  let first_col := Str.upper (first_cell r) in
  negb (skipped r) && negb (region_marker r)
  && (String.eqb first_col "AVE" || String.eqb first_col "AVERAGE PRICE").

(** The text before the first line break of [s]. *)
Fixpoint first_line (s : string) : string :=
  match s with
  | EmptyString => EmptyString
  | String c s' =>
      if Ascii.eqb c Str.newline then EmptyString else String c (first_line s')
  end.

(** The text after the first line break of [s], when it has one. *)
Fixpoint after_first_line (s : string) : option string :=
  match s with
  | EmptyString => None
  | String c s' =>
      if Ascii.eqb c Str.newline then Some s' else after_first_line s'
  end.

(** The lines of [s] joined with a single space. *)
Definition lines_joined (s : string) : string :=
  Str.replace_char Str.newline " " s.

(** The region a region-marker row names. *)
Definition marker_region (r : row) : string :=
  Str.strip (first_line (first_cell r)).

(** The province label of a row that is not skipped. *)
Definition row_province (r : row) : string :=
  if region_marker r then
    match after_first_line (first_cell r) with
    | None => "Regional Summary"
    | Some rest => Str.strip (lines_joined rest)
    end
  else if regional_average r then "Regional Average"
  else Str.strip (lines_joined (first_cell r)).

(** What the specification says of a region-marker row, for a
    normalization [norm] of the labels read from the cell: the region is
    the first line of the cell; the province is ["Regional Summary"] for a
    cell of one line and the remaining lines joined with a space
    otherwise; the next seven cells are the prices, and the record is
    appended when one of them is truthy. *)
Definition marker_row_outcome (norm : string -> string)
    (file_date : option timestamp) (filename : string)
    (st : parse_state) (r : row) : Prop :=
  let raw := first_cell r in
  let region := norm (first_line raw) in
  let province :=
    match after_first_line raw with
    | None => "Regional Summary"
    | Some rest => norm (lines_joined rest)
    end in
  let prices := clean_currency <$> take 7 (drop 1 r) in
  parse_row file_date filename st r =
    {| current_region := region;
       data := if existsb price_truthy prices
               then data st ++ [create_entry file_date region province prices filename]
               else data st |}.

(** The rows of a document, page after page and table after table. *)
Definition rows_of (ps : list page) : list row := concat (concat ps).

(** The classifier run over a sequence of rows. *)
Definition parse_rows (file_date : option timestamp) (filename : string)
    (st : parse_state) (rows : list row) : parse_state :=
  fold_left (parse_row file_date filename) rows st.

(** A record with at least one price that is not null. *)
Definition has_price (e : entry) : bool :=
  existsb (fun p => match p with Some _ => true | None => false end)
    (entry_prices e).

(** A price cell that normalizes to no value or to a zero. *)
Definition null_or_zero (p : option spec_float) : bool :=
  match p with
  | None => true
  | Some x => PyFloat.is_zero x
  end.

(** The rows of the specification's examples: a one-line region marker
    with two prices, a two-line region marker with seven prices, a header
    row, a province row, and a province row whose only price is a zero. *)
Definition caraga_row : row :=
  [Some "CARAGA"; Some "850"; Some "900"; None; None; None; None; None].

Definition cebu_row : row :=
  [Some ("REGION VII" +:+ String Str.newline "Cebu"); Some "1,000.00";
   Some "1,100.00"; Some "700"; Some "800"; Some "900"; Some "1,200";
   Some "1,500"].

Definition header_row : row := [Some "REGION/PROVINCE"; Some "46-0-0"].

Definition bohol_row : row := [Some "Bohol"; Some "850.50"; Some "N/A"].

Definition zero_row : row := [Some "Siquijor"; Some "0"; Some "N/A"; None].

Definition blank_prices_row : row := [Some "Negros Oriental"; Some "-"; None; Some " "].

(** A region marker whose lines carry whitespace next to the line break. *)
Definition padded_marker_row : row :=
  [Some ("REGION VII " +:+ String Str.newline " Cebu"); Some "850"].

Definition september_2023 : timestamp :=
  {| ts_year := 2023; ts_month := 9; ts_day := 1 |}.

(** A province row whose only price cell reads ["nan"]. *)
Definition nan_row : row := [Some "Cebu"; Some "nan"].

Definition blank_marker_row : row := [Some "REGION VII"; None; Some ""].

Definition blank_average_row : row := [Some "AVE"; Some "n/a"; None].

(** A one-page document of the examples, named for September 2023. *)
Definition example_document : document :=
  {| doc_name := "FPA_Fertilizer_September_2023.pdf";
     doc_pages :=
       Some [[[header_row; cebu_row; zero_row]; [header_row; bohol_row]]] |}.

(** The file name as the date inferrer searches it: lower-cased, with
    ["_"] and ["."] turned into ["-"]. *)
Definition normalized_name (filename : string) : string :=
  Str.replace_char "." "-" (Str.replace_char "_" "-" (Str.lower filename)).

(** A year token: ["20"] and two digits. *)
Definition is_year (y : string) : Prop :=
  exists a b : ascii,
    y = String "2" (String "0" (String a (String b EmptyString)))
    /\ Str.is_digit a = true /\ Str.is_digit b = true.

(** The month a token of [months] names, ["sept"] read as ["sep"]. *)
Definition token_month (t : string) : option Z :=
  month_of_name (if String.eqb t "sept" then "sep" else t).

Definition digits : list ascii :=
  ["0"; "1"; "2"; "3"; "4"; "5"; "6"; "7"; "8"; "9"]%char.

Definition year_text (a b : ascii) : string :=
  String "2" (String "0" (String a (String b EmptyString))).

(** The date built for a month token and a year is the first day of the
    month the token names in that year. *)
Definition date_check (t : string) (a b : ascii) : bool :=
  let month_str := if String.eqb t "sept" then "sep" else t in
  match to_datetime (month_str +:+ " 1 " +:+ year_text a b), token_month t with
  | Some d, Some m =>
      Str.truthy t
      && (2000 <=? ts_year d)%Z && (ts_year d <=? 2099)%Z
      && (1 <=? m)%Z && (m <=? 12)%Z
      && (ts_year d =? int_of_digits 0 (year_text a b))%Z
      && (ts_month d =? m)%Z && (ts_day d =? 1)%Z
  | _, _ => false
  end.

(** The grouping key of a row of the monthly aggregate. *)
Definition monthly_key (r : Monthly.t) : key :=
  (Monthly.Year r, Monthly.Month r, Monthly.Region r, Monthly.Province r).

(** The records of a frame that share the key [k] and whose province is
    not a sentinel label, in frame order. *)
Definition group_of (k : key) (df : list entry) : list entry :=
  filter (fun e => isin sentinels (Province e) = false /\ entry_key e = Some k)
    df.

(** The mean of each of the seven price columns of a group. *)
Definition group_means (g : list entry) : list spec_float :=
  [mean (Urea_Prilled <$> g); mean (Urea_Granular <$> g);
   mean (Ammosul <$> g); mean (Complete <$> g); mean (Ammophos <$> g);
   mean (MOP <$> g); mean (DAP <$> g)].

(** A date comes before another in the calendar. *)
Definition date_before (d1 d2 : timestamp) : Prop :=
  (ts_year d1 < ts_year d2
   \/ ts_year d1 = ts_year d2
      /\ (ts_month d1 < ts_month d2
          \/ ts_month d1 = ts_month d2 /\ ts_day d1 < ts_day d2))%Z.

(** The order of texts: a text comes before any text it begins, and
    otherwise the first character in which two texts differ decides, by
    its code. *)
Inductive text_le : string -> string -> Prop :=
| text_le_empty s : text_le "" s
| text_le_less c1 s1 c2 s2 :
    (Str.code c1 < Str.code c2)%N -> text_le (String c1 s1) (String c2 s2)
| text_le_same c s1 s2 :
    text_le s1 s2 -> text_le (String c s1) (String c s2).

(** Ascending order of the monthly rows by date, then by province: the
    date of the first row is the earlier one, or the dates are the same
    and the province of the first row is not after that of the second. *)
Definition by_date_and_province (r1 r2 : Monthly.t) : Prop :=
  date_before (Monthly.Date r1) (Monthly.Date r2)
  \/ Monthly.Date r1 = Monthly.Date r2
     /\ text_le (Monthly.Province r1) (Monthly.Province r2).

(** The values of a column that are present, in row order. *)
Definition values_present (col : list (option spec_float)) : list spec_float :=
  omap present col.

(** The sum of a list of binary64 numbers by compensated summation: each
    value is added to the running sum [s] after the running error [c] of
    the earlier additions is taken off it, and the error of the new
    addition is kept (zero when it is not a number). *)
Fixpoint compensated_sum (vs : list spec_float) (s c : spec_float)
    : spec_float :=
  match vs with
  | [] => s
  | v :: vs' =>
      let y := SFsub 53 1024 v c in
      let t := SFadd 53 1024 s y in
      let c' := SFsub 53 1024 (SFsub 53 1024 t s) y in
      compensated_sum vs' t
        (match c' with S754_nan => S754_zero false | _ => c' end)
  end.

(** The arithmetic mean of a list of binary64 numbers as binary64
    arithmetic gives it: their compensated sum divided by their number;
    not a number for the empty list. *)
Definition arithmetic_mean (vs : list spec_float) : spec_float :=
  match vs with
  | [] => S754_nan
  | _ =>
      SFdiv 53 1024 (compensated_sum vs (S754_zero false) (S754_zero false))
        (PyFloat.of_decimal false (Z.of_nat (length vs)) 0)
  end.

(** The seven price columns, and their means over a group of records. *)
Definition price_columns : list (entry -> option spec_float) :=
  [Urea_Prilled; Urea_Granular; Ammosul; Complete; Ammophos; MOP; DAP].

Definition column_means (g : list entry) : list spec_float :=
  (fun col => arithmetic_mean (values_present (col <$> g))) <$> price_columns.

(** The binary64 number that is the whole number [n], for [n] from 1 to
    [2^53 - 1]: the mantissa of 53 bits and the exponent whose product
    is [n]. *)
Definition whole (n : Z) : spec_float :=
  S754_finite false (Z.to_pos (n * 2 ^ (52 - Z.log2 n))) (Z.log2 n - 52).

(** The sum of a list of whole numbers. *)
Definition total (ns : list Z) : Z := fold_right Z.add 0%Z ns.

Definition october_2023 : timestamp :=
  {| ts_year := 2023; ts_month := 10; ts_day := 1 |}.

(** A record whose month is an English month name and whose year a
    timestamp can hold, as the records of the document parser are. *)
Definition period_ok (e : entry) : Prop :=
  exists y m,
    Year e = Some y /\ Month e = Some m
    /\ (1678 <= y <= 2261)%Z /\ In m month_names.

(** The date rebuilt from a month name and a year is the first day of
    that month of that year. *)
Definition rebuild_check (y : Z) (m : string) : bool :=
  match to_datetime (m +:+ " 1, " +:+ str_of_int y), month_of_name m with
  | Some d, Some i =>
      (ts_year d =? y)%Z && (ts_month d =? i)%Z && (ts_day d =? 1)%Z
  | _, _ => false
  end.

Definition price (s : string) : option spec_float := clean_currency (Some s).

(** A frame of Region VII records in no order: Cebu in October 2023
    with three prices that are no whole numbers, Cebu in September 2023
    with the prices 100 and 200, a regional average, and Bohol in
    October. The month names sort October before September. *)
Definition unordered_frame : list entry :=
  [create_entry (Some october_2023) "REGION VII" "Cebu" [price "1967.02"] "a.pdf";
   create_entry (Some september_2023) "REGION VII" "Cebu" [price "100"] "b.pdf";
   create_entry (Some october_2023) "REGION VII" "Regional Average"
     [price "999"] "a.pdf";
   create_entry (Some october_2023) "REGION VII" "Cebu" [price "2447.37"] "c.pdf";
   create_entry (Some september_2023) "REGION VII" "Cebu" [price "200"] "d.pdf";
   create_entry (Some october_2023) "REGION VII" "Bohol"
     [price "80"; price "90"] "a.pdf";
   create_entry (Some october_2023) "REGION VII" "Cebu" [price "2033.95"] "e.pdf"].

(** [pat] occurs in [s] up to the case of the letters. *)
Definition contains_ignoring_case (pat s : string) : Prop :=
  exists pre mid post : string,
    s = pre +:+ mid +:+ post /\ Str.lower mid = Str.lower pat.

(** A frame with a record of Region VII, one of Region VIII, one of
    another region and one with no region. *)
Definition mixed_frame : list entry :=
  [create_entry (Some september_2023) "Region VII" "Cebu" [price "100"] "a.pdf";
   create_entry (Some september_2023) "REGION VIII" "Leyte" [price "300"] "a.pdf";
   create_entry (Some september_2023) "REGION VI" "Iloilo" [price "500"] "a.pdf";
   {| Date := Some september_2023; Month := Some "September";
      Year := Some 2023%Z; Region := None; Province := Some "Samar";
      Urea_Prilled := price "700"; Urea_Granular := None; Ammosul := None;
      Complete := None; Ammophos := None; MOP := None; DAP := None;
      Source_File := "a.pdf" |}].

(** The name of the cache artifact of a document. *)
Definition cache_name (d : document) : option string :=
  with_suffix (doc_name d) ".csv".

(** The loop of [process_fertilizer_data] over the documents. *)
Definition process_pdf_files {csv : Type} (to_csv : list entry -> csv)
    (read_csv : csv -> option (list entry)) (pdf_files : list document)
    (st : gmap string csv * list (list entry))
    : gmap string csv * list (list entry) :=
  fold_left (process_pdf_file to_csv read_csv) pdf_files st.

(** The three reports of an empty result. *)
Definition empty_result (r : report) : bool :=
  match r with
  | No_PDF_links_found | No_data_extracted | No_Region_VII_data_found => true
  | Aggregated_data_saved | Raised => false
  end.

(** An in-memory stand-in for the cache artifacts: the records as they
    are. *)
Definition memory_to_csv (df : list entry) : list entry := df.
Definition memory_read_csv (f : list entry) : option (list entry) := Some f.

(** Three documents behind their links: one of Region VII, one of another
    region, one with no month in its name; any other link fails. *)
Definition example_download (link : string) : option document :=
  if String.eqb link "https://fpa.da.gov.ph/wfp_sept_2023.pdf" then
    Some {| doc_name := "wfp_sept_2023.pdf";
            doc_pages := Some [[[header_row; cebu_row; bohol_row]]] |}
  else if String.eqb link "https://fpa.da.gov.ph/wfp_caraga_oct_2023.pdf" then
    Some {| doc_name := "wfp_caraga_oct_2023.pdf";
            doc_pages := Some [[[header_row; caraga_row]]] |}
  else if String.eqb link "https://fpa.da.gov.ph/report_2023.pdf" then
    Some {| doc_name := "report_2023.pdf";
            doc_pages := Some [[[cebu_row]]] |}
  else None.

Definition no_files : files (list entry) :=
  {| cache := ∅; aggregate_file := None |}.

(** The part of [process_fertilizer_data] that follows the loop over the
    documents, for the cache and the frames the loop leaves. *)
Definition conclude {csv : Type} (fs : files csv)
    (st : gmap string csv * list (list entry)) : report * files csv :=
  let fs' := {| cache := st.1; aggregate_file := aggregate_file fs |} in
  match st.2 with
  | [] => (No_data_extracted, fs')
  | _ =>
      match region_7 (concat st.2) with
      | [] => (No_Region_VII_data_found, fs')
      | region_7_df =>
          match monthly_aggregate region_7_df with
          | Some monthly_df =>
              (Aggregated_data_saved,
               {| cache := st.1; aggregate_file := Some monthly_df |})
          | None => (Raised, fs')
          end
      end
  end.

(** ** Vocabulary for labels and stamps *)

(** A text without a line break. *)
Fixpoint no_newline (s : string) : bool :=
  match s with
  | EmptyString => true
  | String c s' => negb (Ascii.eqb c Str.newline) && no_newline s'
  end.

(** A label as the records carry it: not empty, with no whitespace at
    its ends and no line break. *)
Definition clean_label (s : string) : Prop :=
  s <> "" /\ Str.strip s = s /\ no_newline s = true.

(** The stamp of a record: the date, its month name and year, and the
    name of the document. *)
Definition stamped (d : timestamp) (filename : string) (e : entry) : Prop :=
  Date e = Some d /\ Month e = Some (month_name d)
  /\ Year e = Some (ts_year d) /\ Source_File e = filename.

(** A regional-average row, a province whose name is wrapped over two
    lines, a row whose first cell is missing, and a region marker that
    mentions a product. *)
Definition average_row : row := [Some "Ave"; Some "900"; Some "950"].

Definition wrapped_province_row : row :=
  [Some ("Negros" +:+ String Str.newline "Oriental"); Some "850"].

Definition missing_first_cell_row : row := [None; Some "850"].

Definition urea_marker_row : row := [Some "Region VII (Urea)"; Some "850"].

(** A row that adds a record: not skipped, with a truthy price. *)
Definition emits (r : row) : bool := negb (skipped r) && any (row_prices r).

(** The raw conditions of the four skip rules on a first cell. *)
Definition skip_condition (c0 : cell) : bool :=
  let raw_col := Str.strip (str c0) in
  let first_col := Str.upper raw_col in
  String.eqb raw_col ""
  || Str.contains "REGION" first_col && Str.contains "PROVINCE" first_col
  || Str.contains "FERTILIZER" first_col
  || Str.contains "UREA" first_col
  || Str.startswith "46-0-0" first_col
  || String.eqb first_col "PRICE".

(** A document with rows of every kind on two pages. *)
Definition mixed_document : document :=
  {| doc_name := "WFP_Weekly_Oct-2024.PDF";
     doc_pages :=
       Some [[[header_row; bohol_row; cebu_row; zero_row];
              [urea_marker_row; wrapped_province_row]];
             [[missing_first_cell_row; average_row; blank_prices_row]]] |}.

(** A frame of Region VII that holds sentinel rows only. *)
Definition sentinel_frame : list entry :=
  [create_entry (Some september_2023) "REGION VII" "Regional Summary"
     [price "100"] "a.pdf";
   create_entry (Some september_2023) "REGION VII" "Regional Average"
     [price "200"] "a.pdf"].

(** Files with one cache artifact already there. *)
Definition some_files : files (list entry) :=
  {| cache := {[ "wfp_sept_2023.csv" := sentinel_frame ]};
     aggregate_file := None |}.

Definition example_links : list string :=
  ["https://fpa.da.gov.ph/wfp_sept_2023.pdf";
   "https://fpa.da.gov.ph/report_2023.pdf";
   "https://fpa.da.gov.ph/wfp_caraga_oct_2023.pdf"].

(** ** Discovery and download of the bulletins *)

(** [s.endswith(suf)], and the [$=] test of an attribute selector. *)
Fixpoint str_endswith (suf s : string) : bool :=
  String.eqb suf s ||
  match s with
  | EmptyString => false
  | String _ s' => str_endswith suf s'
  end.

Definition FPA_BASE_URL : string := "https://fpa.da.gov.ph".

(** An [a] element of the page: its [href] attribute, when it has one,
    and its text. *)
Record anchor := { a_href : option string; a_text : string }.

(** The test of the loop of [get_pdf_links] on an anchor that the
    selector [a[href$='.pdf']] picks, and the address it appends. *)
Definition wanted (href text : string) : bool :=
  Str.contains "WFP" href || Str.contains "Weekly" text
  || Str.contains "FERTILIZER" (Str.upper href).

Definition full_url (href : string) : string :=
  if Str.startswith "http" href then href else FPA_BASE_URL +:+ href.

Definition pdf_link (a : anchor) : option string :=
  match a_href a with
  | Some href =>
      if str_endswith ".pdf" href && wanted href (a_text a)
      then Some (full_url href) else None
  | None => None
  end.

(** [get_pdf_links()], given the anchors of the page in document order;
    [None] when fetching the page raises. The result lists a set: its
    order is that of the set, not that of the page. *)
Definition get_pdf_links (page : option (list anchor)) : list string :=
  match page with
  | Some anchors =>
      let links := omap pdf_link anchors in
      elements (list_to_set links : gset string)
  | None => []
  end.

(** [url.split("/")[-1]] *)
Definition url_filename (url : string) : string :=
  default "" (last (Str.split "/" url)).

(** The body of a response, as [iter_content] hands it out: chunks, then
    the end of the stream or an error of the connection. *)
Inductive stream :=
| End_of_stream
| Chunk (chunk : string) (rest : stream)
| Stream_error.

(** A response of [requests.get]: whether its status is below 400, the
    value of [int] on its [content-length] header ([None]: it raises),
    and its body. *)
Record get_response := {
  resp_ok : bool;
  content_length : option Z;
  iter_content : stream
}.

(** The loop that writes the chunks to the open file [f]; the flag tells
    whether the stream reached its end. *)
Fixpoint write_chunks (body : stream) (f : string) : string * bool :=
  match body with
  | End_of_stream => (f, true)
  | Chunk chunk rest =>
      write_chunks rest (if Str.truthy chunk then f +:+ chunk else f)
  | Stream_error => (f, false)
  end.

(** [(out_dir / filename).exists()] for a directory [out_dir] of regular
    files: the names [""] and ["."] are the directory itself and [".."]
    is its parent. *)
Definition path_exists (out_dir : gmap string string) (filename : string)
    : bool :=
  bool_decide (filename ∈ [""; "."; ".."])
  || bool_decide (is_Some (out_dir !! filename)).

(** [download_file(url, out_dir)]: the path returned, relative to
    [out_dir] ([None]: an exception leaves the function), and the
    directory afterwards. [requests_get] is the network, [None] when the
    request raises. *)
Definition download_file (requests_get : string -> option get_response)
    (url : string) (out_dir : gmap string string)
    : option string * gmap string string :=
  let filename := url_filename url in
  if path_exists out_dir filename then (Some filename, out_dir)
  else
    match requests_get url with
    | Some r =>
        if resp_ok r then
          match content_length r with
          | Some _ =>
              let '(content, complete) := write_chunks (iter_content r) "" in
              (if complete then Some filename else None,
               <[filename := content]> out_dir)
          | None => (None, out_dir)
          end
        else (None, out_dir)
    | None => (None, out_dir)
    end.


Fixpoint complete (body : stream) : bool :=
  match body with
  | End_of_stream => true
  | Chunk _ rest => complete rest
  | Stream_error => false
  end.

(** A page with two bulletins, one of them linked twice, a document
    that is no bulletin, a link that is no document and an anchor with no
    address. *)
Definition example_page : list anchor :=
  [{| a_href := Some "/wp-content/WFP_Sept_2023.pdf"; a_text := "September" |};
   {| a_href := Some "https://cdn.example.org/files/prices-oct-2023.pdf";
      a_text := "Weekly prices" |};
   {| a_href := Some "/wp-content/WFP_Sept_2023.pdf"; a_text := "again" |};
   {| a_href := Some "/about.pdf"; a_text := "About" |};
   {| a_href := Some "/weekly-prices/"; a_text := "Weekly" |};
   {| a_href := None; a_text := "Weekly" |}].

(** A network that serves one document in three chunks and breaks off
    another after its first chunk. *)
Definition example_get (url : string) : option get_response :=
  if String.eqb url "https://fpa.da.gov.ph/wp-content/WFP_Sept_2023.pdf" then
    Some {| resp_ok := true; content_length := Some 6%Z;
            iter_content := Chunk "%PD" (Chunk "" (Chunk "F-1" End_of_stream)) |}
  else if String.eqb url "https://fpa.da.gov.ph/broken/WFP_Oct_2023.pdf" then
    Some {| resp_ok := true; content_length := Some 6%Z;
            iter_content := Chunk "%PD" Stream_error |}
  else None.

(** ** The rice area and yield tables *)

(** [float(text.replace(",", ""))]; [None] when it raises. *)
Definition cell_value (text : string) : option spec_float :=
  PyFloat.of_string (Str.remove_char "," text).

(** [extract_value_from_table(html, target_name)], given the rows of the
    body of the table: each row is the list of the texts of its cells, as
    [get_text(strip=True)] gives them. *)
Fixpoint extract_value_from_table (rows : list (list string))
    (target_name : string) : option spec_float :=
  match rows with
  | [] => None
  | cols :: rows' =>
      match cols with
      | c0 :: c1 :: _ =>
          if String.eqb c0 target_name then cell_value c1
          else extract_value_from_table rows' target_name
      | _ => extract_value_from_table rows' target_name
      end
  end.

(** The list of the yields of a table; [None] when [float] raises on a
    cell. *)
Fixpoint yields_of (rows : list (list string)) : option (list spec_float) :=
  match rows with
  | [] => Some []
  | cols :: rows' =>
      match cols with
      | _ :: c1 :: _ =>
          match cell_value c1 with
          | Some v =>
              match yields_of rows' with
              | Some vs => Some (v :: vs)
              | None => None
              end
          | None => None
          end
      | _ => yields_of rows'
      end
  end.

(** A response of the report server: its status and the rows of its
    table. *)
Record prism_response := {
  status_code : Z;
  table_rows : list (list string)
}.

(** The rows of the two result tables. *)
Record area_record := {
  ra_date : string;
  ra_year : Z;
  ra_semester : Z;
  ra_region : string;
  rice_area_ha : spec_float
}.

Record yield_record := {
  yl_date : string;
  yl_year : Z;
  yl_semester : Z;
  yl_region : string;
  avg_yield_ton_per_ha : spec_float
}.

(** [list(range(2026, 2017, -1))] *)
Definition years : list Z := (fun i => 2026 - i)%Z <$> seqZ 0 9.

Definition sems : list Z := [1; 2]%Z.

Definition date_label (year sem : Z) : string :=
  str_of_int year +:+ "-S" +:+ str_of_int sem.

(** The order of [sort_values(by=["year", "semester"])]. *)
Definition period_leb (k1 k2 : Z * Z) : bool :=
  (k1.1 <? k2.1)%Z || (k1.1 =? k2.1)%Z && (k1.2 <=? k2.2)%Z.

(** [pd.DataFrame(results).sort_values(by=["year", "semester"])]: a frame
    made of no record has no column, and sorting it raises [KeyError]. *)
Definition sort_values {A : Type} (by_key : A -> Z * Z) (results : list A)
    : option (list A) :=
  match results with
  | [] => None
  | _ => Some (stable_sort (fun a b => period_leb (by_key a) (by_key b)) results)
  end.

Definition area_key (r : area_record) : Z * Z := (ra_year r, ra_semester r).
Definition yield_key (r : yield_record) : Z * Z := (yl_year r, yl_semester r).

(** The two output files of [download_yield_data]. *)
Record yield_files := {
  rice_area_csv : option (list area_record);
  yield_csv : option (list yield_record)
}.

Inductive yield_report :=
| Yield_data_saved
| KeyError_raised.

Section Prism.
(** The report server, by endpoint, year, semester and region ([None]:
    the request raises), and the [sum] of Python. *)
Variable post : string -> Z -> Z -> Z -> option prism_response.
Variable sum : list spec_float -> spec_float.

(** The body of the loop over the periods. *)
Definition query (st : list area_record * list yield_record) (year sem : Z)
    : list area_record * list yield_record :=
  let '(rice_area_results, yield_results) := st in
  let rice_area_results :=
    match post "RA" year sem 0 with
    | Some r_ra =>
        if (status_code r_ra =? 200)%Z then
          match extract_value_from_table (table_rows r_ra) "Region VII" with
          | Some ra_value =>
              rice_area_results ++
                [{| ra_date := date_label year sem; ra_year := year;
                    ra_semester := sem; ra_region := "Region VII";
                    rice_area_ha := ra_value |}]
          | None => rice_area_results
          end
        else rice_area_results
    | None => rice_area_results
    end in
  let yield_results :=
    match post "yield_nodrill" year sem 7 with
    | Some r_yld =>
        if (status_code r_yld =? 200)%Z then
          match yields_of (table_rows r_yld) with
          | Some (y :: ys) =>
              yield_results ++
                [{| yl_date := date_label year sem; yl_year := year;
                    yl_semester := sem; yl_region := "Region VII";
                    avg_yield_ton_per_ha :=
                      SFdiv PyFloat.prec PyFloat.emax (sum (y :: ys))
                        (PyFloat.of_decimal false
                           (Z.of_nat (length (y :: ys))) 0) |}]
          | _ => yield_results
          end
        else yield_results
    | None => yield_results
    end in
  (rice_area_results, yield_results).

(** [download_yield_data(out_dir)] *)
Definition download_yield_data (fs : yield_files) : yield_report * yield_files :=
  let '(rice_area_results, yield_results) :=
    fold_left (fun st year => fold_left (fun st sem => query st year sem) sems st)
      years ([], []) in
  match sort_values area_key rice_area_results with
  | Some df_ra =>
      match sort_values yield_key yield_results with
      | Some df_yield =>
          (Yield_data_saved,
           {| rice_area_csv := Some df_ra; yield_csv := Some df_yield |})
      | None =>
          (KeyError_raised,
           {| rice_area_csv := Some df_ra; yield_csv := yield_csv fs |})
      end
  | None => (KeyError_raised, fs)
  end.

(** The rice area that a period contributes, and the yields it
    contributes. *)
Definition area_value (year sem : Z) : option spec_float :=
  match post "RA" year sem 0 with
  | Some r_ra =>
      if (status_code r_ra =? 200)%Z
      then extract_value_from_table (table_rows r_ra) "Region VII"
      else None
  | None => None
  end.

Definition period_yields (year sem : Z) : option (list spec_float) :=
  match post "yield_nodrill" year sem 7 with
  | Some r_yld =>
      if (status_code r_yld =? 200)%Z then
        match yields_of (table_rows r_yld) with
        | Some (y :: ys) => Some (y :: ys)
        | _ => None
        end
      else None
  | None => None
  end.

Definition area_record_of (p : Z * Z) : option area_record :=
  match area_value p.1 p.2 with
  | Some v =>
      Some {| ra_date := date_label p.1 p.2; ra_year := p.1;
              ra_semester := p.2; ra_region := "Region VII";
              rice_area_ha := v |}
  | None => None
  end.

Definition yield_record_of (p : Z * Z) : option yield_record :=
  match period_yields p.1 p.2 with
  | Some yields =>
      Some {| yl_date := date_label p.1 p.2; yl_year := p.1;
              yl_semester := p.2; yl_region := "Region VII";
              avg_yield_ton_per_ha :=
                SFdiv PyFloat.prec PyFloat.emax (sum yields)
                  (PyFloat.of_decimal false (Z.of_nat (length yields)) 0) |}
  | None => None
  end.
End Prism.

(** The periods of the loop, in its order. *)
Definition periods : list (Z * Z) :=
  year ← years; (fun sem => (year, sem)) <$> sems.

(** A row that matches a target: two cells or more, the first one the
    target. *)
Definition matches (target_name : string) (cols : list string) : bool :=
  match cols with
  | c0 :: _ :: _ => String.eqb c0 target_name
  | _ => false
  end.

Definition period_lt (k1 k2 : Z * Z) : Prop :=
  (k1.1 < k2.1 \/ k1.1 = k2.1 /\ k1.2 < k2.2)%Z.

(** A server that knows the second semester of 2024 and the first of
    2025 for both tables, the first semester of 2024 for the rice area
    only, and answers with an error page or not at all otherwise. *)
Definition example_post (endpoint : string) (year sem region : Z)
    : option prism_response :=
  if String.eqb endpoint "RA" then
    if ((year =? 2025) && (sem =? 1))%Z then
      Some {| status_code := 200;
              table_rows := [["Region VI"; "300,100.5"];
                             ["Region VII"; "123,456.7"; "x"];
                             ["Region VII"; "1"]] |}
    else if (year =? 2024)%Z then
      Some {| status_code := 200;
              table_rows := [["Region VII"]; ["Region VII"; "98,000"]] |}
    else if (year =? 2023)%Z then
      Some {| status_code := 200;
              table_rows := [["Region VII"; "n/a"]; ["Region VII"; "5"]] |}
    else Some {| status_code := 500; table_rows := [["Region VII"; "7"]] |}
  else if String.eqb endpoint "yield_nodrill" then
    if ((year =? 2025) && (sem =? 1))%Z then
      Some {| status_code := 200;
              table_rows := [["Bohol"; "3.5"]; ["Cebu"; "2.5"]] |}
    else if ((year =? 2024) && (sem =? 2))%Z then
      Some {| status_code := 200; table_rows := [["Cebu"; "4"]] |}
    else if ((year =? 2024) && (sem =? 1))%Z then
      Some {| status_code := 200;
              table_rows := [["Bohol"; "3.5"]; ["Cebu"; "-"]] |}
    else None
  else None.

(** The sum of a list of floats, added from left to right. *)
Definition plain_sum (l : list spec_float) : spec_float :=
  fold_left (SFadd PyFloat.prec PyFloat.emax) l (S754_zero false).

Definition no_yield_files : yield_files :=
  {| rice_area_csv := None; yield_csv := None |}.

(** The same server without its yield tables. *)
Definition area_only_post (endpoint : string) (year sem region : Z)
    : option prism_response :=
  if String.eqb endpoint "RA" then example_post endpoint year sem region
  else None.

(** The rows of a written table, none for a table that is not written. *)
Definition rows_of_file {A : Type} (f : option (list A)) : list A :=
  default [] f.

(** Two characters that differ at most in the case of an ASCII letter, or
    in which of the separators ["_"], ["."] and ["-"] they are. *)
Definition interchangeable (c1 c2 : ascii) : Prop :=
  c1 = c2
  \/ (exists n, (65 <= n <= 90)%N
                /\ (Str.code c1 = n \/ Str.code c1 = (n + 32)%N)
                /\ (Str.code c2 = n \/ Str.code c2 = (n + 32)%N))
  \/ (In c1 ["_"; "."; "-"]%char /\ In c2 ["_"; "."; "-"]%char).

(** Two file names of the same length whose characters are
    interchangeable one by one. *)
Inductive same_name : string -> string -> Prop :=
| same_name_nil : same_name "" ""
| same_name_cons c1 c2 s1 s2 :
    interchangeable c1 c2 -> same_name s1 s2 ->
    same_name (String c1 s1) (String c2 s2).

(** ** Cache artifacts as pandas writes and reads them *)







(** ** The texts that stand for a float *)

(** A run of digits, where single underscores may stand between two
    digits; the second text is the run without its underscores. *)
Inductive digit_run : string -> string -> Prop :=
| digit_run_one c :
    Str.is_digit c = true -> digit_run (String c "") (String c "")
| digit_run_next c t d :
    Str.is_digit c = true -> digit_run t d ->
    digit_run (String c t) (String c d)
| digit_run_under c t d :
    Str.is_digit c = true -> digit_run t d ->
    digit_run (String c (String "_" t)) (String c d).

(** An optional sign. *)
Inductive sign_text : string -> bool -> Prop :=
| sign_none : sign_text "" false
| sign_plus : sign_text "+" false
| sign_minus : sign_text "-" true.

(** The digits of a decimal numeral, with an optional point: the whole
    number that all its digits write, and how many of them follow the
    point. *)
Inductive number_text : string -> Z -> Z -> Prop :=
| number_whole t d :
    digit_run t d -> number_text t (int_of_digits 0 d) 0
| number_point t d :
    digit_run t d -> number_text (t +:+ ".") (int_of_digits 0 d) 0
| number_fraction t d t' d' :
    digit_run t d -> digit_run t' d' ->
    number_text (t +:+ "." +:+ t') (int_of_digits 0 (d +:+ d'))
      (Z.of_nat (String.length d'))
| number_bare_fraction t' d' :
    digit_run t' d' ->
    number_text ("." +:+ t') (int_of_digits 0 d') (Z.of_nat (String.length d')).

(** An optional exponent: the letter e, an optional sign and digits. *)
Inductive exponent_text : string -> Z -> Prop :=
| exponent_none : exponent_text "" 0
| exponent_some c s neg t d :
    c = "e"%char \/ c = "E"%char -> sign_text s neg -> digit_run t d ->
    exponent_text (String c (s +:+ t))
      (if neg then (- int_of_digits 0 d)%Z else int_of_digits 0 d).

(** The texts that stand for a float, and the float each stands for: a
    signed decimal numeral stands for the binary64 number nearest to its
    value, and the names of infinity and of [NaN], in any case of their
    letters, stand for an infinity and for [NaN]. *)
Inductive float_text : string -> spec_float -> Prop :=
| float_infinity s neg w :
    sign_text s neg ->
    Str.lower w = "inf" \/ Str.lower w = "infinity" ->
    float_text (s +:+ w) (S754_infinity neg)
| float_nan s neg w :
    sign_text s neg -> Str.lower w = "nan" ->
    float_text (s +:+ w) S754_nan
| float_decimal s neg n m nf x e :
    sign_text s neg -> number_text n m nf -> exponent_text x e ->
    float_text (s +:+ n +:+ x) (PyFloat.of_decimal neg m (e - nf)).

(** A text that cannot go on a run of digits. *)
Definition ends_run (r : string) : Prop :=
  match r with
  | EmptyString => True
  | String c _ => Str.is_digit c = false /\ c <> "_"%char
  end.

(** A text that can follow a number: nothing, or an exponent. *)
Definition after_number (x : string) : Prop :=
  match x with
  | EmptyString => True
  | String c _ => c = "e"%char \/ c = "E"%char
  end.

(** * Properties *)

(** ** Whitespace and trimming *)

Lemma rstrip_empty s : Str.rstrip s = "" <-> whitespace_only s = true.
Proof.
  induction s as [|c s IH]; simpl; [tauto|].
  destruct (Str.rstrip s) eqn:E.
  - destruct (Str.is_space c); simpl.
    + split; [intros _; apply IH; reflexivity | reflexivity].
    + split; discriminate.
  - split; [discriminate|].
    intros H. apply andb_true_iff in H as [_ H].
    apply IH in H. discriminate.
Qed.

Lemma whitespace_only_lstrip s :
  whitespace_only (Str.lstrip s) = whitespace_only s.
Proof.
  induction s as [|c s IH]; simpl; [reflexivity|].
  destruct (Str.is_space c) eqn:E; simpl; [exact IH | now rewrite E].
Qed.

Lemma strip_empty s : Str.strip s = "" <-> whitespace_only s = true.
Proof.
  unfold Str.strip. rewrite rstrip_empty, whitespace_only_lstrip. tauto.
Qed.

Lemma whitespace_only_remove_char a s :
  whitespace_only s = true -> whitespace_only (Str.remove_char a s) = true.
Proof.
  induction s as [|c s IH]; simpl; [reflexivity|].
  intros H. apply andb_true_iff in H as [Hc Hs].
  destruct (Ascii.eqb c a); simpl; [auto | rewrite Hc; auto].
Qed.

Lemma remove_commas_and_spaces_blank s :
  whitespace_only s = true -> remove_commas_and_spaces s = "".
Proof.
  intros H. apply strip_empty.
  now do 2 apply whitespace_only_remove_char.
Qed.

Lemma eqb_empty s : String.eqb s "" = negb (Str.truthy s).
Proof. now destruct s. Qed.

(** ** The currency normalizer *)

Lemma clean_currency_text s :
  clean_currency (Some s) = PyFloat.of_string (remove_commas_and_spaces s).
Proof.
  unfold clean_currency.
  destruct (negb (Str.truthy s) || String.eqb (Str.strip s) "") eqn:G;
    [|reflexivity].
  assert (W : whitespace_only s = true).
  { apply orb_true_iff in G as [G|G].
    - destruct s; [reflexivity | discriminate].
    - apply strip_empty. now apply String.eqb_eq. }
  now rewrite (remove_commas_and_spaces_blank s W).
Qed.

(** ** Lines of a cell *)

Lemma split_first_line s :
  Str.split Str.newline s =
    first_line s ::
      match after_first_line s with
      | None => []
      | Some rest => Str.split Str.newline rest
      end.
Proof.
  induction s as [|c s IH]; simpl; [reflexivity|].
  destruct (Ascii.eqb c Str.newline); [reflexivity|].
  now rewrite IH.
Qed.

Lemma join_split s : Str.join " " (Str.split Str.newline s) = lines_joined s.
Proof.
  unfold lines_joined, Str.replace_char.
  induction s as [|c s IH]; simpl; [reflexivity|].
  destruct (Ascii.eqb c Str.newline) eqn:E.
  - rewrite <- IH. rewrite (split_first_line s). reflexivity.
  - rewrite <- IH. rewrite (split_first_line s).
    destruct (after_first_line s) as [rest|]; [|reflexivity].
    rewrite (split_first_line rest). reflexivity.
Qed.

Lemma split_one_line s :
  (length (Str.split Str.newline s) =? 1)%nat =
    match after_first_line s with None => true | Some _ => false end.
Proof.
  rewrite split_first_line.
  destruct (after_first_line s) as [rest|]; [|reflexivity].
  rewrite (split_first_line rest). reflexivity.
Qed.

(** ** The row classifier, case by case *)

Lemma parse_row_cases file_date filename st r :
  parse_row file_date filename st r =
    if skipped r then st
    else
      let region :=
        if region_marker r then marker_region r else current_region st in
      {| current_region := region;
         data := emit file_date filename region (row_province r)
                   (row_prices r) (data st) |}.
Proof.
  destruct r as [|c0 r]; [reflexivity|].
  unfold parse_row, row_province, regional_average, region_marker, skipped,
    header_rule, marker_region, first_cell.
  cbn [existsb].
  set (raw := Str.strip (str c0)). set (fc := Str.upper raw).
  rewrite split_one_line, (split_first_line raw).
  cbn [hd tl].
  set (b0 := Str.truthy raw).
  set (b1 := Str.contains "REGION" fc).
  set (b2 := Str.contains "PROVINCE" fc).
  set (b3 := Str.contains "FERTILIZER" fc).
  set (b4 := Str.contains "UREA" fc).
  set (b5 := Str.startswith "46-0-0" fc).
  set (b6 := String.eqb fc "PRICE").
  set (b7 := String.eqb fc "CAR").
  set (b8 := String.eqb fc "CARAGA").
  set (b9 := String.eqb fc "BARMM").
  set (b10 := String.eqb fc "AVE").
  set (b11 := String.eqb fc "AVERAGE PRICE").
  clearbody b0 b1 b2 b3 b4 b5 b6 b7 b8 b9 b10 b11.
  destruct (after_first_line raw) as [rest|];
    [rewrite join_split|];
    destruct b0, b1, b2, b3, b4, b5, b6, b7, b8, b9, b10, b11; reflexivity.
Qed.

Lemma region_marker_not_skipped r : region_marker r = true -> skipped r = false.
Proof.
  unfold region_marker. intros H. apply andb_true_iff in H as [H _].
  now apply negb_true_iff.
Qed.

(** C1, as amended. For a row that no skip rule discards and whose first
    cell, upper-cased and trimmed, contains ["REGION"] or is one of
    ["CAR"], ["CARAGA"], ["BARMM"], the classifier sets [current_region]
    to the first line of the trimmed cell, itself trimmed; when the cell
    has one line the next seven cells are the prices of a record with the
    province ["Regional Summary"]; when it has more, the remaining lines
    joined with a single space, the result trimmed, are the province of
    that same row's prices. *)
Theorem region_marker_row file_date filename st r :
  region_marker r = true ->
  marker_row_outcome Str.strip file_date filename st r.
Proof.
  intros H. unfold marker_row_outcome. cbv zeta.
  rewrite parse_row_cases, (region_marker_not_skipped r H).
  cbv zeta. unfold row_province, marker_region, emit, any, row_prices.
  rewrite H. reflexivity.
Qed.

(** The two region-marker rows of the specification: ["CARAGA"] with two
    prices gives one ["Regional Summary"] record of the region
    ["CARAGA"]; the cell ["REGION VII\nCebu"] gives one record of the
    province ["Cebu"] in the region ["REGION VII"]. *)
Lemma region_marker_row_witness :
  (region_marker caraga_row = true
   /\ marker_row_outcome Str.strip (Some september_2023) "wfp.pdf"
        initial_state caraga_row
   /\ (fun s => (current_region s, (fun e => (Region e, Province e)) <$> data s))
        (parse_row (Some september_2023) "wfp.pdf" initial_state caraga_row)
      = ("CARAGA", [(Some "CARAGA", Some "Regional Summary")]))
  /\ (region_marker cebu_row = true
      /\ marker_row_outcome Str.strip (Some september_2023) "wfp.pdf"
           initial_state cebu_row
      /\ (fun s => (current_region s, (fun e => (Region e, Province e)) <$> data s))
           (parse_row (Some september_2023) "wfp.pdf" initial_state cebu_row)
         = ("REGION VII", [(Some "REGION VII", Some "Cebu")])).
Proof.
  split; (split; [vm_compute; reflexivity|]);
    (split; [apply region_marker_row; vm_compute; reflexivity
            | vm_compute; reflexivity]).
Defined.

(** C1, as stated, fails on a marker whose lines carry whitespace next to
    the line break: for the cell ["REGION VII \n Cebu"] the first line is
    ["REGION VII "] and the remaining line is [" Cebu"], and the
    classifier records the region ["REGION VII"] and the province
    ["Cebu"]. *)
Lemma region_marker_row_untrimmed :
  region_marker padded_marker_row = true
  /\ first_line (first_cell padded_marker_row) = "REGION VII "
  /\ (lines_joined <$> after_first_line (first_cell padded_marker_row))
       = Some " Cebu"
  /\ (fun s => (current_region s, (fun e => (Region e, Province e)) <$> data s))
       (parse_row (Some september_2023) "wfp.pdf" initial_state padded_marker_row)
     = ("REGION VII", [(Some "REGION VII", Some "Cebu")])
  /\ ~ marker_row_outcome (fun s => s) (Some september_2023) "wfp.pdf"
         initial_state padded_marker_row.
Proof.
  do 4 (split; [vm_compute; reflexivity|]).
  unfold marker_row_outcome. vm_compute. discriminate.
Qed.

(** ** Emission of records *)

Lemma price_truthy_null_or_zero p : price_truthy p = negb (null_or_zero p).
Proof.
  destruct p as [x|]; [|reflexivity].
  unfold null_or_zero, PyFloat.is_zero. simpl. now rewrite negb_involutive.
Qed.

Lemma any_false_iff prices :
  any prices = false <-> forallb null_or_zero prices = true.
Proof.
  unfold any. induction prices as [|p ps IH]; simpl; [tauto|].
  rewrite price_truthy_null_or_zero, orb_false_iff, andb_true_iff, IH.
  rewrite negb_false_iff. tauto.
Qed.

Lemma emit_nothing file_date filename region province prices rows :
  any prices = false ->
  emit file_date filename region province prices rows = rows.
Proof. unfold emit. now intros ->. Qed.

Lemma emit_one file_date filename region province prices rows :
  any prices = true ->
  emit file_date filename region province prices rows =
    rows ++ [create_entry file_date region province prices filename].
Proof. unfold emit. now intros ->. Qed.

Lemma parse_row_quiet file_date filename st r :
  any (row_prices r) = false ->
  data (parse_row file_date filename st r) = data st.
Proof.
  intros H. rewrite parse_row_cases.
  destruct (skipped r); [reflexivity|].
  cbv zeta. simpl. now apply emit_nothing.
Qed.

(** C9. A data row whose seven price cells each normalize to no value or
    to a zero produces no record: the emission test is the truth value of
    the normalized prices, and a zero is as false as a missing value. A
    row that is not skipped and has a price that is neither produces
    exactly one record. *)
Theorem zero_prices_discarded file_date filename st r :
  (forallb null_or_zero (row_prices r) = true ->
     data (parse_row file_date filename st r) = data st)
  /\ (skipped r = false ->
      existsb price_truthy (row_prices r) = true ->
      exists e, data (parse_row file_date filename st r) = data st ++ [e]
                /\ entry_prices e = take 7 (row_prices r ++ repeat None 7)).
Proof.
  split.
  - intros H. apply parse_row_quiet. now apply any_false_iff.
  - intros S H. rewrite parse_row_cases, S. cbv zeta. simpl.
    rewrite emit_one by exact H.
    eexists. split; [reflexivity|].
    unfold create_entry, entry_prices. simpl.
    generalize (row_prices r). intros l.
    do 8 (try (destruct l as [|? l]; [reflexivity|])). reflexivity.
Qed.

(** A province row whose only price that is not null is a zero gives no
    record; the same row with a price of 850.5 gives one. *)
Lemma zero_prices_discarded_witness :
  (row_prices zero_row = [Some (S754_zero false); None; None]
   /\ data (parse_row (Some september_2023) "wfp.pdf" initial_state zero_row)
      = data initial_state)
  /\ exists e,
      data (parse_row (Some september_2023) "wfp.pdf" initial_state bohol_row)
        = data initial_state ++ [e]
      /\ entry_prices e = take 7 (row_prices bohol_row ++ repeat None 7).
Proof.
  split; [split; [vm_compute; reflexivity|]|].
  - apply (proj1 (zero_prices_discarded (Some september_2023) "wfp.pdf"
                    initial_state zero_row)).
    vm_compute; reflexivity.
  - apply (proj2 (zero_prices_discarded (Some september_2023) "wfp.pdf"
                    initial_state bohol_row));
      vm_compute; reflexivity.
Defined.

(** ** Every record has a price *)

Lemma entry_prices_create_entry file_date region province prices filename :
  entry_prices (create_entry file_date region province prices filename)
    = take 7 (prices ++ repeat None 7).
Proof.
  unfold create_entry, entry_prices. simpl.
  do 8 (try (destruct prices as [|? prices]; [reflexivity|])). reflexivity.
Qed.

Lemma row_prices_length r : length (row_prices r) <= 7.
Proof.
  unfold row_prices. rewrite length_fmap, length_take. lia.
Qed.

Lemma truthy_price_is_some prices :
  existsb price_truthy prices = true ->
  existsb (fun p : option spec_float =>
             match p with Some _ => true | None => false end) prices = true.
Proof.
  induction prices as [|p ps IH]; simpl; [discriminate|].
  intros H. apply orb_true_iff in H as [H|H].
  - destruct p; [reflexivity | discriminate].
  - rewrite (IH H). apply orb_true_r.
Qed.

Lemma has_price_create_entry file_date region province prices filename :
  length prices <= 7 -> any prices = true ->
  has_price (create_entry file_date region province prices filename) = true.
Proof.
  intros L H. unfold has_price. rewrite entry_prices_create_entry.
  rewrite take_app_ge by exact L. rewrite existsb_app.
  unfold any in H. now rewrite (truthy_price_is_some prices H).
Qed.

Lemma emit_has_price file_date filename region province prices rows :
  length prices <= 7 ->
  Forall (fun e => has_price e = true) rows ->
  Forall (fun e => has_price e = true)
    (emit file_date filename region province prices rows).
Proof.
  intros L F. unfold emit. destruct (any prices) eqn:A; [|exact F].
  apply Forall_app. split; [exact F|].
  apply Forall_cons. split; [|apply Forall_nil_2].
  now apply has_price_create_entry.
Qed.

Lemma parse_row_has_price file_date filename st r :
  Forall (fun e => has_price e = true) (data st) ->
  Forall (fun e => has_price e = true) (data (parse_row file_date filename st r)).
Proof.
  intros F. rewrite parse_row_cases.
  destruct (skipped r); [exact F|].
  cbv zeta. simpl. apply emit_has_price; [apply row_prices_length | exact F].
Qed.

Lemma parse_rows_has_price file_date filename rows st :
  Forall (fun e => has_price e = true) (data st) ->
  Forall (fun e => has_price e = true)
    (data (parse_rows file_date filename st rows)).
Proof.
  revert st. induction rows as [|r rows IH]; intros st F; [exact F|].
  simpl. apply IH. now apply parse_row_has_price.
Qed.

Lemma fold_left_concat {A B} (f : A -> B -> A) (ls : list (list B)) (a : A) :
  fold_left (fun a l => fold_left f l a) ls a = fold_left f (concat ls) a.
Proof.
  revert a. induction ls as [|l ls IH]; intros a; simpl; [reflexivity|].
  now rewrite IH, fold_left_app.
Qed.

(** The three nested loops of [parse_pdf] are one loop over the rows of
    the document in reading order: the state is never reset between
    tables or pages. *)
Lemma parse_pages_rows file_date filename st ps :
  parse_pages file_date filename st ps
    = parse_rows file_date filename st (rows_of ps).
Proof.
  unfold parse_pages, parse_rows, rows_of.
  revert st. induction ps as [|p ps IH]; intros st; [reflexivity|].
  cbn [fold_left concat]. rewrite concat_app, fold_left_app, IH.
  f_equal. unfold parse_page, parse_table. apply fold_left_concat.
Qed.

Lemma all_null_any prices :
  Forall (fun p : option spec_float => p = None) prices -> any prices = false.
Proof.
  intros F. apply any_false_iff. apply forallb_forall.
  intros p Hp. rewrite Forall_forall in F.
  apply list_elem_of_In in Hp. now rewrite (F p Hp).
Qed.

(** C2. Every record the document parser emits has at least one of its
    seven price fields not null; and whatever the branch that classifies
    it, a row whose price cells all normalize to no value leaves the
    records as they were. *)
Theorem emitted_records_have_a_price :
  (forall doc records,
     parse_pdf doc = Some records ->
     Forall (fun e => has_price e = true) records)
  /\ (forall file_date filename st r,
        Forall (fun p => p = None) (row_prices r) ->
        data (parse_row file_date filename st r) = data st).
Proof.
  split.
  - intros doc records. unfold parse_pdf.
    destruct (extract_date_from_filename (doc_name doc)) as [d|].
    + destruct (doc_pages doc) as [ps|]; [|discriminate].
      intros [= <-]. rewrite parse_pages_rows.
      apply parse_rows_has_price. apply Forall_nil_2.
    + intros [= <-]. apply Forall_nil_2.
  - intros file_date filename st r F.
    apply parse_row_quiet. now apply all_null_any.
Qed.

(** The example document yields two records, each with a price; a
    region-marker row, a regional-average row and a province row with
    blank price cells add nothing. *)
Lemma emitted_records_have_a_price_witness :
  (exists records,
     parse_pdf example_document = Some records
     /\ length records = 2
     /\ Forall (fun e => has_price e = true) records)
  /\ Forall (fun r =>
       region_marker r || regional_average r || negb (skipped r) = true
       /\ data (parse_row (Some september_2023) "wfp.pdf" initial_state r)
          = data initial_state)
       [blank_marker_row; blank_average_row; blank_prices_row].
Proof.
  split.
  - eexists. split; [vm_compute; reflexivity|].
    split; [reflexivity|].
    apply (proj1 emitted_records_have_a_price example_document).
    vm_compute; reflexivity.
  - repeat (apply Forall_cons; split); try apply Forall_nil_2;
      (split; [vm_compute; reflexivity|]);
      apply (proj2 emitted_records_have_a_price);
      vm_compute; repeat constructor.
Defined.

(** The price that is not [None] may be a NaN: [float("nan")] is truthy,
    so a row whose only price cell reads ["nan"] gives a record, with a
    NaN for its price. *)
Lemma nan_price_is_emitted :
  entry_prices <$>
    data (parse_row (Some september_2023) "wfp.pdf" initial_state nan_row)
  = [[Some S754_nan; None; None; None; None; None; None]].
Proof. vm_compute. reflexivity. Qed.

(** ** The region context *)

Lemma skipped_not_marker r : skipped r = true -> region_marker r = false.
Proof. unfold region_marker. now intros ->. Qed.

Lemma parse_row_region file_date filename st r :
  current_region (parse_row file_date filename st r)
    = if region_marker r then marker_region r else current_region st.
Proof.
  rewrite parse_row_cases. destruct (skipped r) eqn:S; [|reflexivity].
  now rewrite (skipped_not_marker r S).
Qed.

Lemma parse_row_new file_date filename st r :
  exists new,
    data (parse_row file_date filename st r) = data st ++ new
    /\ Forall (fun e =>
         Region e = Some (current_region (parse_row file_date filename st r)))
         new
    /\ (skipped r = false -> any (row_prices r) = true -> length new = 1%nat).
Proof.
  rewrite parse_row_cases. destruct (skipped r).
  - exists []. rewrite app_nil_r. repeat split; [constructor | discriminate].
  - cbv zeta. cbn [data current_region]. unfold emit.
    destruct (any (row_prices r)).
    + eexists. split; [reflexivity|]. split; [|reflexivity].
      repeat constructor.
    + exists []. rewrite app_nil_r. repeat split; [constructor | discriminate].
Qed.

Lemma parse_rows_app file_date filename st rows1 rows2 :
  parse_rows file_date filename st (rows1 ++ rows2)
    = parse_rows file_date filename
        (parse_rows file_date filename st rows1) rows2.
Proof. apply fold_left_app. Qed.

Lemma parse_rows_cons file_date filename st r rows :
  parse_rows file_date filename st (r :: rows)
    = parse_rows file_date filename (parse_row file_date filename st r) rows.
Proof. reflexivity. Qed.

Lemma parse_rows_prefix file_date filename rows st :
  exists rest, data (parse_rows file_date filename st rows) = data st ++ rest.
Proof.
  revert st. induction rows as [|r rows IH]; intros st.
  - exists []. now rewrite app_nil_r.
  - cbn [parse_rows fold_left].
    destruct (IH (parse_row file_date filename st r)) as [rest E].
    destruct (parse_row_new file_date filename st r) as (new & N & _).
    exists (new ++ rest). unfold parse_rows in E. rewrite E, N.
    now rewrite app_assoc.
Qed.

Lemma parse_rows_no_marker file_date filename rows st :
  forallb (fun r => negb (region_marker r)) rows = true ->
  current_region (parse_rows file_date filename st rows) = current_region st
  /\ (Forall (fun e => Region e = Some (current_region st)) (data st) ->
      Forall (fun e => Region e = Some (current_region st))
        (data (parse_rows file_date filename st rows))).
Proof.
  revert st. induction rows as [|r rows IH]; intros st H; [now split|].
  cbn [forallb] in H. apply andb_true_iff in H as [Hr H].
  apply negb_true_iff in Hr.
  cbn [parse_rows fold_left].
  destruct (IH (parse_row file_date filename st r) H) as [R F].
  pose proof (parse_row_region file_date filename st r) as E.
  rewrite Hr in E. unfold parse_rows in R, F. rewrite E in R, F.
  split; [exact R|]. intros D. apply F.
  destruct (parse_row_new file_date filename st r) as (new & N & FN & _).
  rewrite N. apply Forall_app. split; [exact D|]. now rewrite E in FN.
Qed.

(** C5. Within one document the region context starts at ["Unknown"], is
    changed by region-marker rows only, and is carried across the rows,
    tables and pages that follow: records read before any marker carry
    ["Unknown"], and a row that comes after a marker, with rows of any
    other kind in between, records that marker's region. The parser runs
    the classifier from that initial context over all the rows of the
    document in reading order. *)
Theorem region_context_persists file_date filename :
  current_region initial_state = "Unknown"
  /\ (forall st r,
        current_region (parse_row file_date filename st r)
          = if region_marker r then marker_region r else current_region st)
  /\ (forall rows,
        forallb (fun r => negb (region_marker r)) rows = true ->
        Forall (fun e => Region e = Some "Unknown")
          (data (parse_rows file_date filename initial_state rows)))
  /\ (forall ps pre m mid p post,
        rows_of ps = pre ++ m :: mid ++ p :: post ->
        region_marker m = true ->
        forallb (fun r => negb (region_marker r)) mid = true ->
        region_marker p = false ->
        let s0 := parse_rows file_date filename initial_state (pre ++ m :: mid) in
        let s1 := parse_row file_date filename s0 p in
        current_region s0 = marker_region m
        /\ (exists new,
              data s1 = data s0 ++ new
              /\ Forall (fun e => Region e = Some (marker_region m)) new
              /\ (skipped p = false -> any (row_prices p) = true ->
                  length new = 1%nat))
        /\ exists rest,
             data (parse_pages file_date filename initial_state ps)
               = data s1 ++ rest)
  /\ (forall doc d ps,
        extract_date_from_filename (doc_name doc) = Some d ->
        doc_pages doc = Some ps ->
        parse_pdf doc
          = Some (data (parse_rows (Some d) (doc_name doc) initial_state
                          (rows_of ps)))).
Proof.
  split; [reflexivity|].
  split; [intros st r; apply parse_row_region|].
  split; [|split];
    [| |intros doc d ps E P; unfold parse_pdf;
        now rewrite E, P, parse_pages_rows].
  - intros rows H.
    apply (parse_rows_no_marker file_date filename rows initial_state H).
    constructor.
  - intros ps pre m mid p post E Hm Hmid Hp s0 s1.
    assert (R0 : current_region s0 = marker_region m).
    { unfold s0. rewrite parse_rows_app, parse_rows_cons.
      rewrite (proj1 (parse_rows_no_marker file_date filename mid _ Hmid)).
      now rewrite parse_row_region, Hm. }
    split; [exact R0|]. split.
    + destruct (parse_row_new file_date filename s0 p) as (new & N & F & L).
      exists new. split; [exact N|]. split; [|exact L].
      fold s1 in F. unfold s1 in F.
      rewrite parse_row_region, Hp, R0 in F. exact F.
    + rewrite parse_pages_rows, E.
      replace (pre ++ m :: mid ++ p :: post)
        with ((pre ++ m :: mid) ++ p :: post)
        by now rewrite <- app_assoc.
      rewrite parse_rows_app, parse_rows_cons.
      apply (parse_rows_prefix file_date filename post s1).
Qed.

(** A province row in the table after the one of its region marker, with
    a header row in between, records the marker's region. *)
Lemma region_context_persists_witness :
  let ps : list page := [[[cebu_row]; [header_row; bohol_row]]] in
  let s0 := parse_rows (Some september_2023) "wfp.pdf" initial_state
              ([] ++ cebu_row :: [header_row]) in
  let s1 := parse_row (Some september_2023) "wfp.pdf" s0 bohol_row in
  (current_region s0 = marker_region cebu_row
   /\ (exists new,
         data s1 = data s0 ++ new
         /\ Forall (fun e => Region e = Some (marker_region cebu_row)) new
         /\ (skipped bohol_row = false -> any (row_prices bohol_row) = true ->
             length new = 1%nat))
   /\ exists rest,
        data (parse_pages (Some september_2023) "wfp.pdf" initial_state ps)
          = data s1 ++ rest)
  /\ marker_region cebu_row = "REGION VII"
  /\ ((fun e => (Region e, Province e)) <$>
        data (parse_pages (Some september_2023) "wfp.pdf" initial_state ps))
     = [(Some "REGION VII", Some "Cebu"); (Some "REGION VII", Some "Bohol")].
Proof.
  cbv zeta. split; [|split; vm_compute; reflexivity].
  apply (proj1 (proj2 (proj2 (proj2
           (region_context_persists (Some september_2023) "wfp.pdf"))))
           [[[cebu_row]; [header_row; bohol_row]]] [] cebu_row [header_row]
           bohol_row []);
    vm_compute; reflexivity.
Defined.

(** ** Searching a text *)

Lemma append_cons (x : ascii) (a b : string) :
  String x a +:+ b = String x (a +:+ b).
Proof. reflexivity. Qed.

Lemma append_nil (b : string) : "" +:+ b = b.
Proof. reflexivity. Qed.

Lemma append_assoc_str (a b c : string) : (a +:+ b) +:+ c = a +:+ b +:+ c.
Proof.
  induction a as [|x a IH]; [reflexivity|].
  rewrite !append_cons. now f_equal.
Qed.

Lemma startswith_prefix t s :
  Str.startswith t s = true <-> exists rest, s = t +:+ rest.
Proof.
  revert s. induction t as [|a t IH]; intros s; simpl.
  - split; [intros _; now exists s | reflexivity].
  - destruct s as [|b s].
    + split; [discriminate | intros [rest E]; discriminate].
    + rewrite andb_true_iff, IH. split.
      * intros [E [rest ->]]. apply Ascii.eqb_eq in E as ->. now exists rest.
      * intros [rest [= -> ->]]. split; [apply Ascii.eqb_refl | now exists rest].
Qed.

Lemma re_search_some m s g :
  re_search m s = Some g ->
  exists pre post, s = pre +:+ post /\ m post = Some g.
Proof.
  induction s as [|c s IH]; simpl.
  - destruct (m "") eqn:E; [|discriminate].
    intros [= <-]. now exists "", "".
  - destruct (m (String c s)) eqn:E.
    + intros [= <-]. now exists "", (String c s).
    + intros H. destruct (IH H) as (pre & post & -> & M).
      now exists (String c pre), post.
Qed.


Lemma match_year_some s y :
  match_year s = Some y -> is_year y /\ exists rest, s = y +:+ rest.
Proof.
  unfold match_year.
  destruct s as [|c0 [|c1 [|a [|b rest]]]]; try discriminate;
    try (destruct c0 as [[] [] [] [] [] [] [] []]; discriminate);
    try (destruct c0 as [[] [] [] [] [] [] [] []]; try discriminate;
         destruct c1 as [[] [] [] [] [] [] [] []]; discriminate).
  destruct c0 as [[] [] [] [] [] [] [] []]; try discriminate.
  destruct c1 as [[] [] [] [] [] [] [] []]; try discriminate.
  destruct (Str.is_digit a) eqn:A; [|discriminate].
  destruct (Str.is_digit b) eqn:B; [|discriminate].
  intros [= <-]. split; [now exists a, b | now exists rest].
Qed.


Lemma match_alt_some alts s t :
  match_alt alts s = Some t -> In t alts /\ Str.startswith t s = true.
Proof.
  unfold match_alt. intros H.
  now apply (find_some (fun a => Str.startswith a s)) in H.
Qed.


(** ** The month tokens, longest first *)

Lemma insert_by_len_in x l t : In t (insert_by_len x l) <-> t = x \/ In t l.
Proof.
  induction l as [|y l IH]; simpl; [intuition|].
  destruct (String.length x <? String.length y)%nat; simpl;
    [rewrite IH|]; intuition.
Qed.

Lemma sort_by_len_desc_in l t : In t (sort_by_len_desc l) <-> In t l.
Proof.
  induction l as [|x l IH]; simpl; [tauto|].
  rewrite insert_by_len_in, IH. intuition.
Qed.

Lemma insert_by_len_sorted x l :
  StronglySorted (fun a b => String.length b <= String.length a) l ->
  StronglySorted (fun a b => String.length b <= String.length a)
    (insert_by_len x l).
Proof.
  induction 1 as [|y l S IH F]; simpl; [repeat constructor|].
  destruct (String.length x <? String.length y)%nat eqn:E.
  - apply Nat.ltb_lt in E. constructor; [exact IH|].
    apply Forall_forall. intros t Ht.
    apply list_elem_of_In, insert_by_len_in in Ht as [->|Ht]; [lia|].
    rewrite Forall_forall in F. apply F. now apply list_elem_of_In.
  - apply Nat.ltb_ge in E. constructor; [now constructor|].
    constructor; [exact E|].
    eapply Forall_impl; [exact F|]. simpl. intros; lia.
Qed.

Lemma sort_by_len_desc_sorted l :
  StronglySorted (fun a b => String.length b <= String.length a)
    (sort_by_len_desc l).
Proof.
  induction l as [|x l IH]; simpl; [constructor|].
  now apply insert_by_len_sorted.
Qed.

Lemma find_first_longest (p : string -> bool) l t :
  StronglySorted (fun a b => String.length b <= String.length a) l ->
  List.find p l = Some t ->
  forall t', In t' l -> p t' = true -> String.length t' <= String.length t.
Proof.
  induction 1 as [|a l S IH F]; simpl; [discriminate|].
  destruct (p a) eqn:E.
  - intros [= <-] t' [<-|H] _; [lia|].
    rewrite Forall_forall in F. apply F. now apply list_elem_of_In.
  - intros H t' [<-|H'] P; [congruence|]. now apply IH.
Qed.

(** ** Building the date *)

Lemma is_digit_in_digits c : Str.is_digit c = true -> In c digits.
Proof.
  destruct c as [[] [] [] [] [] [] [] []]; try discriminate; intros _;
    simpl; tauto.
Qed.

Lemma date_check_all :
  forallb (fun t =>
    forallb (fun a => forallb (fun b => date_check t a b) digits) digits)
    months = true.
Proof. vm_compute. reflexivity. Qed.

Lemma date_check_holds t y :
  In t months -> is_year y ->
  exists m,
    token_month t = Some m
    /\ Str.truthy t = true
    /\ to_datetime ((if String.eqb t "sept" then "sep" else t) +:+ " 1 " +:+ y)
       = Some {| ts_year := int_of_digits 0 y; ts_month := m; ts_day := 1 |}
    /\ (2000 <= int_of_digits 0 y <= 2099)%Z /\ (1 <= m <= 12)%Z.
Proof.
  intros T (a & b & -> & A & B).
  pose proof date_check_all as C.
  rewrite forallb_forall in C. specialize (C t T).
  rewrite forallb_forall in C. specialize (C a (is_digit_in_digits a A)).
  rewrite forallb_forall in C. specialize (C b (is_digit_in_digits b B)).
  unfold date_check, year_text in C.
  destruct (to_datetime _) as [[dy dm dd]|] eqn:D; [|discriminate].
  destruct (token_month t) as [m|]; [|discriminate].
  cbn [ts_year ts_month ts_day] in C.
  repeat (apply andb_true_iff in C as [C ?]).
  repeat match goal with
         | H : (_ =? _)%Z = true |- _ => apply Z.eqb_eq in H
         | H : (_ <=? _)%Z = true |- _ => apply Z.leb_le in H
         end.
  subst. exists m. repeat split; try assumption; try lia.
Qed.

(** ** The filename date inferrer *)

Lemma year_found s y :
  re_search match_year s = Some y -> is_year y /\ occurs y s.
Proof.
  intros H. apply re_search_some in H as (pre & post & -> & M).
  apply match_year_some in M as [Y [rest ->]].
  split; [exact Y | now exists pre, rest].
Qed.


Lemma month_found s t :
  re_search (match_alt (sort_by_len_desc months)) s = Some t ->
  In t months
  /\ exists pre post,
       s = pre +:+ t +:+ post
       /\ forall t', In t' months ->
            Str.startswith t' (t +:+ post) = true ->
            String.length t' <= String.length t.
Proof.
  intros H. apply re_search_some in H as (pre & rest & -> & M).
  pose proof (match_alt_some _ _ _ M) as [T P].
  apply (proj1 (sort_by_len_desc_in _ _)) in T.
  apply startswith_prefix in P as [post ->].
  split; [exact T|]. exists pre, post. split; [reflexivity|].
  intros t' T' P'.
  apply (find_first_longest (fun a => Str.startswith a (t +:+ post))
           (sort_by_len_desc months) t);
    [apply sort_by_len_desc_sorted | exact M
    | now apply (proj2 (sort_by_len_desc_in _ _)) | exact P'].
Qed.


Lemma extract_date_found filename t y :
  re_search (match_alt (sort_by_len_desc months)) (normalized_name filename)
    = Some t ->
  re_search match_year (normalized_name filename) = Some y ->
  exists m,
    token_month t = Some m
    /\ extract_date_from_filename filename
       = Some {| ts_year := int_of_digits 0 y; ts_month := m; ts_day := 1 |}.
Proof.
  intros T Y. unfold extract_date_from_filename.
  fold (normalized_name filename). rewrite T, Y.
  destruct (month_found _ _ T) as [Tm _].
  destruct (year_found _ _ Y) as [Yy _].
  destruct (date_check_holds t y Tm Yy) as (m & M & Tt & D & _).
  exists m. split; [exact M|].
  rewrite Tt, D.
  destruct Yy as (a & b & -> & _). reflexivity.
Qed.

Lemma extract_date_absent filename :
  re_search (match_alt (sort_by_len_desc months)) (normalized_name filename)
    = None
  \/ re_search match_year (normalized_name filename) = None ->
  extract_date_from_filename filename = None.
Proof.
  unfold extract_date_from_filename. fold (normalized_name filename).
  intros [-> | ->]; [reflexivity|].
  now destruct (re_search (match_alt _) _).
Qed.



(** ** The stable sort *)

Section StableSortFacts.
Context {A : Type} (leb : A -> A -> bool).

Lemma insert_sorted_perm x l : Permutation (insert_sorted leb x l) (x :: l).
Proof.
  induction l as [|y l IH]; simpl; [reflexivity|].
  destruct (leb y x); [|reflexivity].
  rewrite IH. apply perm_swap.
Qed.

Lemma fold_insert_perm l acc :
  Permutation (fold_left (fun acc x => insert_sorted leb x acc) l acc)
    (acc ++ l).
Proof.
  revert acc. induction l as [|x l IH]; intros acc; simpl.
  - now rewrite app_nil_r.
  - rewrite IH, insert_sorted_perm. apply Permutation_middle.
Qed.

Lemma stable_sort_perm l : Permutation (stable_sort leb l) l.
Proof. apply (fold_insert_perm l []). Qed.

Hypothesis leb_total : forall a b, leb a b = true \/ leb b a = true.

Lemma insert_sorted_hd a x l :
  leb a x = true ->
  HdRel (fun a b => leb a b = true) a l ->
  HdRel (fun a b => leb a b = true) a (insert_sorted leb x l).
Proof.
  intros H Hd. destruct l as [|y l]; simpl; [now constructor|].
  destruct (leb y x); constructor; [now inversion Hd | exact H].
Qed.

Lemma insert_sorted_sorted x l :
  Sorted (fun a b => leb a b = true) l ->
  Sorted (fun a b => leb a b = true) (insert_sorted leb x l).
Proof.
  induction 1 as [|y l S IH Hd]; simpl; [repeat constructor|].
  destruct (leb y x) eqn:E.
  - constructor; [exact IH|]. now apply insert_sorted_hd.
  - constructor; [now constructor|]. constructor.
    destruct (leb_total x y); [assumption | congruence].
Qed.

Lemma fold_insert_sorted l acc :
  Sorted (fun a b => leb a b = true) acc ->
  Sorted (fun a b => leb a b = true)
    (fold_left (fun acc x => insert_sorted leb x acc) l acc).
Proof.
  revert acc. induction l as [|x l IH]; intros acc S; simpl; [exact S|].
  apply IH. now apply insert_sorted_sorted.
Qed.

Lemma stable_sort_sorted l :
  Sorted (fun a b => leb a b = true) (stable_sort leb l).
Proof. apply fold_insert_sorted. constructor. Qed.

End StableSortFacts.

(** ** The order of the monthly rows *)

Lemma lex_opp c1 c2 : lex (CompOpp c1) (CompOpp c2) = CompOpp (lex c1 c2).
Proof. now destruct c1. Qed.

Lemma timestamp_compare_antisym d1 d2 :
  timestamp_compare d2 d1 = CompOpp (timestamp_compare d1 d2).
Proof.
  unfold timestamp_compare.
  rewrite (Z.compare_antisym (ts_year d1)), (Z.compare_antisym (ts_month d1)),
    (Z.compare_antisym (ts_day d1)).
  now rewrite !lex_opp.
Qed.

Lemma monthly_leb_total r1 r2 :
  Monthly.leb r1 r2 = true \/ Monthly.leb r2 r1 = true.
Proof.
  unfold Monthly.leb.
  rewrite (timestamp_compare_antisym (Monthly.Date r1) (Monthly.Date r2)).
  rewrite (String.compare_antisym (Monthly.Province r2) (Monthly.Province r1)).
  rewrite lex_opp.
  destruct (lex _ _); simpl; auto.
Qed.

(** ** Groups and their aggregates *)

Lemma to_datetime_day s d : to_datetime s = Some d -> ts_day d = 1%Z.
Proof.
  unfold to_datetime.
  destruct (span is_alpha s) as [w r].
  destruct (month_of_name w) as [m|]; [|discriminate].
  repeat match goal with
         | |- context [match ?x with _ => _ end] => destruct x
         end; try discriminate; now intros [= <-].
Qed.

Lemma aggregate_group_some k rows r :
  aggregate_group (k, rows) = Some r ->
  monthly_key r = k
  /\ Monthly.prices r = group_means rows
  /\ to_datetime (Monthly.Month r +:+ " 1, " +:+ str_of_int (Monthly.Year r))
     = Some (Monthly.Date r).
Proof.
  destruct k as [[[y m] g] p]. unfold aggregate_group.
  destruct (to_datetime _) as [d|] eqn:D; [|discriminate].
  intros [= <-]. now repeat split.
Qed.

Lemma groupby_keys df :
  (groupby df).*1 = stable_sort key_leb (remove_dups (omap entry_key df)).
Proof.
  unfold groupby. rewrite <- list_fmap_compose.
  rewrite <- (list_fmap_id (stable_sort _ _)) at 2.
  apply list_fmap_ext. now intros.
Qed.

Lemma groupby_rows df k rows :
  (k, rows) ∈ groupby df -> rows = filter (fun e => has_key k e = true) df.
Proof.
  unfold groupby. intros H.
  apply list_elem_of_fmap in H as (k' & [= -> ->] & _). reflexivity.
Qed.

Lemma elem_of_groupby_keys df k :
  k ∈ (groupby df).*1 <-> exists e, e ∈ df /\ entry_key e = Some k.
Proof.
  rewrite groupby_keys, (stable_sort_perm key_leb), elem_of_remove_dups.
  apply list_elem_of_omap.
Qed.

Lemma NoDup_groupby_keys df : NoDup (groupby df).*1.
Proof.
  rewrite groupby_keys, (stable_sort_perm key_leb).
  apply NoDup_remove_dups.
Qed.

Lemma aggregated_keys gs rs :
  Forall2 (fun g r => aggregate_group g = Some r) gs rs ->
  monthly_key <$> rs = gs.*1.
Proof.
  induction 1 as [|[k rows] r gs rs H F IH]; [reflexivity|].
  cbn [fmap list_fmap]. rewrite IH.
  now destruct (aggregate_group_some k rows r H) as [-> _].
Qed.

Lemma aggregated_from gs rs r :
  Forall2 (fun g r => aggregate_group g = Some r) gs rs ->
  r ∈ rs -> exists g, g ∈ gs /\ aggregate_group g = Some r.
Proof.
  induction 1 as [|g r' gs rs H F IH]; intros E.
  - now apply not_elem_of_nil in E.
  - apply elem_of_cons in E as [->|E].
    + exists g. split; [apply list_elem_of_here | exact H].
    + destruct (IH E) as (g' & G & A).
      exists g'. split; [now apply list_elem_of_further | exact A].
Qed.

Lemma group_filter k df :
  filter (fun e => has_key k e = true) (region_7_provinces df) = group_of k df.
Proof.
  unfold region_7_provinces, group_of. rewrite list_filter_filter.
  apply list_filter_iff. intros e. unfold has_key.
  rewrite bool_decide_eq_true. tauto.
Qed.

Lemma elem_of_region_7_provinces df e :
  e ∈ region_7_provinces df <-> e ∈ df /\ isin sentinels (Province e) = false.
Proof. unfold region_7_provinces. rewrite list_elem_of_filter. tauto. Qed.

Lemma monthly_aggregate_some df out :
  monthly_aggregate df = Some out ->
  exists rs,
    Forall2 (fun g r => aggregate_group g = Some r)
      (groupby (region_7_provinces df)) rs
    /\ out = stable_sort Monthly.leb rs.
Proof.
  unfold monthly_aggregate.
  destruct (mapM _ _) as [rs|] eqn:M; [|discriminate].
  intros [= <-]. exists rs. split; [now apply mapM_Some_1 | reflexivity].
Qed.

Lemma entry_key_province e k :
  entry_key e = Some k -> Province e = Some (k.2).
Proof.
  unfold entry_key.
  destruct (Year e), (Month e), (Region e), (Province e); try discriminate.
  now intros [= <-].
Qed.

Lemma rebuild_check_all :
  forallb (fun y => forallb (rebuild_check y) month_names) (seqZ 1678 584)
    = true.
Proof. vm_compute. reflexivity. Qed.

Lemma rebuild_date y m :
  (1678 <= y <= 2261)%Z -> In m month_names ->
  exists i,
    month_of_name m = Some i
    /\ to_datetime (m +:+ " 1, " +:+ str_of_int y)
       = Some {| ts_year := y; ts_month := i; ts_day := 1 |}.
Proof.
  intros Y M. pose proof rebuild_check_all as C.
  rewrite forallb_forall in C.
  assert (Hy : In y (seqZ 1678 584))
    by (apply list_elem_of_In, elem_of_seqZ; lia).
  specialize (C y Hy). rewrite forallb_forall in C. specialize (C m M).
  unfold rebuild_check in C.
  destruct (to_datetime _) as [[dy dm dd]|]; [|discriminate].
  destruct (month_of_name m) as [i|]; [|discriminate].
  cbn [ts_year ts_month ts_day] in C.
  apply andb_true_iff in C as [C Cd]. apply andb_true_iff in C as [Cy Cm].
  apply Z.eqb_eq in Cy, Cm, Cd. subst. now exists i.
Qed.

(** On records with a month name and a year in range, such as the ones
    the document parser makes, the aggregation returns. *)
Lemma monthly_aggregate_returns df :
  Forall period_ok df -> is_Some (monthly_aggregate df).
Proof.
  intros F. unfold monthly_aggregate.
  assert (S : is_Some (mapM aggregate_group (groupby (region_7_provinces df)))).
  { apply mapM_is_Some. apply Forall_forall. intros [k rows] G.
    assert (K : k ∈ (groupby (region_7_provinces df)).*1)
      by (apply list_elem_of_fmap; now exists (k, rows)).
    apply elem_of_groupby_keys in K as (e & E & Ke).
    apply elem_of_region_7_provinces in E as [E _].
    rewrite Forall_forall in F. destruct (F e E) as (y & m & Hy & Hm & Ry & Rm).
    unfold entry_key in Ke. rewrite Hy, Hm in Ke.
    destruct (Region e), (Province e); try discriminate.
    injection Ke as <-.
    destruct (rebuild_date y m Ry Rm) as (i & _ & D).
    cbn. now rewrite D. }
  destruct S as [rs ->]. now eexists.
Qed.

Lemma monthly_aggregate_keys df out :
  monthly_aggregate df = Some out ->
  forall k,
    k ∈ (monthly_key <$> out) <->
    exists e, e ∈ df /\ isin sentinels (Province e) = false
              /\ entry_key e = Some k.
Proof.
  intros H k. apply monthly_aggregate_some in H as (rs & F & ->).
  rewrite (stable_sort_perm Monthly.leb rs), (aggregated_keys _ _ F).
  rewrite elem_of_groupby_keys. split.
  - intros (e & E & Ke). apply elem_of_region_7_provinces in E as [E S].
    now exists e.
  - intros (e & E & S & Ke). exists e.
    split; [now apply elem_of_region_7_provinces | exact Ke].
Qed.

(** ** Whole numbers in binary64 arithmetic *)

Lemma digits2_pos_log2 (p : positive) :
  Zpos (digits2_pos p) = (Z.log2 (Zpos p) + 1)%Z.
Proof.
  assert (S : forall q, digits2_pos q = Pos.size q).
  { induction q as [q IH|q IH|]; cbn; now rewrite ?IH. }
  rewrite S. destruct p as [p|p|]; cbn; try reflexivity; lia.
Qed.

Lemma iter_xO (m d : positive) :
  Zpos (Pos.iter xO m d) = (Zpos m * 2 ^ Zpos d)%Z.
Proof.
  induction d as [|d IH] using Pos.peano_ind.
  - cbn. lia.
  - rewrite Pos.iter_succ, Pos2Z.inj_xO, IH, Pos2Z.inj_succ, Z.pow_succ_r by lia.
    lia.
Qed.

Lemma shl_align_le (m : positive) (e e' : Z) :
  (e' <= e)%Z ->
  Zpos (fst (shl_align m e e')) = (Zpos m * 2 ^ (e - e'))%Z
  /\ snd (shl_align m e e') = e'.
Proof.
  intros H. unfold shl_align. destruct (e' - e)%Z as [|d|d] eqn:D.
  - assert (e = e') by lia. subst. rewrite Z.sub_diag. cbn [fst snd]. split; lia.
  - lia.
  - cbn [fst snd]. rewrite iter_xO. split; [|reflexivity].
    f_equal. f_equal. lia.
Qed.

Lemma shl_align_ge (m : positive) (e e' : Z) :
  (e <= e')%Z -> shl_align m e e' = (m, e).
Proof.
  intros H. unfold shl_align. destruct (e' - e)%Z eqn:D; try reflexivity. lia.
Qed.

Lemma shr_1_even (k : positive) :
  shr_1 {| shr_m := Zpos k * 2; shr_r := false; shr_s := false |}
  = {| shr_m := Zpos k; shr_r := false; shr_s := false |}.
Proof. replace (Zpos k * 2)%Z with (Zpos k~0) by lia. reflexivity. Qed.

Lemma pow2_xO (n : positive) :
  (2 ^ Zpos n~0 = 2 ^ Zpos n * 2 ^ Zpos n)%Z.
Proof.
  replace (Zpos n~0) with (Zpos n + Zpos n)%Z by lia.
  apply Z.pow_add_r; lia.
Qed.

Lemma pow2_xI (n : positive) :
  (2 ^ Zpos n~1 = 2 ^ Zpos n * 2 ^ Zpos n * 2)%Z.
Proof.
  replace (Zpos n~1) with (Zpos n~0 + 1)%Z by lia.
  rewrite Z.pow_add_r, pow2_xO by lia. reflexivity.
Qed.

Lemma pow2_pos (n : Z) : (0 <= n -> 0 < 2 ^ n)%Z.
Proof. intros H. apply Z.pow_pos_nonneg; lia. Qed.

Lemma iter_shr_1 (n k : positive) :
  SpecFloat.iter_pos shr_1 n
    {| shr_m := Zpos k * 2 ^ Zpos n; shr_r := false; shr_s := false |}
  = {| shr_m := Zpos k; shr_r := false; shr_s := false |}.
Proof.
  revert k. induction n as [n IH|n IH|]; intros k; cbn [SpecFloat.iter_pos].
  - pose proof (pow2_pos (Zpos n) ltac:(lia)) as P.
    rewrite pow2_xI.
    replace (Zpos k * (2 ^ Zpos n * 2 ^ Zpos n * 2))%Z
      with (Zpos (Z.to_pos (Zpos k * 2 ^ Zpos n * 2 ^ Zpos n)) * 2)%Z
      by (rewrite Z2Pos.id by nia; lia).
    rewrite shr_1_even.
    replace (Zpos (Z.to_pos (Zpos k * 2 ^ Zpos n * 2 ^ Zpos n)))
      with (Zpos (Z.to_pos (Zpos k * 2 ^ Zpos n)) * 2 ^ Zpos n)%Z
      by (rewrite !Z2Pos.id by nia; reflexivity).
    rewrite IH.
    replace (Zpos (Z.to_pos (Zpos k * 2 ^ Zpos n))) with (Zpos k * 2 ^ Zpos n)%Z
      by (rewrite Z2Pos.id by nia; reflexivity).
    apply IH.
  - pose proof (pow2_pos (Zpos n) ltac:(lia)) as P.
    rewrite pow2_xO.
    replace (Zpos k * (2 ^ Zpos n * 2 ^ Zpos n))%Z
      with (Zpos (Z.to_pos (Zpos k * 2 ^ Zpos n)) * 2 ^ Zpos n)%Z
      by (rewrite Z2Pos.id by nia; lia).
    rewrite IH.
    replace (Zpos (Z.to_pos (Zpos k * 2 ^ Zpos n))) with (Zpos k * 2 ^ Zpos n)%Z
      by (rewrite Z2Pos.id by nia; reflexivity).
    apply IH.
  - change (2 ^ 1)%Z with 2%Z. apply shr_1_even.
Qed.

Lemma log2_bounds (z : Z) :
  (1 <= z < 2 ^ 53)%Z -> (0 <= Z.log2 z <= 52)%Z.
Proof.
  intros [H1 H2]. split; [apply Z.log2_nonneg|].
  assert (Z.log2 z < 53)%Z; [|lia].
  apply Z.log2_lt_pow2; lia.
Qed.

Lemma fexp_whole (d : Z) :
  (1 <= d <= 53)%Z -> fexp 53 1024 d = (d - 53)%Z.
Proof. intros H. unfold fexp, emin. lia. Qed.

Lemma digits_scaled (z : Z) (m : positive) (k : Z) :
  (1 <= z)%Z -> (0 <= k)%Z -> Zpos m = (z * 2 ^ k)%Z ->
  Zpos (digits2_pos m) = (Z.log2 z + k + 1)%Z.
Proof.
  intros Hz Hk E. rewrite digits2_pos_log2, E, Z.log2_mul_pow2 by lia. lia.
Qed.

Lemma shr_exact (m : positive) (e n : Z) (k : positive) :
  (0 <= n)%Z -> Zpos m = (Zpos k * 2 ^ n)%Z ->
  shr {| shr_m := Zpos m; shr_r := false; shr_s := false |} e n
  = ({| shr_m := Zpos k; shr_r := false; shr_s := false |}, (e + n)%Z).
Proof.
  intros Hn E. unfold shr. destruct n as [|p|p]; [| |lia].
  - rewrite Z.add_0_r. f_equal. f_equal. rewrite E. cbn. lia.
  - now rewrite E, iter_shr_1.
Qed.

Lemma round_aux_whole (z : Z) (m : positive) (e : Z) :
  (1 <= z < 2 ^ 53)%Z -> (e <= Z.log2 z - 52)%Z ->
  Zpos m = (z * 2 ^ (- e))%Z ->
  binary_round_aux 53 1024 false (Zpos m) e loc_Exact = whole z.
Proof.
  intros Hz He E. pose proof (log2_bounds z Hz) as HL.
  set (L := Z.log2 z) in *.
  assert (P : (0 < 2 ^ (52 - L))%Z) by (apply pow2_pos; lia).
  assert (K : (z * 2 ^ (52 - L) = Zpos (Z.to_pos (z * 2 ^ (52 - L))))%Z)
    by (rewrite Z2Pos.id by nia; reflexivity).
  set (k := Z.to_pos (z * 2 ^ (52 - L))) in *.
  assert (D : Zpos (digits2_pos m) = (L - e + 1)%Z).
  { rewrite (digits_scaled z m (- e)) by (try assumption; lia).
    fold L. lia. }
  assert (Dk : Zpos (digits2_pos k) = 53%Z).
  { rewrite (digits_scaled z k (52 - L)) by (try lia; now rewrite <- K).
    fold L. lia. }
  unfold binary_round_aux, shr_fexp.
  cbn [Zdigits2 shr_record_of_loc].
  rewrite D.
  replace (L - e + 1 + e)%Z with (L + 1)%Z by lia.
  rewrite (fexp_whole (L + 1)) by lia.
  rewrite (shr_exact m e (L + 1 - 53 - e) k).
  2: lia.
  2:{ rewrite E, <- K, <- Z.mul_assoc, <- Z.pow_add_r by lia.
      f_equal. f_equal. lia. }
  cbn [shr_m loc_of_shr_record round_nearest_even Zdigits2 shr_record_of_loc].
  rewrite Dk.
  replace (e + (L + 1 - 53 - e))%Z with (L - 52)%Z by lia.
  replace (53 + (L - 52))%Z with (L + 1)%Z by lia.
  rewrite (fexp_whole (L + 1)) by lia.
  replace (L + 1 - 53 - (L - 52))%Z with 0%Z by lia.
  cbn [shr shr_m].
  replace (L - 52 <=? 1024 - 53)%Z with true by (symmetry; apply Z.leb_le; lia).
  reflexivity.
Qed.

Lemma binary_round_whole (z : Z) (m : positive) (e : Z) :
  (1 <= z < 2 ^ 53)%Z -> (e <= 0)%Z ->
  Zpos m = (z * 2 ^ (- e))%Z ->
  binary_round 53 1024 false m e = whole z.
Proof.
  intros Hz He E. pose proof (log2_bounds z Hz) as HL.
  unfold binary_round.
  rewrite (digits_scaled z m (- e)) by (try assumption; lia).
  replace (Z.log2 z + - e + 1 + e)%Z with (Z.log2 z + 1)%Z by lia.
  rewrite (fexp_whole (Z.log2 z + 1)) by lia.
  destruct (Z.le_gt_cases e (Z.log2 z + 1 - 53)) as [C|C].
  - rewrite shl_align_ge by exact C. apply round_aux_whole; [assumption|lia|assumption].
  - destruct (shl_align m e (Z.log2 z + 1 - 53)) as [mz ez] eqn:S.
    pose proof (shl_align_le m e (Z.log2 z + 1 - 53) ltac:(lia)) as [S1 S2].
    rewrite S in S1, S2. cbn [fst snd] in S1, S2. subst ez.
    apply round_aux_whole; [assumption|lia|].
    rewrite S1, E, <- Z.mul_assoc, <- Z.pow_add_r by lia.
    f_equal. f_equal. lia.
Qed.

Lemma whole_mantissa (n : Z) :
  (1 <= n < 2 ^ 53)%Z ->
  Zpos (Z.to_pos (n * 2 ^ (52 - Z.log2 n))) = (n * 2 ^ (52 - Z.log2 n))%Z.
Proof.
  intros H. pose proof (log2_bounds n H).
  pose proof (pow2_pos (52 - Z.log2 n) ltac:(lia)).
  rewrite Z2Pos.id by nia. reflexivity.
Qed.

Lemma aligned_whole (n : Z) (ez : Z) :
  (1 <= n < 2 ^ 53)%Z -> (ez <= Z.log2 n - 52)%Z ->
  Zpos (fst (shl_align (Z.to_pos (n * 2 ^ (52 - Z.log2 n))) (Z.log2 n - 52) ez))
  = (n * 2 ^ (- ez))%Z.
Proof.
  intros H E. pose proof (log2_bounds n H).
  rewrite (proj1 (shl_align_le _ _ ez E)), whole_mantissa by assumption.
  rewrite <- Z.mul_assoc, <- Z.pow_add_r by lia. f_equal. f_equal. lia.
Qed.

Lemma SFadd_whole (a b : Z) :
  (1 <= a)%Z -> (1 <= b)%Z -> (a + b < 2 ^ 53)%Z ->
  SFadd 53 1024 (whole a) (whole b) = whole (a + b).
Proof.
  intros Ha Hb H. unfold whole at 1 2. cbn [SFadd cond_Zopp].
  set (ez := Z.min (Z.log2 a - 52) (Z.log2 b - 52)).
  rewrite !aligned_whole by (try lia; unfold ez; lia).
  pose proof (log2_bounds a ltac:(lia)). pose proof (log2_bounds b ltac:(lia)).
  assert (Pz : (0 < 2 ^ (- ez))%Z) by (apply pow2_pos; unfold ez; lia).
  rewrite <- Z.mul_add_distr_r.
  destruct ((a + b) * 2 ^ (- ez))%Z as [|m|m] eqn:M; [nia| |nia].
  cbn [binary_normalize].
  apply binary_round_whole; [lia | unfold ez; lia | now rewrite M].
Qed.

Lemma SFsub_whole (c a : Z) :
  (1 <= a)%Z -> (a < c)%Z -> (c < 2 ^ 53)%Z ->
  SFsub 53 1024 (whole c) (whole a) = whole (c - a).
Proof.
  intros Ha Hc H. unfold whole at 1 2. cbn [SFsub cond_Zopp].
  set (ez := Z.min (Z.log2 c - 52) (Z.log2 a - 52)).
  rewrite !aligned_whole by (try lia; unfold ez; lia).
  pose proof (log2_bounds a ltac:(lia)). pose proof (log2_bounds c ltac:(lia)).
  assert (Pz : (0 < 2 ^ (- ez))%Z) by (apply pow2_pos; unfold ez; lia).
  rewrite <- Z.mul_sub_distr_r.
  destruct ((c - a) * 2 ^ (- ez))%Z as [|m|m] eqn:M; [nia| |nia].
  cbn [binary_normalize].
  apply binary_round_whole; [lia | unfold ez; lia | now rewrite M].
Qed.

Lemma SFsub_diag (s : bool) (m : positive) (e : Z) :
  SFsub 53 1024 (S754_finite s m e) (S754_finite s m e) = S754_zero false.
Proof. cbn [SFsub]. now rewrite Z.sub_diag. Qed.

Lemma fold_mean_step col st :
  fold_left mean_step col st
  = {| nobs := nobs st + Z.of_nat (length (values_present col));
       sumx := compensated_sum (values_present col) (sumx st) (compensation st);
       compensation := compensation (fold_left mean_step col st) |}.
Proof.
  revert st. induction col as [|p col IH]; intros st.
  - cbn. destruct st. f_equal. cbn. lia.
  - cbn [fold_left]. rewrite IH. unfold values_present.
    cbn [omap list_omap]. fold (values_present col).
    unfold mean_step at 1 2 3 4.
    destruct (present p) as [v|]; [|reflexivity].
    cbn [nobs sumx compensation length compensated_sum].
    f_equal. lia.
Qed.

Lemma mean_arithmetic_mean col :
  mean col = arithmetic_mean (values_present col).
Proof.
  unfold mean. cbv zeta. rewrite fold_mean_step. cbn [nobs sumx compensation].
  unfold arithmetic_mean.
  destruct (values_present col) as [|v vs]; [reflexivity|].
  replace (0 + Z.of_nat (length (v :: vs)) =? 0)%Z with false
    by (symmetry; apply Z.eqb_neq; cbn [length]; lia).
  reflexivity.
Qed.

Lemma SFsub_whole_diag n :
  SFsub 53 1024 (whole n) (whole n) = S754_zero false.
Proof. unfold whole. apply SFsub_diag. Qed.

Lemma compensated_sum_whole (ns : list Z) (s : Z) :
  Forall (fun n => 1 <= n)%Z ns -> (1 <= s)%Z -> (s + total ns < 2 ^ 53)%Z ->
  compensated_sum (whole <$> ns) (whole s) (S754_zero false)
  = whole (s + total ns).
Proof.
  intros H. revert s. induction H as [|n ns Hn Hns IH]; intros s Hs B.
  - cbn. now rewrite Z.add_0_r.
  - cbn [total fold_right] in B. fold (total ns) in B.
    assert (T : (0 <= total ns)%Z).
    { clear -Hns. induction Hns as [|x l Hx _ IH']; cbn; [lia|].
      fold (total l). lia. }
    rewrite fmap_cons. cbn [compensated_sum].
    assert (Y : SFsub 53 1024 (whole n) (S754_zero false) = whole n) by reflexivity.
    rewrite Y, (SFadd_whole s n) by lia.
    rewrite (SFsub_whole (s + n) s) by lia.
    replace (s + n - s)%Z with n by lia.
    rewrite SFsub_whole_diag.
    rewrite IH by lia. cbn [total fold_right]. fold (total ns). f_equal. lia.
Qed.

Lemma compensated_sum_wholes (n : Z) (ns : list Z) :
  Forall (fun n => 1 <= n)%Z (n :: ns) -> (total (n :: ns) < 2 ^ 53)%Z ->
  compensated_sum (whole <$> n :: ns) (S754_zero false) (S754_zero false)
  = whole (total (n :: ns)).
Proof.
  intros H B. apply Forall_cons in H as [Hn H].
  rewrite fmap_cons. cbn [compensated_sum].
  assert (Y : SFsub 53 1024 (whole n) (S754_zero false) = whole n) by reflexivity.
  assert (T : SFadd 53 1024 (S754_zero false) (whole n) = whole n) by reflexivity.
  rewrite Y, T, Y, SFsub_whole_diag.
  now apply compensated_sum_whole.
Qed.

Lemma of_decimal_whole (k : Z) :
  (1 <= k < 2 ^ 53)%Z -> PyFloat.of_decimal false k 0 = whole k.
Proof.
  intros H. pose proof (log2_bounds k H) as HL.
  unfold PyFloat.of_decimal. cbn [Z.leb Z.compare Z.pow Z.pow_pos Pos.iter].
  rewrite Z.mul_1_r.
  destruct k as [|p|p] eqn:Ek; [lia| |lia]. rewrite <- Ek in *.
  unfold SFdiv_core_binary, PyFloat.prec, PyFloat.emax.
  assert (D1 : Zdigits2 k = (Z.log2 k + 1)%Z).
  { rewrite Ek. cbn [Zdigits2]. apply digits2_pos_log2. }
  rewrite D1. change (Zdigits2 1) with 1%Z.
  replace (Z.log2 k + 1 + 0 - (1 + 0))%Z with (Z.log2 k) by lia.
  assert (F : fexp 53 1024 (Z.log2 k) = (Z.log2 k - 53)%Z)
    by (unfold fexp, emin; lia).
  rewrite F.
  replace (Z.min (Z.log2 k - 53) (0 - 0))%Z with (Z.log2 k - 53)%Z by lia.
  destruct (0 - 0 - (Z.log2 k - 53))%Z as [|s|s] eqn:S; [lia| |lia].
  rewrite Z.shiftl_mul_pow2 by lia.
  assert (P : (0 < 2 ^ Zpos s)%Z) by (apply pow2_pos; lia).
  destruct (Z.div_eucl (k * 2 ^ Zpos s) 1) as [q r] eqn:Q.
  assert (Eq : q = (k * 2 ^ Zpos s)%Z).
  { pose proof (Z.div_1_r (k * 2 ^ Zpos s)) as X. unfold Z.div in X.
    now rewrite Q in X. }
  assert (Er : r = 0%Z).
  { pose proof (Z.mod_1_r (k * 2 ^ Zpos s)) as X. unfold Z.modulo in X.
    now rewrite Q in X. }
  subst q r. change (new_location 1 0) with loc_Exact.
  destruct (k * 2 ^ Zpos s)%Z as [|m|m] eqn:M; [nia| |nia].
  apply round_aux_whole; [assumption | lia |].
  rewrite <- M. f_equal. f_equal. lia.
Qed.

Lemma arithmetic_mean_whole (n : Z) (ns : list Z) :
  Forall (fun n => 1 <= n)%Z (n :: ns) -> (total (n :: ns) < 2 ^ 53)%Z ->
  arithmetic_mean (whole <$> n :: ns)
  = SFdiv 53 1024 (whole (total (n :: ns)))
      (whole (Z.of_nat (length (n :: ns)))).
Proof.
  intros H B. unfold arithmetic_mean. rewrite fmap_cons.
  rewrite <- fmap_cons, compensated_sum_wholes by assumption.
  rewrite length_fmap, of_decimal_whole; [reflexivity|].
  split; [cbn [length]; lia|].
  assert (L : (Z.of_nat (length (n :: ns)) <= total (n :: ns))%Z); [|lia].
  clear B. induction H as [|x l Hx _ IH]; [cbn; lia|].
  cbn [length total fold_right]. fold (total l). lia.
Qed.

Lemma whole_exponent_digits (n : Z) :
  (1 <= n < 2 ^ 53)%Z ->
  Zpos (digits2_pos (Z.to_pos (n * 2 ^ (52 - Z.log2 n)))) = 53%Z.
Proof.
  intros H. pose proof (log2_bounds n H).
  rewrite (digits_scaled n _ (52 - Z.log2 n)); [lia | lia | lia |].
  now apply whole_mantissa.
Qed.

Lemma div_eucl_exact (q b : Z) :
  (b <> 0)%Z -> Z.div_eucl (q * b) b = (q, 0%Z).
Proof.
  intros H. destruct (Z.div_eucl (q * b) b) as [q' r'] eqn:E.
  pose proof (Z.div_mul q b H) as D. pose proof (Z.mod_mul q b H) as M.
  unfold Z.div in D. unfold Z.modulo in M. rewrite E in D, M. now subst.
Qed.

Lemma new_location_exact (n : Z) : new_location n 0 = loc_Exact.
Proof.
  unfold new_location, new_location_even, new_location_odd.
  now destruct (Z.even n).
Qed.

Lemma SFdiv_whole (q k : Z) :
  (1 <= q)%Z -> (1 <= k)%Z -> (q * k < 2 ^ 53)%Z ->
  SFdiv 53 1024 (whole (q * k)) (whole k) = whole q.
Proof.
  intros Hq Hk B.
  assert (Bq : (1 <= q < 2 ^ 53)%Z) by nia.
  assert (Bk : (1 <= k < 2 ^ 53)%Z) by nia.
  assert (Bs : (1 <= q * k < 2 ^ 53)%Z) by nia.
  pose proof (log2_bounds q Bq) as Lq. pose proof (log2_bounds k Bk) as Lk.
  pose proof (log2_bounds (q * k) Bs) as Ls.
  assert (Lqk : (Z.log2 q + Z.log2 k <= Z.log2 (q * k))%Z).
  { apply Z.log2_le_pow2; [lia|]. rewrite Z.pow_add_r by lia.
    pose proof (Z.log2_spec q ltac:(lia)). pose proof (Z.log2_spec k ltac:(lia)).
    nia. }
  assert (Lqk' : (Z.log2 (q * k) <= Z.log2 q + Z.log2 k + 1)%Z).
  { pose proof (Z.log2_mul_above q k ltac:(lia) ltac:(lia)). lia. }
  unfold whole at 1 2. cbn [SFdiv]. unfold SFdiv_core_binary.
  cbn [Zdigits2]. rewrite !whole_exponent_digits by assumption.
  set (S := Z.log2 (q * k)) in *. set (K := Z.log2 k) in *.
  replace (53 + (S - 52) - (53 + (K - 52)))%Z with (S - K)%Z by lia.
  assert (F : fexp 53 1024 (S - K) = (S - K - 53)%Z)
    by (unfold fexp, emin; lia).
  rewrite F.
  replace (Z.min (S - K - 53) (S - 52 - (K - 52)))%Z with (S - K - 53)%Z by lia.
  replace (S - 52 - (K - 52) - (S - K - 53))%Z with 53%Z by lia.
  cbn [Z.shiftl Pos.iter]. rewrite !whole_mantissa by assumption.
  fold S K.
  assert (P1 : (0 < 2 ^ (52 - S))%Z) by (apply pow2_pos; lia).
  assert (P2 : (0 < 2 ^ (52 - K))%Z) by (apply pow2_pos; lia).
  assert (P3 : (0 < 2 ^ (53 + K - S))%Z) by (apply pow2_pos; lia).
  assert (E : (Z.shiftl (q * k * 2 ^ (52 - S)) 53
               = q * 2 ^ (53 + K - S) * (k * 2 ^ (52 - K)))%Z).
  { rewrite Z.shiftl_mul_pow2 by lia.
    replace (q * 2 ^ (53 + K - S) * (k * 2 ^ (52 - K)))%Z
      with (q * k * (2 ^ (53 + K - S) * 2 ^ (52 - K)))%Z by ring.
    rewrite <- Z.pow_add_r by lia.
    rewrite <- Z.mul_assoc, <- Z.pow_add_r by lia.
    f_equal. f_equal. lia. }
  rewrite E.
  pose proof (div_eucl_exact (q * 2 ^ (53 + K - S)) (k * 2 ^ (52 - K))
                ltac:(nia)) as D.
  change (IntDef.Z.div_eucl (q * 2 ^ (53 + K - S) * (k * 2 ^ (52 - K)))
            (k * 2 ^ (52 - K)))
    with (Z.div_eucl (q * 2 ^ (53 + K - S) * (k * 2 ^ (52 - K)))
            (k * 2 ^ (52 - K))).
  rewrite D, new_location_exact. cbn [xorb].
  destruct (q * 2 ^ (53 + K - S))%Z as [|m|m] eqn:M; [nia| |nia].
  apply round_aux_whole; [assumption | lia |].
  rewrite <- M. f_equal. f_equal. lia.
Qed.

(** ** The order of the monthly rows, by date and province *)

Lemma string_compare_text_le s1 s2 :
  String.compare s1 s2 <> Gt <-> text_le s1 s2.
Proof.
  revert s2. induction s1 as [|c1 s1 IH]; intros [|c2 s2]; cbn [String.compare].
  - split; [constructor | discriminate].
  - split; [constructor | discriminate].
  - split; [congruence | inversion 1].
  - unfold Ascii.compare. destruct (N.compare_spec (N_of_ascii c1) (N_of_ascii c2)) as [E|L|G].
    + apply (f_equal ascii_of_N) in E. rewrite !ascii_N_embedding in E. subst c2.
      rewrite IH. split; [now constructor|].
      inversion 1; subst; [unfold Str.code in *; lia | assumption].
    + split; [intros _; now constructor | discriminate].
    + split; [congruence|].
      inversion 1; subst; unfold Str.code in *; lia.
Qed.

Lemma timestamp_compare_lt d1 d2 :
  timestamp_compare d1 d2 = Lt <-> date_before d1 d2.
Proof.
  unfold timestamp_compare, date_before, lex.
  destruct (Z.compare_spec (ts_year d1) (ts_year d2));
    destruct (Z.compare_spec (ts_month d1) (ts_month d2));
    destruct (Z.compare_spec (ts_day d1) (ts_day d2));
    split; try discriminate; try reflexivity; lia.
Qed.

Lemma timestamp_compare_eq d1 d2 :
  timestamp_compare d1 d2 = Eq <-> d1 = d2.
Proof.
  unfold timestamp_compare, lex. destruct d1 as [y1 m1 a1], d2 as [y2 m2 a2].
  cbn [ts_year ts_month ts_day].
  destruct (Z.compare_spec y1 y2); destruct (Z.compare_spec m1 m2);
    destruct (Z.compare_spec a1 a2);
    split; try discriminate; try (intros [= ? ? ?]; lia); intros _; now subst.
Qed.

Lemma monthly_leb_spec r1 r2 :
  Monthly.leb r1 r2 = true <-> by_date_and_province r1 r2.
Proof.
  unfold Monthly.leb, by_date_and_province.
  rewrite <- timestamp_compare_lt, <- timestamp_compare_eq,
    <- string_compare_text_le.
  unfold lex.
  destruct (timestamp_compare (Monthly.Date r1) (Monthly.Date r2)).
  - destruct (String.compare _ _); split; try discriminate; try reflexivity.
    + intros _. right. split; [reflexivity | discriminate].
    + intros _. right. split; [reflexivity | discriminate].
    + intros [[=]|[_ H]]. congruence.
  - split; [now left | reflexivity].
  - split; [discriminate|]. intros [[=]|[[=] _]].
Qed.

Lemma Sorted_impl {A} (R1 R2 : A -> A -> Prop) l :
  (forall a b, R1 a b -> R2 a b) -> Sorted R1 l -> Sorted R2 l.
Proof.
  intros H. induction 1 as [|a l S IH Hd]; constructor; [assumption|].
  destruct Hd; constructor. now apply H.
Qed.

Lemma group_means_column_means g : group_means g = column_means g.
Proof.
  unfold group_means, column_means, price_columns.
  cbn [fmap list_fmap]. now rewrite !mean_arithmetic_mean.
Qed.

Lemma total_length (ns : list Z) :
  Forall (fun n => 1 <= n)%Z ns -> (Z.of_nat (length ns) <= total ns)%Z.
Proof.
  induction 1 as [|x l Hx _ IH]; [cbn; lia|].
  cbn [length total fold_right]. fold (total l). lia.
Qed.

(** C6. The monthly aggregation leaves out the records whose province is
    ["Regional Summary"] or ["Regional Average"], makes one row for each
    (year, month, region, province) of the records that remain, gives it
    the arithmetic mean of each of the seven price columns over the
    records of that key, dates it on the first day of its month, and
    sorts the rows ascending by date, then by province. The mean of a
    column is the mean of binary64 arithmetic: the compensated sum of the
    values present, in the order of the records, over their number. For
    whole-number prices it is the quotient of their exact sum by their
    number, rounded once, and their exact mean when that is a whole
    number. *)
Theorem monthly_aggregation (region_7_df : list entry) (monthly_df : list Monthly.t) :
  monthly_aggregate region_7_df = Some monthly_df ->
  (forall r, r ∈ monthly_df ->
     isin sentinels (Some (Monthly.Province r)) = false)
  /\ (forall k,
        k ∈ (monthly_key <$> monthly_df) <->
        exists e, e ∈ region_7_df
                  /\ isin sentinels (Province e) = false
                  /\ entry_key e = Some k)
  /\ NoDup (monthly_key <$> monthly_df)
  /\ (forall r, r ∈ monthly_df ->
        Monthly.prices r
          = column_means (group_of (monthly_key r) region_7_df))
  /\ (forall r i col n ns,
        r ∈ monthly_df -> price_columns !! i = Some col ->
        values_present (col <$> group_of (monthly_key r) region_7_df)
          = whole <$> n :: ns ->
        Forall (fun n => 1 <= n)%Z (n :: ns) ->
        (total (n :: ns) < 2 ^ 53)%Z ->
        Monthly.prices r !! i
          = Some (SFdiv 53 1024 (whole (total (n :: ns)))
                    (whole (Z.of_nat (length (n :: ns)))))
        /\ forall q,
             total (n :: ns) = (q * Z.of_nat (length (n :: ns)))%Z ->
             Monthly.prices r !! i = Some (whole q))
  /\ (forall r, r ∈ monthly_df ->
        to_datetime (Monthly.Month r +:+ " 1, " +:+ str_of_int (Monthly.Year r))
          = Some (Monthly.Date r)
        /\ ts_day (Monthly.Date r) = 1%Z)
  /\ (Forall period_ok region_7_df ->
      forall r, r ∈ monthly_df ->
        ts_year (Monthly.Date r) = Monthly.Year r
        /\ month_of_name (Monthly.Month r) = Some (ts_month (Monthly.Date r)))
  /\ Sorted by_date_and_province monthly_df.
Proof.
  intros H. pose proof (monthly_aggregate_keys _ _ H) as B.
  apply monthly_aggregate_some in H as (rs & F & ->).
  pose proof (stable_sort_perm Monthly.leb rs) as P.
  pose proof (aggregated_keys _ _ F) as K.
  assert (G : forall r, r ∈ stable_sort Monthly.leb rs ->
             exists rows,
               rows = group_of (monthly_key r) region_7_df
               /\ aggregate_group (monthly_key r, rows) = Some r).
  { intros r R. rewrite P in R.
    destruct (aggregated_from _ _ r F R) as ([k rows] & Gin & A).
    destruct (aggregate_group_some k rows r A) as (Kr & _).
    apply groupby_rows in Gin. rewrite group_filter in Gin.
    exists rows. subst k. now split. }
  assert (M : forall r, r ∈ stable_sort Monthly.leb rs ->
             Monthly.prices r
               = column_means (group_of (monthly_key r) region_7_df)).
  { intros r R. destruct (G r R) as (rows & -> & A).
    destruct (aggregate_group_some _ _ r A) as (_ & Pr & _).
    now rewrite Pr, group_means_column_means. }
  split; [|split; [exact B|split; [|split; [exact M|split; [|split; [|split]]]]]].
  - intros r R.
    assert (Kin : monthly_key r ∈ (monthly_key <$> stable_sort Monthly.leb rs))
      by (apply list_elem_of_fmap; now exists r).
    apply B in Kin as (e & _ & S & Ke).
    apply entry_key_province in Ke. now rewrite Ke in S.
  - rewrite P, K. apply NoDup_groupby_keys.
  - intros r i col n ns R C V W T.
    assert (V' : Monthly.prices r !! i
                 = Some (arithmetic_mean (whole <$> n :: ns))).
    { rewrite (M r R). unfold column_means.
      rewrite list_lookup_fmap, C. cbn [fmap option_fmap option_map].
      now rewrite V. }
    rewrite V', (arithmetic_mean_whole n ns W T).
    split; [reflexivity|]. intros q Q. f_equal.
    pose proof (total_length (n :: ns) W) as L.
    assert (1 <= Z.of_nat (length (n :: ns)))%Z by (cbn [length]; lia).
    rewrite Q. apply SFdiv_whole; nia.
  - intros r R. destruct (G r R) as (rows & _ & A).
    destruct (aggregate_group_some _ _ r A) as (_ & _ & D).
    split; [exact D | now apply (to_datetime_day _ _ D)].
  - intros Ok r R.
    assert (Kin : monthly_key r ∈ (monthly_key <$> stable_sort Monthly.leb rs))
      by (apply list_elem_of_fmap; now exists r).
    apply B in Kin as (e & E & _ & Ke).
    rewrite Forall_forall in Ok.
    destruct (Ok e E) as (y & m & Hy & Hm & Ry & Rm).
    unfold entry_key in Ke. rewrite Hy, Hm in Ke.
    destruct (Region e), (Province e); try discriminate.
    injection Ke as Ey Em _ _.
    destruct (G r R) as (rows & _ & A).
    destruct (aggregate_group_some _ _ r A) as (_ & _ & D).
    destruct (rebuild_date y m Ry Rm) as (i & Mi & D').
    rewrite <- Ey, <- Em in D. rewrite D' in D. injection D as <-.
    cbn [ts_year ts_month]. rewrite <- Em. now split.
  - apply (Sorted_impl (fun a b => Monthly.leb a b = true)).
    + intros a b. apply monthly_leb_spec.
    + apply stable_sort_sorted. apply monthly_leb_total.
Qed.

(** Records in no order: the two Cebu records of September 2023 with the
    prices 100 and 200 aggregate to 150.0 and come first, although the
    month names sort October before September; the regional average is
    left out whatever its price; the three October prices of Cebu
    aggregate to 2149.4466666666667. *)
Lemma monthly_aggregation_witness :
  exists monthly_df,
    monthly_aggregate unordered_frame = Some monthly_df
    /\ ((forall r, r ∈ monthly_df ->
           isin sentinels (Some (Monthly.Province r)) = false)
        /\ (forall k,
              k ∈ (monthly_key <$> monthly_df) <->
              exists e, e ∈ unordered_frame
                        /\ isin sentinels (Province e) = false
                        /\ entry_key e = Some k)
        /\ NoDup (monthly_key <$> monthly_df)
        /\ (forall r, r ∈ monthly_df ->
              Monthly.prices r
                = column_means (group_of (monthly_key r) unordered_frame))
        /\ (forall r i col n ns,
              r ∈ monthly_df -> price_columns !! i = Some col ->
              values_present (col <$> group_of (monthly_key r) unordered_frame)
                = whole <$> n :: ns ->
              Forall (fun n => 1 <= n)%Z (n :: ns) ->
              (total (n :: ns) < 2 ^ 53)%Z ->
              Monthly.prices r !! i
                = Some (SFdiv 53 1024 (whole (total (n :: ns)))
                          (whole (Z.of_nat (length (n :: ns)))))
              /\ forall q,
                   total (n :: ns) = (q * Z.of_nat (length (n :: ns)))%Z ->
                   Monthly.prices r !! i = Some (whole q))
        /\ (forall r, r ∈ monthly_df ->
              to_datetime
                (Monthly.Month r +:+ " 1, " +:+ str_of_int (Monthly.Year r))
                = Some (Monthly.Date r)
              /\ ts_day (Monthly.Date r) = 1%Z)
        /\ (Forall period_ok unordered_frame ->
            forall r, r ∈ monthly_df ->
              ts_year (Monthly.Date r) = Monthly.Year r
              /\ month_of_name (Monthly.Month r)
                 = Some (ts_month (Monthly.Date r)))
        /\ Sorted by_date_and_province monthly_df)
    /\ (fun r => (Monthly.Date r, Monthly.Province r, Monthly.Urea_Prilled r))
         <$> monthly_df
       = [(september_2023, "Cebu", whole 150);
          (october_2023, "Bohol", whole 80);
          (october_2023, "Cebu",
           PyFloat.of_decimal false 21494466666666667 (-13))]
    /\ (fun g : key * list entry => let '(_, m, _, p) := g.1 in (m, p))
         <$> groupby (region_7_provinces unordered_frame)
       = [("October", "Bohol"); ("October", "Cebu"); ("September", "Cebu")].
Proof.
  eexists. split; [vm_compute; reflexivity|].
  split; [|split; vm_compute; reflexivity].
  apply monthly_aggregation. vm_compute; reflexivity.
Defined.

(** ** Records of the document parser have a month name and a year *)

Lemma month_name_in d :
  (1 <= ts_month d <= 12)%Z -> In (month_name d) month_names.
Proof.
  intros H. unfold month_name.
  assert (E : exists n, (n < 12)%nat /\ Z.to_nat (ts_month d - 1) = n)
    by (exists (Z.to_nat (ts_month d - 1)); split; [lia | reflexivity]).
  destruct E as (n & L & ->).
  do 12 (destruct n as [|n]; [simpl; tauto|]). lia.
Qed.

Lemma create_entry_period_ok d region province prices filename :
  (2000 <= ts_year d <= 2099)%Z -> (1 <= ts_month d <= 12)%Z ->
  period_ok (create_entry (Some d) region province prices filename).
Proof.
  intros Y M. exists (ts_year d), (month_name d).
  repeat split; try lia. now apply month_name_in.
Qed.

Lemma parse_rows_period_ok d filename rows st :
  (2000 <= ts_year d <= 2099)%Z -> (1 <= ts_month d <= 12)%Z ->
  Forall period_ok (data st) ->
  Forall period_ok (data (parse_rows (Some d) filename st rows)).
Proof.
  intros Y M. revert st.
  induction rows as [|r rows IH]; intros st F; [exact F|].
  rewrite parse_rows_cons. apply IH.
  rewrite parse_row_cases. destruct (skipped r); [exact F|].
  cbv zeta. cbn [data]. unfold emit. destruct (any _); [|exact F].
  apply Forall_app. split; [exact F|].
  apply Forall_cons. split; [|apply Forall_nil_2].
  now apply create_entry_period_ok.
Qed.

Lemma extract_date_bounds filename d :
  extract_date_from_filename filename = Some d ->
  (2000 <= ts_year d <= 2099)%Z /\ (1 <= ts_month d <= 12)%Z.
Proof.
  intros H.
  destruct (re_search (match_alt (sort_by_len_desc months))
              (normalized_name filename)) as [t|] eqn:T;
    [|rewrite extract_date_absent in H by (now left); discriminate].
  destruct (re_search match_year (normalized_name filename)) as [y|] eqn:Y;
    [|rewrite extract_date_absent in H by (now right); discriminate].
  destruct (month_found _ _ T) as [Tm _].
  destruct (year_found _ _ Y) as [Yy _].
  destruct (date_check_holds t y Tm Yy) as (m & M & _ & _ & By & Bm).
  destruct (extract_date_found filename t y T Y) as (m' & M' & E).
  rewrite M in M'. injection M' as <-.
  rewrite E in H. injection H as <-. now split.
Qed.

Lemma parse_pdf_period_ok doc records :
  parse_pdf doc = Some records -> Forall period_ok records.
Proof.
  unfold parse_pdf.
  destruct (extract_date_from_filename (doc_name doc)) as [d|] eqn:E.
  - destruct (doc_pages doc) as [ps|]; [|discriminate].
    intros [= <-]. rewrite parse_pages_rows.
    destruct (extract_date_bounds _ _ E) as [Y M].
    apply parse_rows_period_ok; [lia | lia | constructor].
  - intros [= <-]. constructor.
Qed.

(** ** The regional filter *)

Lemma lower_append a b : Str.lower (a +:+ b) = Str.lower a +:+ Str.lower b.
Proof.
  unfold Str.lower. induction a as [|x a IH]; [reflexivity|].
  rewrite append_cons. cbn [Str.map]. rewrite append_cons. now f_equal.
Qed.

Lemma startswith_nocase_spec p s :
  startswith_nocase p s = true <->
  exists mid rest, s = mid +:+ rest /\ Str.lower mid = Str.lower p.
Proof.
  revert s. induction p as [|a p IH]; intros s; cbn [startswith_nocase].
  - split; [intros _; now exists "", s|reflexivity].
  - destruct s as [|b s].
    + split; [discriminate|].
      intros (mid & rest & E & L). destruct mid; discriminate.
    + rewrite andb_true_iff, IH. split.
      * intros [E (mid & rest & -> & L)]. apply Ascii.eqb_eq in E.
        exists (String b mid), rest. split; [reflexivity|].
        unfold Str.lower in *. cbn [Str.map]. now rewrite L, E.
      * intros (mid & rest & E & L). destruct mid as [|c mid]; [discriminate|].
        rewrite append_cons in E. injection E as -> ->.
        unfold Str.lower in L. cbn [Str.map] in L. injection L as Lc L.
        split; [rewrite Lc; apply Ascii.eqb_refl | now exists mid, rest].
Qed.

Lemma contains_nocase_spec p s :
  contains_nocase p s = true <-> contains_ignoring_case p s.
Proof.
  unfold contains_ignoring_case.
  induction s as [|c s IH]; cbn [contains_nocase];
    rewrite orb_true_iff, startswith_nocase_spec.
  - split.
    + intros [(mid & rest & E & L)|]; [|discriminate]. now exists "", mid, rest.
    + intros (pre & mid & post & E & L). left.
      destruct pre; [|discriminate]. now exists mid, post.
  - rewrite IH. split.
    + intros [(mid & rest & E & L)|(pre & mid & post & -> & L)].
      * now exists "", mid, rest.
      * now exists (String c pre), mid, post.
    + intros (pre & mid & post & E & L). destruct pre as [|x pre].
      * left. now exists mid, post.
      * right. rewrite append_cons in E. injection E as -> ->.
        now exists pre, mid, post.
Qed.

Lemma occurs_contains_ignoring_case t extra s :
  occurs (t +:+ extra) s -> contains_ignoring_case t s.
Proof.
  intros (pre & post & ->). exists pre, t, (extra +:+ post).
  split; [now rewrite append_assoc_str | reflexivity].
Qed.

Lemma elem_of_region_7 full_df e :
  e ∈ region_7 full_df <->
  e ∈ full_df
  /\ exists r, Region e = Some r /\ contains_ignoring_case "REGION VII" r.
Proof.
  unfold region_7. rewrite list_elem_of_filter. unfold str_contains.
  destruct (Region e) as [r|].
  - rewrite contains_nocase_spec. split.
    + intros [C E]. split; [exact E | now exists r].
    + intros [E (r' & [= <-] & C)]. now split.
  - split; [intros [? _]; discriminate | intros [_ (r & ? & _)]; discriminate].
Qed.

(** C10. The regional filter keeps, in frame order, exactly the records
    whose region text contains ["REGION VII"] up to case, and drops the
    records with no region. A label such as ["REGION VIII"], which
    contains ["REGION VII"], is therefore kept, and its records are
    among the rows of the monthly aggregate. *)
Theorem regional_filter (full_df : list entry) :
  (forall e,
     e ∈ region_7 full_df <->
     e ∈ full_df
     /\ exists r, Region e = Some r /\ contains_ignoring_case "REGION VII" r)
  /\ sublist (region_7 full_df) full_df
  /\ (forall e, Region e = None -> e ∉ region_7 full_df)
  /\ (forall e r,
        e ∈ full_df -> Region e = Some r -> occurs "REGION VIII" r ->
        e ∈ region_7 full_df)
  /\ (forall e r k monthly_df,
        e ∈ full_df -> Region e = Some r -> occurs "REGION VIII" r ->
        isin sentinels (Province e) = false -> entry_key e = Some k ->
        monthly_aggregate (region_7 full_df) = Some monthly_df ->
        exists row, row ∈ monthly_df /\ monthly_key row = k).
Proof.
  assert (V : forall e r,
             e ∈ full_df -> Region e = Some r -> occurs "REGION VIII" r ->
             e ∈ region_7 full_df).
  { intros e r E R O. apply elem_of_region_7. split; [exact E|].
    exists r. split; [exact R|].
    now apply (occurs_contains_ignoring_case "REGION VII" "I"). }
  split; [apply elem_of_region_7|].
  split; [apply sublist_filter|].
  split.
  - intros e N H. apply elem_of_region_7 in H as [_ (r & R & _)]. congruence.
  - split; [exact V|].
    intros e r k monthly_df E R O S K A.
    assert (Kin : k ∈ (monthly_key <$> monthly_df)).
    { apply (monthly_aggregate_keys _ _ A). exists e.
      split; [now apply (V e r) | now split]. }
    apply list_elem_of_fmap in Kin as (row & -> & Rin). now exists row.
Qed.

(** Of the mixed frame the filter keeps the records of ["Region VII"]
    and of ["REGION VIII"], and both are rows of the aggregate. *)
Lemma regional_filter_witness :
  ((fun e => (Region e, Province e)) <$> region_7 mixed_frame)
    = [(Some "Region VII", Some "Cebu"); (Some "REGION VIII", Some "Leyte")]
  /\ (exists monthly_df,
        monthly_aggregate (region_7 mixed_frame) = Some monthly_df
        /\ (exists row, row ∈ monthly_df
                        /\ monthly_key row
                           = (2023%Z, "September", "REGION VIII", "Leyte"))
        /\ (fun r => (Monthly.Region r, Monthly.Province r)) <$> monthly_df
           = [("Region VII", "Cebu"); ("REGION VIII", "Leyte")]).
Proof.
  split; [vm_compute; reflexivity|].
  eexists. split; [vm_compute; reflexivity|].
  split; [|vm_compute; reflexivity].
  apply (proj2 (proj2 (proj2 (proj2 (regional_filter mixed_frame))))
           (create_entry (Some september_2023) "REGION VIII" "Leyte"
              [price "300"] "a.pdf")
           "REGION VIII").
  - apply list_elem_of_further, list_elem_of_here.
  - reflexivity.
  - now exists "", "".
  - reflexivity.
  - reflexivity.
  - vm_compute; reflexivity.
Defined.

(** ** The cache of the corpus aggregator *)

Section CorpusFacts.
Context {csv : Type}.
Variable to_csv : list entry -> csv.
Variable read_csv : csv -> option (list entry).

Abbreviation step := (process_pdf_file to_csv read_csv).
Abbreviation run := (process_pdf_files to_csv read_csv).

Lemma process_pdf_file_hit (files : gmap string csv) all_data pdf_file csv_name f :
  cache_name pdf_file = Some csv_name ->
  files !! csv_name = Some f ->
  step (files, all_data) pdf_file =
    (files, match read_csv f with
            | Some df => all_data ++ [df]
            | None => all_data
            end).
Proof.
  unfold cache_name, process_pdf_file. intros -> ->.
  now destruct (read_csv f).
Qed.

Lemma process_pdf_file_miss (files : gmap string csv) all_data pdf_file csv_name :
  cache_name pdf_file = Some csv_name ->
  files !! csv_name = None ->
  step (files, all_data) pdf_file =
    match parse_pdf pdf_file with
    | Some (e :: df) =>
        (<[csv_name := to_csv (e :: df)]> files, all_data ++ [e :: df])
    | _ => (files, all_data)
    end.
Proof.
  unfold cache_name, process_pdf_file. intros -> ->.
  now destruct (parse_pdf pdf_file) as [[|e df]|].
Qed.

Lemma process_pdf_file_unnamed (files : gmap string csv) all_data pdf_file :
  cache_name pdf_file = None ->
  step (files, all_data) pdf_file = (files, all_data).
Proof. unfold cache_name, process_pdf_file. now intros ->. Qed.

(** One document adds at most one frame, and the cache changes only when
    a frame is added. *)
Lemma step_effect (files : gmap string csv) all_data pdf_file :
  exists more,
    (step (files, all_data) pdf_file).2 = all_data ++ more
    /\ (more = [] -> (step (files, all_data) pdf_file).1 = files)
    /\ forall a2, (step (files, a2) pdf_file).2 = a2 ++ more.
Proof.
  destruct (cache_name pdf_file) as [n|] eqn:N.
  - destruct (files !! n) as [f|] eqn:L.
    + exists (match read_csv f with Some df => [df] | None => [] end).
      split; [|split]; [| |intros a2];
        rewrite ?(process_pdf_file_hit _ _ _ _ _ N L);
        destruct (read_csv f); cbn; now rewrite ?app_nil_r.
    + exists (match parse_pdf pdf_file with
              | Some (e :: df) => [e :: df]
              | _ => []
              end).
      split; [|split]; [| |intros a2];
        rewrite ?(process_pdf_file_miss _ _ _ _ N L);
        destruct (parse_pdf pdf_file) as [[|e df]|]; cbn;
        rewrite ?app_nil_r; try reflexivity; discriminate.
  - exists []. split; [|split]; [| |intros a2];
      rewrite ?(process_pdf_file_unnamed _ _ _ N); cbn;
      now rewrite ?app_nil_r.
Qed.

Lemma run_cons pdf_file pdf_files st :
  run (pdf_file :: pdf_files) st = run pdf_files (step st pdf_file).
Proof. reflexivity. Qed.

Lemma run_effect pdf_files (files : gmap string csv) all_data :
  exists more,
    (run pdf_files (files, all_data)).2 = all_data ++ more
    /\ (more = [] -> (run pdf_files (files, all_data)).1 = files).
Proof.
  revert files all_data.
  induction pdf_files as [|d ds IH]; intros files all_data.
  - exists []. cbn. now rewrite app_nil_r.
  - rewrite run_cons.
    destruct (step_effect files all_data d) as (m1 & E1 & C1 & _).
    destruct (step (files, all_data) d) as [files' all_data'] eqn:S.
    cbn [fst snd] in E1, C1.
    destruct (IH files' all_data') as (m2 & E2 & C2).
    exists (m1 ++ m2). split.
    + rewrite E2, E1. now rewrite app_assoc.
    + intros E. apply app_eq_nil in E as [-> ->].
      rewrite C2 by reflexivity. now apply C1.
Qed.

(** A cache artifact, once there, is never written again. *)
Lemma step_keeps (files : gmap string csv) all_data pdf_file n f :
  files !! n = Some f -> (step (files, all_data) pdf_file).1 !! n = Some f.
Proof.
  intros L. destruct (cache_name pdf_file) as [n'|] eqn:N.
  - destruct (files !! n') as [f'|] eqn:L'.
    + now rewrite (process_pdf_file_hit _ _ _ _ _ N L').
    + rewrite (process_pdf_file_miss _ _ _ _ N L').
      destruct (parse_pdf pdf_file) as [[|e df]|]; cbn; try assumption.
      rewrite lookup_insert_ne; [assumption | congruence].
  - now rewrite (process_pdf_file_unnamed _ _ _ N).
Qed.

Lemma run_keeps pdf_files (files : gmap string csv) all_data n f :
  files !! n = Some f -> (run pdf_files (files, all_data)).1 !! n = Some f.
Proof.
  revert files all_data.
  induction pdf_files as [|d ds IH]; intros files all_data L; [exact L|].
  rewrite run_cons.
  pose proof (step_keeps files all_data d n f L) as K.
  destruct (step (files, all_data) d) as [files' all_data'].
  now apply IH.
Qed.

(** A cache artifact that a run adds holds the records parsed from one of
    its documents. *)
Lemma run_adds pdf_files (files : gmap string csv) all_data n f :
  files !! n = None ->
  (run pdf_files (files, all_data)).1 !! n = Some f ->
  exists d e df,
    d ∈ pdf_files /\ cache_name d = Some n
    /\ parse_pdf d = Some (e :: df) /\ f = to_csv (e :: df).
Proof.
  revert files all_data.
  induction pdf_files as [|d ds IH]; intros files all_data L R.
  - cbn in R. congruence.
  - rewrite run_cons in R.
    assert (Further : forall files' all_data',
               step (files, all_data) d = (files', all_data') ->
               files' !! n = None ->
               exists d0 e df,
                 d0 ∈ d :: ds /\ cache_name d0 = Some n
                 /\ parse_pdf d0 = Some (e :: df) /\ f = to_csv (e :: df)).
    { intros files' all_data' S L'. rewrite S in R.
      destruct (IH files' all_data' L' R) as (d0 & e & df & I & P).
      exists d0, e, df. split; [now apply list_elem_of_further | exact P]. }
    destruct (cache_name d) as [n'|] eqn:N.
    + destruct (files !! n') as [f'|] eqn:L'.
      * apply (Further files (match read_csv f' with
                              | Some df => all_data ++ [df]
                              | None => all_data
                              end));
          [now apply (process_pdf_file_hit _ _ _ n' f') | exact L].
      * pose proof (process_pdf_file_miss files all_data d n' N L') as S.
        destruct (parse_pdf d) as [[|e df]|] eqn:P;
          try (now apply (Further files all_data)).
        destruct (decide (n' = n)) as [->|Ne].
        -- rewrite S in R.
           rewrite (run_keeps ds _ _ n (to_csv (e :: df))) in R
             by apply lookup_insert_eq.
           injection R as <-. exists d, e, df.
           repeat split; [apply list_elem_of_here | exact N | exact P].
        -- apply (Further _ _ S). now rewrite lookup_insert_ne.
    + apply (Further files all_data);
        [now apply process_pdf_file_unnamed | exact L].
Qed.



End CorpusFacts.

(** ** Runs of the corpus aggregator *)

Lemma process_conclude {csv} (to_csv : list entry -> csv) read_csv
    download_file links (fs : files csv) :
  links <> [] ->
  process_fertilizer_data to_csv read_csv download_file links fs
    = conclude fs
        (process_pdf_files to_csv read_csv (omap download_file links)
           (cache fs, [])).
Proof.
  intros N. unfold process_fertilizer_data, conclude, process_pdf_files.
  destruct links as [|l links]; [congruence|].
  destruct (fold_left _ _ _) as [c a]. cbn [fst snd].
  destruct a; [reflexivity|].
  destruct (region_7 _); [reflexivity|].
  now destruct (monthly_aggregate _).
Qed.

Lemma conclude_cache {csv} (fs : files csv) st :
  cache (conclude fs st).2 = st.1.
Proof.
  unfold conclude. destruct (st.2); [reflexivity|].
  destruct (region_7 _); [reflexivity|].
  now destruct (monthly_aggregate _).
Qed.


Lemma conclude_empty {csv} (fs : files csv) st :
  (empty_result (conclude fs st).1 = true <->
     st.2 = [] \/ region_7 (concat st.2) = [])
  /\ (empty_result (conclude fs st).1 = true ->
      (conclude fs st).2 = {| cache := st.1; aggregate_file := aggregate_file fs |}).
Proof.
  unfold conclude. destruct (st.2) as [|df a]; [cbn; tauto|].
  destruct (region_7 _) as [|e r7]; [cbn; tauto|].
  destruct (monthly_aggregate _); cbn; split;
    try discriminate; (split; [discriminate | intros [?|?]; discriminate]).
Qed.

(** C8. When no link is discovered, when no document yields a frame, or
    when the regional filter keeps no row, the corpus aggregator reports
    the empty result, returns without aggregating and leaves the aggregate
    output file as it was; these are the only cases in which it reports an
    empty result, and in none of them does it raise. *)
Theorem empty_results {csv : Type} (to_csv : list entry -> csv)
    (read_csv : csv -> option (list entry))
    (download_file : string -> option document)
    (links : list string) (fs : files csv) :
  let st := process_pdf_files to_csv read_csv (omap download_file links)
              (cache fs, []) in
  let res := process_fertilizer_data to_csv read_csv download_file links fs in
  (links = [] -> res = (No_PDF_links_found, fs))
  /\ (links <> [] -> st.2 = [] -> res = (No_data_extracted, fs))
  /\ (links <> [] -> st.2 <> [] -> region_7 (concat st.2) = [] ->
      res = (No_Region_VII_data_found,
             {| cache := st.1; aggregate_file := aggregate_file fs |}))
  /\ (empty_result res.1 = true <->
      links = [] \/ st.2 = [] \/ region_7 (concat st.2) = [])
  /\ (empty_result res.1 = true -> aggregate_file res.2 = aggregate_file fs).
Proof.
  cbv zeta.
  destruct (decide (links = [])) as [->|N].
  { cbn. repeat split; try tauto; try congruence. }
  rewrite (process_conclude to_csv read_csv download_file links fs N).
  set (st := process_pdf_files to_csv read_csv (omap download_file links)
               (cache fs, [])).
  destruct (conclude_empty fs st) as [E1 E2].
  split; [congruence|]. split; [|split; [|split]].
  - intros _ A. unfold conclude. rewrite A.
    destruct (run_effect to_csv read_csv (omap download_file links)
                (cache fs) []) as (more & M & C).
    fold st in M, C. rewrite A in M. cbn in M. subst more.
    rewrite C by reflexivity. now destruct fs.
  - intros _ A R. unfold conclude. rewrite R.
    destruct (st.2); [congruence | reflexivity].
  - rewrite E1. tauto.
  - intros E. now rewrite (E2 E).
Qed.

(** The three empty results on the example links: no link at all; a
    document whose name gives no date; a document of another region. The
    aggregate file stays absent, and the cache holds the records of the
    document that was parsed. *)
Lemma empty_results_witness :
  process_fertilizer_data memory_to_csv memory_read_csv example_download
    [] no_files = (No_PDF_links_found, no_files)
  /\ process_fertilizer_data memory_to_csv memory_read_csv example_download
       ["https://fpa.da.gov.ph/report_2023.pdf";
        "https://fpa.da.gov.ph/missing.pdf"] no_files
     = (No_data_extracted, no_files)
  /\ (fun res : report * files (list entry) =>
        (res.1, aggregate_file res.2, (map_to_list (cache res.2)).*1))
       (process_fertilizer_data memory_to_csv memory_read_csv example_download
          ["https://fpa.da.gov.ph/wfp_caraga_oct_2023.pdf"] no_files)
     = (No_Region_VII_data_found, None, ["wfp_caraga_oct_2023.csv"]).
Proof.
  split; [|split].
  - apply (proj1 (empty_results memory_to_csv memory_read_csv
                    example_download [] no_files)).
    reflexivity.
  - apply (proj1 (proj2 (empty_results memory_to_csv memory_read_csv
                    example_download
                    ["https://fpa.da.gov.ph/report_2023.pdf";
                     "https://fpa.da.gov.ph/missing.pdf"] no_files)));
      [discriminate | vm_compute; reflexivity].
  - rewrite (proj1 (proj2 (proj2 (empty_results memory_to_csv memory_read_csv
                    example_download
                    ["https://fpa.da.gov.ph/wfp_caraga_oct_2023.pdf"]
                    no_files))));
      [vm_compute; reflexivity | discriminate | vm_compute; discriminate
      | vm_compute; reflexivity].
Defined.




(** * Further properties of the document parser *)

(** ** Trimming twice *)

Lemma rstrip_cons_nonspace c s :
  Str.is_space c = false -> Str.rstrip (String c s) = String c (Str.rstrip s).
Proof. intros H. cbn [Str.rstrip]. rewrite H. now destruct (Str.rstrip s). Qed.

Lemma rstrip_cons_nonempty c s :
  Str.rstrip s <> "" -> Str.rstrip (String c s) = String c (Str.rstrip s).
Proof. intros H. cbn [Str.rstrip]. now destruct (Str.rstrip s). Qed.

Lemma rstrip_idem s : Str.rstrip (Str.rstrip s) = Str.rstrip s.
Proof.
  induction s as [|c s IH]; [reflexivity|].
  destruct (Str.rstrip s) as [|a r] eqn:E.
  - cbn [Str.rstrip]. rewrite E.
    destruct (Str.is_space c) eqn:Sp; [reflexivity|].
    cbn [Str.rstrip]. now rewrite Sp.
  - rewrite (rstrip_cons_nonempty c s) by (rewrite E; discriminate).
    rewrite E. rewrite (rstrip_cons_nonempty c (String a r))
      by (rewrite IH; discriminate).
    now rewrite IH.
Qed.

Lemma lstrip_head s :
  Str.lstrip s = ""
  \/ exists c t, Str.lstrip s = String c t /\ Str.is_space c = false.
Proof.
  induction s as [|c s IH]; [now left|].
  cbn [Str.lstrip]. destruct (Str.is_space c) eqn:Sp; [exact IH|].
  right. now exists c, s.
Qed.

Lemma strip_head s :
  Str.strip s = ""
  \/ exists c t, Str.strip s = String c t /\ Str.is_space c = false.
Proof.
  unfold Str.strip. destruct (lstrip_head s) as [->|(c & t & -> & Sp)].
  - now left.
  - right. rewrite (rstrip_cons_nonspace c t Sp). now exists c, (Str.rstrip t).
Qed.

Lemma strip_idem s : Str.strip (Str.strip s) = Str.strip s.
Proof.
  destruct (strip_head s) as [->|(c & t & E & Sp)]; [reflexivity|].
  unfold Str.strip at 1. rewrite E. cbn [Str.lstrip]. rewrite Sp.
  rewrite <- E. unfold Str.strip. apply rstrip_idem.
Qed.

Lemma rstrip_strip s : Str.rstrip (Str.strip s) = Str.strip s.
Proof. unfold Str.strip. apply rstrip_idem. Qed.

Lemma no_newline_lstrip s : no_newline s = true -> no_newline (Str.lstrip s) = true.
Proof.
  induction s as [|c s IH]; [reflexivity|]. intros H.
  cbn [Str.lstrip]. destruct (Str.is_space c); [|exact H].
  apply IH. cbn [no_newline] in H. now apply andb_true_iff in H as [_ H].
Qed.

Lemma no_newline_rstrip s : no_newline s = true -> no_newline (Str.rstrip s) = true.
Proof.
  induction s as [|c s IH]; [reflexivity|]. intros H.
  cbn [no_newline] in H. apply andb_true_iff in H as [Hc Hs].
  specialize (IH Hs). cbn [Str.rstrip].
  destruct (Str.rstrip s) as [|a r].
  - destruct (Str.is_space c); [reflexivity|].
    cbn [no_newline]. apply andb_true_iff. now split.
  - change (no_newline (String c (String a r)))
      with (negb (Ascii.eqb c Str.newline) && no_newline (String a r)).
    apply andb_true_iff. now split.
Qed.

Lemma no_newline_strip s : no_newline s = true -> no_newline (Str.strip s) = true.
Proof. intros H. now apply no_newline_rstrip, no_newline_lstrip. Qed.

Lemma no_newline_first_line s : no_newline (first_line s) = true.
Proof.
  induction s as [|c s IH]; [reflexivity|]. cbn [first_line].
  destruct (Ascii.eqb c Str.newline) eqn:E; [reflexivity|].
  cbn [no_newline]. apply andb_true_iff. split; [now rewrite E | exact IH].
Qed.

Lemma no_newline_lines_joined s : no_newline (lines_joined s) = true.
Proof.
  unfold lines_joined, Str.replace_char.
  induction s as [|c s IH]; [reflexivity|]. cbn [Str.map no_newline].
  apply andb_true_iff. split; [|exact IH].
  destruct (Ascii.eqb c Str.newline) eqn:E; [reflexivity | now rewrite E].
Qed.

Lemma whitespace_only_lines_joined s :
  whitespace_only (lines_joined s) = whitespace_only s.
Proof.
  unfold lines_joined, Str.replace_char.
  induction s as [|c s IH]; [reflexivity|]. cbn [Str.map whitespace_only].
  rewrite IH. destruct (Ascii.eqb c Str.newline) eqn:E; [|reflexivity].
  apply Ascii.eqb_eq in E as ->. reflexivity.
Qed.

Lemma strip_not_empty s : whitespace_only s = false -> Str.strip s <> "".
Proof. intros H E. apply strip_empty in E. congruence. Qed.

Lemma clean_strip s : whitespace_only s = false -> no_newline s = true ->
  clean_label (Str.strip s).
Proof.
  intros W N. split; [now apply strip_not_empty|].
  split; [apply strip_idem | now apply no_newline_strip].
Qed.

(** The part of a trimmed cell after its first line break is not blank. *)
Lemma after_first_line_not_blank raw rest :
  Str.rstrip raw = raw -> after_first_line raw = Some rest ->
  whitespace_only rest = false.
Proof.
  revert rest. induction raw as [|c t IH]; intros rest R A; [discriminate|].
  cbn [after_first_line] in A. cbn [Str.rstrip] in R.
  destruct (Ascii.eqb c Str.newline) eqn:E.
  - injection A as <-. apply Ascii.eqb_eq in E as ->.
    destruct (whitespace_only t) eqn:W; [|reflexivity].
    apply rstrip_empty in W. rewrite W in R. discriminate.
  - apply IH; [|exact A].
    destruct (Str.rstrip t) as [|a r] eqn:Rt.
    + destruct (Str.is_space c); [discriminate|].
      injection R as <-. discriminate.
    + now injection R.
Qed.

Lemma first_cell_head r :
  Str.truthy (first_cell r) = true ->
  exists c t, first_cell r = String c t /\ Str.is_space c = false.
Proof.
  destruct r as [|c0 r]; [discriminate|]. cbn [first_cell].
  destruct (strip_head (str c0)) as [->|H]; [discriminate | now intros _].
Qed.

Lemma first_cell_rstrip r : Str.rstrip (first_cell r) = first_cell r.
Proof. destruct r as [|c0 r]; [reflexivity | apply rstrip_strip]. Qed.

Lemma not_skipped_truthy r : skipped r = false -> Str.truthy (first_cell r) = true.
Proof.
  unfold skipped. intros H. apply orb_false_iff in H as [H _].
  now apply negb_false_iff.
Qed.

(** The labels of a row that is not skipped are clean. *)
Lemma marker_region_clean r : skipped r = false -> clean_label (marker_region r).
Proof.
  intros S. destruct (first_cell_head r (not_skipped_truthy r S))
    as (c & t & E & Sp).
  unfold marker_region. apply clean_strip; [|apply no_newline_first_line].
  rewrite E. cbn [first_line].
  destruct (Ascii.eqb c Str.newline) eqn:N.
  - apply Ascii.eqb_eq in N as ->. discriminate.
  - cbn [whitespace_only]. now rewrite Sp.
Qed.

Lemma row_province_clean r : skipped r = false -> clean_label (row_province r).
Proof.
  intros S. destruct (first_cell_head r (not_skipped_truthy r S))
    as (c & t & E & Sp).
  unfold row_province. destruct (region_marker r).
  - destruct (after_first_line (first_cell r)) as [rest|] eqn:A.
    + apply clean_strip; [|apply no_newline_lines_joined].
      rewrite whitespace_only_lines_joined.
      now apply (after_first_line_not_blank (first_cell r) rest
                   (first_cell_rstrip r)).
    + repeat split. discriminate.
  - destruct (regional_average r).
    + repeat split. discriminate.
    + apply clean_strip; [|apply no_newline_lines_joined].
      rewrite whitespace_only_lines_joined, E.
      cbn [whitespace_only]. now rewrite Sp.
Qed.

(** ** Invariants of the loop over the rows *)

Lemma parse_rows_invariant (P : entry -> Prop) (Q : string -> Prop)
    file_date filename :
  (forall r, skipped r = false -> Q (marker_region r)) ->
  (forall region r, Q region -> skipped r = false ->
     P (create_entry file_date region (row_province r) (row_prices r) filename)) ->
  forall rows st,
    Q (current_region st) -> Forall P (data st) ->
    Q (current_region (parse_rows file_date filename st rows))
    /\ Forall P (data (parse_rows file_date filename st rows)).
Proof.
  intros HQ HP rows. induction rows as [|r rows IH]; intros st Q0 P0;
    [now split|].
  rewrite parse_rows_cons. rewrite parse_row_cases.
  destruct (skipped r) eqn:S; [now apply IH|].
  cbv zeta. apply IH; cbn [current_region data].
  - destruct (region_marker r); [now apply HQ | exact Q0].
  - unfold emit. destruct (any _); [|exact P0].
    apply Forall_app. split; [exact P0|].
    apply Forall_cons. split; [|apply Forall_nil_2].
    apply HP; [|exact S].
    destruct (region_marker r); [now apply HQ | exact Q0].
Qed.

(** Every record of a document carries a region and a province that are
    not empty, have no whitespace at their ends and no line break. *)
Theorem labels_are_clean doc records :
  parse_pdf doc = Some records ->
  Forall (fun e => exists r p, Region e = Some r /\ Province e = Some p
                               /\ clean_label r /\ clean_label p) records.
Proof.
  unfold parse_pdf.
  destruct (extract_date_from_filename (doc_name doc)) as [d|];
    [|intros [= <-]; constructor].
  destruct (doc_pages doc) as [ps|]; [|discriminate].
  intros [= <-]. rewrite parse_pages_rows.
  apply (parse_rows_invariant _ clean_label);
    [apply marker_region_clean | | | constructor].
  - intros region r Q S. exists region, (row_province r).
    repeat split; try apply Q. all: now apply row_province_clean.
  - repeat split. discriminate.
Qed.

Lemma labels_are_clean_witness :
  exists records,
    parse_pdf mixed_document = Some records
    /\ Forall (fun e => exists r p, Region e = Some r /\ Province e = Some p
                                    /\ clean_label r /\ clean_label p) records
    /\ (fun e => (Region e, Province e)) <$> records
       = [(Some "Unknown", Some "Bohol"); (Some "REGION VII", Some "Cebu");
          (Some "REGION VII", Some "Negros Oriental");
          (Some "REGION VII", Some "None");
          (Some "REGION VII", Some "Regional Average")].
Proof.
  eexists. split; [vm_compute; reflexivity|].
  split; [|vm_compute; reflexivity].
  apply (labels_are_clean mixed_document). vm_compute; reflexivity.
Defined.

(** Every record of a document is stamped with the date inferred from the
    name of the document, the month name and year of that date, and the
    name of the document. *)
Theorem records_are_stamped doc records :
  parse_pdf doc = Some records ->
  Forall (fun e => exists d,
            extract_date_from_filename (doc_name doc) = Some d
            /\ stamped d (doc_name doc) e) records.
Proof.
  unfold parse_pdf.
  destruct (extract_date_from_filename (doc_name doc)) as [d|] eqn:E;
    [|intros [= <-]; constructor].
  destruct (doc_pages doc) as [ps|]; [|discriminate].
  intros [= <-]. rewrite parse_pages_rows.
  apply (parse_rows_invariant _ (fun _ => True)); try easy.
  intros region r _ _. exists d. now repeat split.
Qed.

Lemma records_are_stamped_witness :
  exists records,
    parse_pdf mixed_document = Some records
    /\ Forall (fun e => exists d,
                 extract_date_from_filename (doc_name mixed_document) = Some d
                 /\ stamped d (doc_name mixed_document) e) records
    /\ (fun e => (Month e, Year e, Source_File e)) <$> records
       = repeat (Some "October", Some 2024%Z, "WFP_Weekly_Oct-2024.PDF") 5.
Proof.
  eexists. split; [vm_compute; reflexivity|].
  split; [|vm_compute; reflexivity].
  apply (records_are_stamped mixed_document). vm_compute; reflexivity.
Defined.

(** ** One record for each data row, in reading order *)

Lemma parse_rows_labels file_date filename rows st :
  Province <$> data (parse_rows file_date filename st rows)
    = (Province <$> data st)
      ++ ((fun r => Some (row_province r)) <$> List.filter emits rows).
Proof.
  revert st. induction rows as [|r rows IH]; intros st.
  - cbn. now rewrite app_nil_r.
  - rewrite parse_rows_cons, IH, parse_row_cases. cbn [List.filter].
    unfold emits at 2. destruct (skipped r); [reflexivity|].
    cbv zeta. cbn [data negb andb]. unfold emit.
    destruct (any (row_prices r)); [|reflexivity].
    rewrite fmap_app. cbn [fmap list_fmap]. rewrite <- app_assoc.
    reflexivity.
Qed.

(** A document with a date in its name gives exactly one record for each
    row that is not skipped and has a truthy price, in the reading order
    of the rows, under the label the classifier gives the row. *)
Theorem one_record_per_data_row doc d ps :
  extract_date_from_filename (doc_name doc) = Some d ->
  doc_pages doc = Some ps ->
  exists records,
    parse_pdf doc = Some records
    /\ Province <$> records
       = (fun r => Some (row_province r)) <$> List.filter emits (rows_of ps)
    /\ length records = length (List.filter emits (rows_of ps))
    /\ length records <= length (rows_of ps).
Proof.
  intros E P. unfold parse_pdf. rewrite E, P. eexists.
  split; [reflexivity|]. rewrite parse_pages_rows.
  pose proof (parse_rows_labels (Some d) (doc_name doc) (rows_of ps)
                initial_state) as L.
  cbn [data initial_state fmap list_fmap app] in L.
  split; [exact L|].
  assert (N : length (data (parse_rows (Some d) (doc_name doc) initial_state
                              (rows_of ps)))
              = length (List.filter emits (rows_of ps))).
  { rewrite <- (length_fmap Province), L. apply length_fmap. }
  split; [exact N|]. rewrite N. apply filter_length_le.
Qed.

Lemma one_record_per_data_row_witness :
  exists records,
    parse_pdf mixed_document = Some records
    /\ Province <$> records
       = (fun r => Some (row_province r)) <$>
           List.filter emits
             [header_row; bohol_row; cebu_row; zero_row; urea_marker_row;
              wrapped_province_row; missing_first_cell_row; average_row;
              blank_prices_row]
    /\ length records = 5%nat
    /\ length records <= 9.
Proof.
  apply (one_record_per_data_row mixed_document
           {| ts_year := 2024; ts_month := 10; ts_day := 1 |}
           [[[header_row; bohol_row; cebu_row; zero_row];
             [urea_marker_row; wrapped_province_row]];
            [[missing_first_cell_row; average_row; blank_prices_row]]]);
    vm_compute; reflexivity.
Defined.

(** ** The skip rules and the rows without a region *)

Lemma skip_condition_skipped c0 rest :
  skip_condition c0 = skipped (c0 :: rest).
Proof.
  unfold skip_condition, skipped, header_rule, first_cell. cbv zeta.
  rewrite eqb_empty.
  destruct (negb _), (Str.contains "REGION" _ && Str.contains "PROVINCE" _),
    (Str.contains "FERTILIZER" _), (Str.contains "UREA" _),
    (Str.startswith "46-0-0" _), (String.eqb _ "PRICE"); reflexivity.
Qed.

(** A row whose first cell is blank, holds both ["REGION"] and
    ["PROVINCE"], holds ["FERTILIZER"] or ["UREA"], starts with
    ["46-0-0"] or is ["PRICE"] (in any case of the letters) changes
    neither the records nor the region, whatever its other cells hold and
    even when the cell names a region. *)
Theorem skip_rules_win file_date filename st c0 rest :
  skip_condition c0 = true ->
  parse_row file_date filename st (c0 :: rest) = st.
Proof.
  intros H. rewrite parse_row_cases.
  now rewrite <- (skip_condition_skipped c0 rest), H.
Qed.

Lemma skip_rules_win_witness :
  parse_row (Some september_2023) "wfp.pdf" initial_state urea_marker_row
    = initial_state
  /\ parse_row (Some september_2023) "wfp.pdf" initial_state header_row
     = initial_state
  /\ any (row_prices urea_marker_row) = true.
Proof.
  split; [|split; [|vm_compute; reflexivity]];
    apply skip_rules_win; vm_compute; reflexivity.
Defined.

Lemma upper_not_empty s : Str.upper s <> "" -> Str.truthy s = true.
Proof. now destruct s. Qed.

(** A row whose first cell reads ["AVE"] or ["AVERAGE PRICE"], in any
    case of the letters, keeps the region and records its prices, when
    one is truthy, under the province ["Regional Average"] of the current
    region. *)
Theorem regional_average_rows file_date filename st c0 rest :
  Str.upper (Str.strip (str c0)) = "AVE"
  \/ Str.upper (Str.strip (str c0)) = "AVERAGE PRICE" ->
  parse_row file_date filename st (c0 :: rest) =
    {| current_region := current_region st;
       data := if any (row_prices (c0 :: rest))
               then data st ++ [create_entry file_date (current_region st)
                                  "Regional Average" (row_prices (c0 :: rest))
                                  filename]
               else data st |}.
Proof.
  intros H. unfold parse_row, emit.
  assert (T : Str.truthy (Str.strip (str c0)) = true)
    by (apply upper_not_empty; destruct H as [-> | ->]; discriminate).
  rewrite T. cbn [negb].
  destruct H as [-> | ->]; reflexivity.
Qed.

Lemma regional_average_rows_witness :
  parse_row (Some september_2023) "wfp.pdf"
    {| current_region := "REGION VII"; data := [] |} average_row
  = {| current_region := "REGION VII";
       data := [create_entry (Some september_2023) "REGION VII"
                  "Regional Average" [price "900"; price "950"] "wfp.pdf"] |}.
Proof.
  exact (regional_average_rows (Some september_2023) "wfp.pdf"
           {| current_region := "REGION VII"; data := [] |}
           (Some "Ave") [Some "900"; Some "950"] (or_introl eq_refl)).
Defined.

(** A missing first cell is read as the text ["None"]: the row is not
    skipped as blank but recorded, when a price is truthy, as a province
    named ["None"] of the current region. *)
Theorem missing_first_cell_is_a_province file_date filename st rest :
  skip_condition None = false
  /\ parse_row file_date filename st (None :: rest) =
       {| current_region := current_region st;
          data := if any (row_prices (None :: rest))
                  then data st ++ [create_entry file_date (current_region st)
                                     "None" (row_prices (None :: rest)) filename]
                  else data st |}.
Proof. split; reflexivity. Qed.

(** ** Dates inferred from file names *)

(** A date inferred from a file name is the first day of a month of a
    year from 2000 to 2099. *)
Theorem inferred_dates_are_in_range filename d :
  extract_date_from_filename filename = Some d ->
  (2000 <= ts_year d <= 2099)%Z /\ (1 <= ts_month d <= 12)%Z
  /\ ts_day d = 1%Z.
Proof.
  intros H. destruct (extract_date_bounds filename d H) as [Y M].
  split; [exact Y|]. split; [exact M|].
  destruct (re_search (match_alt (sort_by_len_desc months))
              (normalized_name filename)) as [t|] eqn:T;
    [|rewrite extract_date_absent in H by (now left); discriminate].
  destruct (re_search match_year (normalized_name filename)) as [y|] eqn:Yr;
    [|rewrite extract_date_absent in H by (now right); discriminate].
  destruct (extract_date_found filename t y T Yr) as (m & _ & E).
  rewrite E in H. now injection H as <-.
Qed.

Lemma inferred_dates_are_in_range_witness :
  extract_date_from_filename "WFP_Weekly_Oct-2024.PDF"
    = Some {| ts_year := 2024; ts_month := 10; ts_day := 1 |}
  /\ ((2000 <= 2024 <= 2099)%Z /\ (1 <= 10 <= 12)%Z /\ 1%Z = 1%Z).
Proof.
  split; [vm_compute; reflexivity|].
  apply (inferred_dates_are_in_range "WFP_Weekly_Oct-2024.PDF"
           {| ts_year := 2024; ts_month := 10; ts_day := 1 |}).
  vm_compute; reflexivity.
Defined.

Lemma map_map_str f g s : Str.map f (Str.map g s) = Str.map (fun c => f (g c)) s.
Proof. induction s as [|c s IH]; [reflexivity|]. cbn. now rewrite IH. Qed.

Lemma map_ext_str f g s : (forall c, f c = g c) -> Str.map f s = Str.map g s.
Proof.
  intros H. induction s as [|c s IH]; [reflexivity|]. cbn. now rewrite H, IH.
Qed.

Lemma normalized_name_map filename :
  normalized_name filename =
    Str.map (fun c =>
      (fun c => if Ascii.eqb c "." then "-"%char else c)
        ((fun c => if Ascii.eqb c "_" then "-"%char else c)
           (Str.lower_char c))) filename.
Proof.
  unfold normalized_name, Str.replace_char, Str.lower.
  now rewrite !map_map_str.
Qed.

Lemma extract_date_normalized f g :
  normalized_name f = normalized_name g ->
  extract_date_from_filename f = extract_date_from_filename g.
Proof.
  intros H. unfold extract_date_from_filename.
  fold (normalized_name f). fold (normalized_name g). now rewrite H.
Qed.

Lemma lower_char_letter c n :
  (65 <= n <= 90)%N -> Str.code c = n \/ Str.code c = (n + 32)%N ->
  Str.lower_char c = ascii_of_N (n + 32).
Proof.
  intros R [E|E]; unfold Str.lower_char; cbv zeta; rewrite E.
  - replace ((65 <=? n) && (n <=? 90))%N with true; [reflexivity|].
    symmetry. apply andb_true_iff. split; apply N.leb_le; lia.
  - replace ((65 <=? n + 32) && (n + 32 <=? 90))%N with false.
    + rewrite <- E. unfold Str.code. now rewrite ascii_N_embedding.
    + symmetry. apply andb_false_iff. right. apply N.leb_gt. lia.
Qed.

Lemma interchangeable_normalized c1 c2 :
  interchangeable c1 c2 ->
  normalized_name (String c1 "") = normalized_name (String c2 "").
Proof.
  intros [->|[(n & R & E1 & E2)|[S1 S2]]]; [reflexivity| |].
  - rewrite !normalized_name_map. cbn [Str.map].
    now rewrite (lower_char_letter c1 n R E1), (lower_char_letter c2 n R E2).
  - cbn [In] in S1, S2.
    destruct S1 as [<-|[<-|[<-|[]]]]; destruct S2 as [<-|[<-|[<-|[]]]];
      reflexivity.
Qed.

Lemma same_name_normalized a b :
  same_name a b -> normalized_name a = normalized_name b.
Proof.
  induction 1 as [|c1 c2 s1 s2 C _ IH]; [reflexivity|].
  apply interchangeable_normalized in C.
  rewrite !normalized_name_map in *. cbn [Str.map] in *.
  injection C as C. now rewrite C, IH.
Qed.

(** The inferred date depends neither on the case of the ASCII letters of
    the file name nor on which of ["_"], ["."] and ["-"] separates its
    parts: two names of the same length that differ only in the case of
    such letters and in those separators have the same date. *)
Theorem inferred_date_ignores_case_and_separators (filename other : string) :
  same_name filename other ->
  extract_date_from_filename filename = extract_date_from_filename other.
Proof.
  intros H. apply extract_date_normalized. now apply same_name_normalized.
Qed.

Lemma inferred_date_ignores_case_and_separators_witness :
  same_name "WFP_Sept.2023-v2.PDF" "wfp-sEPT_2023.V2.pdf"
  /\ extract_date_from_filename "WFP_Sept.2023-v2.PDF"
     = extract_date_from_filename "wfp-sEPT_2023.V2.pdf"
  /\ extract_date_from_filename "wfp-sEPT_2023.V2.pdf" = Some september_2023.
Proof.
  assert (H : same_name "WFP_Sept.2023-v2.PDF" "wfp-sEPT_2023.V2.pdf").
  { repeat
      (first
         [ apply same_name_nil
         | apply same_name_cons;
           [ first
               [ left; reflexivity
               | right; right; cbn; tauto
               | right; left;
                 solve
                   [ (exists 87%N + exists 70%N + exists 80%N + exists 83%N
                      + exists 69%N + exists 84%N + exists 86%N
                      + exists 68%N);
                     (split; [lia|]);
                     split; first [left; reflexivity | right; reflexivity] ] ]
           | ] ]). }
  split; [exact H|].
  split; [|vm_compute; reflexivity].
  exact (inferred_date_ignores_case_and_separators _ _ H).
Defined.

(** ** Plain numbers *)

Lemma digit_not_space c : Str.is_digit c = true -> Str.is_space c = false.
Proof. destruct c as [[] [] [] [] [] [] [] []]; try discriminate; reflexivity. Qed.

Lemma rstrip_digits d : all_digits d = true -> Str.rstrip d = d.
Proof.
  induction d as [|c d IH]; [reflexivity|]. cbn [all_digits]. intros H.
  apply andb_true_iff in H as [Hc Hd].
  rewrite (rstrip_cons_nonspace c d (digit_not_space c Hc)). now rewrite IH.
Qed.

Lemma strip_digits d : all_digits d = true -> Str.strip d = d.
Proof.
  intros H. unfold Str.strip. destruct d as [|c d]; [reflexivity|].
  cbn [Str.lstrip]. cbn [all_digits] in H.
  pose proof H as H'. apply andb_true_iff in H' as [Hc _].
  rewrite (digit_not_space c Hc). apply rstrip_digits. exact H.
Qed.

Lemma digit_tail_digits d acc cnt :
  all_digits d = true ->
  PyFloat.digit_tail acc cnt d
    = (int_of_digits acc d, (cnt + Z.of_nat (String.length d))%Z, "").
Proof.
  revert acc cnt. induction d as [|c d IH]; intros acc cnt H.
  - cbn. now rewrite Z.add_0_r.
  - cbn [all_digits] in H. apply andb_true_iff in H as [Hc Hd].
    cbn [PyFloat.digit_tail int_of_digits String.length]. rewrite Hc.
    rewrite (IH _ _ Hd). do 2 f_equal. lia.
Qed.

Lemma of_string_digit_head c t :
  Str.is_digit c = true ->
  PyFloat.read_sign (String c t) = (false, String c t)
  /\ String.eqb (Str.lower (String c t)) "inf" = false
  /\ String.eqb (Str.lower (String c t)) "infinity" = false
  /\ String.eqb (Str.lower (String c t)) "nan" = false.
Proof.
  destruct c as [[] [] [] [] [] [] [] []]; try discriminate;
    intros _; repeat split; reflexivity.
Qed.

Lemma of_string_digits d :
  all_digits d = true -> d <> "" ->
  PyFloat.of_string d = Some (PyFloat.of_decimal false (int_of_digits 0 d) 0).
Proof.
  intros H N. unfold PyFloat.of_string. rewrite (strip_digits d H).
  destruct d as [|c t]; [congruence|].
  pose proof H as H'. cbn [all_digits] in H'.
  apply andb_true_iff in H' as [Hc Ht].
  destruct (of_string_digit_head c t Hc) as (S & I1 & I2 & I3).
  rewrite S, I1, I2, I3. cbn [orb].
  unfold PyFloat.number, PyFloat.digitpart. rewrite Hc.
  rewrite (digit_tail_digits t _ _ Ht).
  cbn [int_of_digits]. rewrite Z.mul_0_r, Z.add_0_l. reflexivity.
Qed.

(** A cell that reads a whole number, with or without commas and spaces
    between its digits, normalizes to that number. *)
Theorem whole_numbers_are_read (s : string) :
  let d := Str.remove_char " " (Str.remove_char "," s) in
  all_digits d = true -> d <> "" ->
  clean_currency (Some s)
    = Some (PyFloat.of_decimal false (int_of_digits 0 d) 0).
Proof.
  cbv zeta. intros H N. rewrite clean_currency_text.
  unfold remove_commas_and_spaces. rewrite (strip_digits _ H).
  now apply of_string_digits.
Qed.

Lemma whole_numbers_are_read_witness :
  clean_currency (Some "1, 234,567")
    = Some (PyFloat.of_decimal false 1234567 0).
Proof.
  apply (whole_numbers_are_read "1, 234,567");
    [vm_compute; reflexivity | discriminate].
Defined.

(** ** The seven prices of a record *)

(** A record has exactly seven price fields: the prices given, in their
    order, cut after the seventh and filled with missing values up to
    it. *)
Theorem create_entry_seven_prices file_date region province prices filename :
  let e := create_entry file_date region province prices filename in
  length (entry_prices e) = 7%nat
  /\ (forall i, (i < 7)%nat -> nth i (entry_prices e) None = nth i prices None)
  /\ (length prices <= 7 ->
      entry_prices e = prices ++ repeat None (7 - length prices))
  /\ (7 <= length prices -> entry_prices e = take 7 prices).
Proof.
  cbv zeta. rewrite entry_prices_create_entry.
  split; [|split; [|split]].
  - rewrite length_take, length_app, repeat_length. lia.
  - intros i L.
    do 7 (destruct i as [|i];
          [do 8 (try destruct prices as [|? prices]); reflexivity|]).
    lia.
  - intros L.
    do 8 (destruct prices as [|? prices]; [reflexivity|]). cbn in L. lia.
  - intros L. now rewrite take_app_le.
Qed.

Lemma create_entry_seven_prices_witness :
  entry_prices (create_entry None "r" "p" [price "1"; price "2"] "f")
    = [price "1"; price "2"] ++ repeat None 5
  /\ entry_prices
       (create_entry None "r" "p" (repeat (price "1") 9) "f")
     = repeat (price "1") 7.
Proof.
  split.
  - apply (proj1 (proj2 (proj2
      (create_entry_seven_prices None "r" "p" [price "1"; price "2"] "f")))).
    cbn; lia.
  - apply (proj2 (proj2 (proj2
      (create_entry_seven_prices None "r" "p" (repeat (price "1") 9) "f")))).
    cbn; lia.
Defined.

(** * Further properties of the corpus aggregator *)

(** ** The cache only grows *)

(** A run never deletes or rewrites a cache artifact: what was in the
    cache before is in it afterwards, unchanged, whatever the report. *)
Theorem cache_is_never_rewritten {csv : Type} (to_csv : list entry -> csv)
    (read_csv : csv -> option (list entry))
    (download_file : string -> option document)
    (links : list string) (fs : files csv) (n : string) (f : csv) :
  cache fs !! n = Some f ->
  cache (process_fertilizer_data to_csv read_csv download_file links fs).2 !! n
    = Some f.
Proof.
  intros L. destruct (decide (links = [])) as [->|N]; [exact L|].
  rewrite (process_conclude to_csv read_csv download_file links fs N).
  rewrite conclude_cache. now apply run_keeps.
Qed.

Lemma cache_is_never_rewritten_witness :
  cache (process_fertilizer_data memory_to_csv memory_read_csv
           example_download example_links some_files).2
    !! "wfp_sept_2023.csv" = Some sentinel_frame.
Proof.
  apply cache_is_never_rewritten. vm_compute; reflexivity.
Defined.

(** An artifact that a run adds to the cache holds the records, at least
    one, that the parser reads from one of the downloaded documents, under
    the name of that document with the extension [.csv]. *)
Theorem new_artifacts_are_parsed_records {csv : Type}
    (to_csv : list entry -> csv) (read_csv : csv -> option (list entry))
    (download_file : string -> option document)
    (links : list string) (fs : files csv) (n : string) (f : csv) :
  cache fs !! n = None ->
  cache (process_fertilizer_data to_csv read_csv download_file links fs).2 !! n
    = Some f ->
  exists link d e df,
    link ∈ links /\ download_file link = Some d
    /\ with_suffix (doc_name d) ".csv" = Some n
    /\ parse_pdf d = Some (e :: df) /\ f = to_csv (e :: df).
Proof.
  intros L R. destruct (decide (links = [])) as [->|N]; [cbn in R; congruence|].
  rewrite (process_conclude to_csv read_csv download_file links fs N) in R.
  rewrite conclude_cache in R.
  destruct (run_adds to_csv read_csv _ _ _ n f L R)
    as (d & e & df & I & C & P & ->).
  apply list_elem_of_omap in I as (link & I & D).
  now exists link, d, e, df.
Qed.

Lemma new_artifacts_are_parsed_records_witness :
  exists link d e df,
    link ∈ example_links /\ example_download link = Some d
    /\ with_suffix (doc_name d) ".csv" = Some "wfp_caraga_oct_2023.csv"
    /\ parse_pdf d = Some (e :: df)
    /\ [create_entry (Some {| ts_year := 2023; ts_month := 10; ts_day := 1 |})
          "CARAGA" "Regional Summary" [price "850"; price "900"]
          "wfp_caraga_oct_2023.pdf"]
       = memory_to_csv (e :: df).
Proof.
  apply (new_artifacts_are_parsed_records memory_to_csv memory_read_csv
           example_download example_links no_files);
    vm_compute; reflexivity.
Defined.

(** ** The rows of the saved aggregate *)

(** Every row of an aggregate that the aggregator saves is of a region
    whose name contains ["REGION VII"] up to case and of a province that
    is not a sentinel label, and comes from a record of the frames
    collected from the documents and the cache. *)
Theorem saved_rows_are_region_7 {csv : Type} (to_csv : list entry -> csv)
    (read_csv : csv -> option (list entry))
    (download_file : string -> option document)
    (links : list string) (fs : files csv) (rows : list Monthly.t) :
  let st := process_pdf_files to_csv read_csv (omap download_file links)
              (cache fs, []) in
  let res := process_fertilizer_data to_csv read_csv download_file links fs in
  res.1 = Aggregated_data_saved ->
  aggregate_file res.2 = Some rows ->
  Forall (fun row =>
            contains_ignoring_case "REGION VII" (Monthly.Region row)
            /\ isin sentinels (Some (Monthly.Province row)) = false
            /\ exists e, e ∈ concat st.2
                         /\ entry_key e = Some (monthly_key row)) rows.
Proof.
  cbv zeta. destruct (decide (links = [])) as [->|N]; [discriminate|].
  rewrite (process_conclude to_csv read_csv download_file links fs N).
  unfold conclude.
  destruct ((process_pdf_files _ _ _ _).2) as [|df a]; [discriminate|].
  destruct (region_7 (concat (df :: a))) as [|e r7] eqn:R; [discriminate|].
  destruct (monthly_aggregate (e :: r7)) as [out|] eqn:A; [|discriminate].
  cbn [fst snd aggregate_file]. intros _ [= <-].
  apply Forall_forall. intros row Hrow.
  assert (K : monthly_key row ∈ (monthly_key <$> out))
    by (apply list_elem_of_fmap; now exists row).
  apply (monthly_aggregate_keys _ _ A) in K as (x & X & S & Kx).
  rewrite <- R in X. apply elem_of_region_7 in X as [X (r & Rx & C)].
  assert (Kx' := Kx). unfold entry_key in Kx'. rewrite Rx in Kx'.
  destruct (Year x), (Month x), (Province x) eqn:Px; try discriminate.
  injection Kx' as Ey Em Er Ep. rewrite <- Er. split; [exact C|].
  split; [now rewrite <- Ep|].
  exists x. split; [exact X | exact Kx].
Qed.

Lemma saved_rows_are_region_7_witness :
  exists rows,
    (process_fertilizer_data memory_to_csv memory_read_csv example_download
       example_links no_files).1 = Aggregated_data_saved
    /\ aggregate_file
         (process_fertilizer_data memory_to_csv memory_read_csv
            example_download example_links no_files).2 = Some rows
    /\ length rows = 2
    /\ Forall (fun row =>
                 contains_ignoring_case "REGION VII" (Monthly.Region row)
                 /\ isin sentinels (Some (Monthly.Province row)) = false
                 /\ exists e,
                      e ∈ concat
                            (process_pdf_files memory_to_csv memory_read_csv
                               (omap example_download example_links)
                               (cache no_files, [])).2
                      /\ entry_key e = Some (monthly_key row)) rows.
Proof.
  eexists. split; [vm_compute; reflexivity|].
  split; [vm_compute; reflexivity|].
  split; [reflexivity|].
  apply (saved_rows_are_region_7 memory_to_csv memory_read_csv
           example_download example_links no_files);
    vm_compute; reflexivity.
Defined.

Lemma region_7_provinces_sentinels df :
  Forall (fun e => isin sentinels (Province e) = true) df ->
  region_7_provinces df = [].
Proof.
  unfold region_7_provinces. induction 1 as [|e df He _ IH]; [reflexivity|].
  rewrite filter_cons, IH. destruct (decide _) as [D|_]; [|reflexivity].
  rewrite He in D. discriminate.
Qed.

(** The emptiness of the Region VII frame is tested before the sentinel
    rows are left out: a corpus whose Region VII records are all summary
    or average rows is reported as saved, with an aggregate of no row. *)
Theorem summary_rows_alone_save_an_empty_aggregate {csv : Type}
    (to_csv : list entry -> csv) (read_csv : csv -> option (list entry))
    (download_file : string -> option document)
    (links : list string) (fs : files csv) :
  let st := process_pdf_files to_csv read_csv (omap download_file links)
              (cache fs, []) in
  region_7 (concat st.2) <> [] ->
  Forall (fun e => isin sentinels (Province e) = true)
    (region_7 (concat st.2)) ->
  process_fertilizer_data to_csv read_csv download_file links fs
    = (Aggregated_data_saved,
       {| cache := st.1; aggregate_file := Some [] |}).
Proof.
  cbv zeta. intros N S.
  assert (L : links <> []).
  { intros ->. apply N. reflexivity. }
  rewrite (process_conclude to_csv read_csv download_file links fs L).
  unfold conclude.
  destruct ((process_pdf_files _ _ _ _).2) as [|df a]; [now elim N|].
  destruct (region_7 (concat (df :: a))) as [|e r7] eqn:R; [now elim N|].
  assert (E : region_7_provinces (e :: r7) = []).
  { now apply region_7_provinces_sentinels. }
  unfold monthly_aggregate. rewrite E. reflexivity.
Qed.

Lemma summary_rows_alone_save_an_empty_aggregate_witness :
  region_7 sentinel_frame <> []
  /\ process_fertilizer_data memory_to_csv memory_read_csv example_download
       ["https://fpa.da.gov.ph/wfp_sept_2023.pdf"] some_files
     = (Aggregated_data_saved,
        {| cache := {[ "wfp_sept_2023.csv" := sentinel_frame ]};
           aggregate_file := Some [] |}).
Proof.
  split; [vm_compute; discriminate|].
  apply (summary_rows_alone_save_an_empty_aggregate memory_to_csv
           memory_read_csv example_download
           ["https://fpa.da.gov.ph/wfp_sept_2023.pdf"] some_files).
  - vm_compute. discriminate.
  - vm_compute. repeat constructor.
Defined.

(** ** Discovery of the bulletins *)

Lemma str_endswith_spec suf s :
  str_endswith suf s = true <-> exists pre, s = pre +:+ suf.
Proof.
  induction s as [|c s IH]; cbn [str_endswith].
  - rewrite orb_false_r, String.eqb_eq. split.
    + intros ->. now exists "".
    + intros [[|x pre] E]; [now rewrite append_nil in E|].
      rewrite append_cons in E. discriminate.
  - rewrite orb_true_iff, String.eqb_eq, IH. split.
    + intros [->|[pre ->]]; [now exists ""|].
      exists (String c pre). now rewrite append_cons.
    + intros [[|x pre] E].
      * left. now rewrite append_nil in E.
      * right. rewrite append_cons in E. injection E as _ ->. now exists pre.
Qed.

Lemma str_endswith_append pre suf s :
  str_endswith suf s = true -> str_endswith suf (pre +:+ s) = true.
Proof.
  rewrite !str_endswith_spec. intros [p ->]. exists (pre +:+ p).
  now rewrite append_assoc_str.
Qed.

Lemma contains_occurs t s : Str.contains t s = true <-> occurs t s.
Proof.
  unfold occurs. induction s as [|c s IH]; cbn [Str.contains].
  - rewrite orb_false_r, startswith_prefix. split.
    + intros [rest E]. now exists "", rest.
    + intros ([|x pre] & post & E).
      * exists post. now rewrite append_nil in E.
      * rewrite append_cons in E. discriminate.
  - rewrite orb_true_iff, startswith_prefix, IH. split.
    + intros [[rest E]|(pre & post & ->)].
      * now exists "", rest.
      * exists (String c pre), post. now rewrite append_cons.
    + intros ([|x pre] & post & E).
      * left. exists post. now rewrite append_nil in E.
      * right. rewrite append_cons in E. injection E as _ ->.
        now exists pre, post.
Qed.

Lemma split_not_nil sep s : Str.split sep s <> [].
Proof.
  destruct s as [|c s]; cbn [Str.split]; [discriminate|].
  destruct (Ascii.eqb c sep); [discriminate|].
  destruct (Str.split sep s); discriminate.
Qed.

Lemma url_filename_cons c s :
  url_filename (String c s) =
    if Ascii.eqb c "/" then url_filename s
    else match Str.split "/" s with
         | [l] => String c l
         | _ => url_filename s
         end.
Proof.
  unfold url_filename. cbn [Str.split].
  destruct (Ascii.eqb c "/").
  - rewrite last_cons. pose proof (split_not_nil "/" s) as N.
    destruct (last (Str.split "/" s)) eqn:L; [reflexivity|].
    apply last_None in L. contradiction.
  - destruct (Str.split "/" s) as [|l [|l' ls]] eqn:E.
    + now elim (split_not_nil "/" s).
    + reflexivity.
    + now rewrite !last_cons_cons.
Qed.

Lemma url_filename_single s l : Str.split "/" s = [l] -> url_filename s = l.
Proof. unfold url_filename. now intros ->. Qed.

Lemma pdf_url_filename url :
  str_endswith ".pdf" url = true ->
  exists stem, url_filename url = stem +:+ ".pdf".
Proof.
  induction url as [|c s IH]; cbn [str_endswith]; [discriminate|].
  intros H. apply orb_true_iff in H as [H|H].
  - apply String.eqb_eq in H. rewrite <- H. now exists "".
  - destruct (IH H) as [stem E]. rewrite url_filename_cons.
    destruct (Ascii.eqb c "/"); [now exists stem|].
    destruct (Str.split "/" s) as [|l [|l' ls]] eqn:S;
      [now exists stem | | now exists stem].
    apply url_filename_single in S. rewrite S in E. subst l.
    exists (String c stem). now rewrite append_cons.
Qed.

Lemma full_url_absolute href :
  Str.startswith "http" (full_url href) = true.
Proof. unfold full_url. now destruct (Str.startswith "http" href) eqn:E. Qed.

Lemma full_url_pdf href :
  str_endswith ".pdf" href = true -> str_endswith ".pdf" (full_url href) = true.
Proof.
  unfold full_url. destruct (Str.startswith "http" href); [easy|].
  apply str_endswith_append.
Qed.

Lemma pdf_link_some a u :
  pdf_link a = Some u <->
  exists href, a_href a = Some href
               /\ str_endswith ".pdf" href = true
               /\ wanted href (a_text a) = true
               /\ u = full_url href.
Proof.
  unfold pdf_link. destruct (a_href a) as [href|].
  - split.
    + destruct (str_endswith ".pdf" href) eqn:E,
        (wanted href (a_text a)) eqn:W; cbn; try discriminate.
      intros [= <-]. now exists href.
    + intros (h & [= <-] & -> & -> & ->). reflexivity.
  - split; [discriminate|]. intros (h & H & _). discriminate.
Qed.

Lemma elem_of_get_pdf_links anchors u :
  u ∈ get_pdf_links (Some anchors) <->
  exists a, a ∈ anchors /\ pdf_link a = Some u.
Proof.
  unfold get_pdf_links. cbv zeta.
  rewrite elem_of_elements, elem_of_list_to_set, list_elem_of_omap.
  reflexivity.
Qed.

Lemma links_pdf anchors u :
  u ∈ get_pdf_links (Some anchors) ->
  Str.startswith "http" u = true /\ str_endswith ".pdf" u = true.
Proof.
  intros H. apply elem_of_get_pdf_links in H as (a & _ & P).
  apply pdf_link_some in P as (h & _ & E & _ & ->).
  split; [apply full_url_absolute | now apply full_url_pdf].
Qed.

(** The links that [get_pdf_links] returns are pairwise distinct; they
    are the addresses of the anchors whose [href] ends in [".pdf"] and
    that name a bulletin, each made absolute with the base address of the
    site when it does not begin with ["http"]; every one begins with
    ["http"] and ends in [".pdf"]. When the page cannot be fetched there
    is no link. *)
Theorem links_are_distinct_pdf_addresses (anchors : list anchor) :
  NoDup (get_pdf_links (Some anchors))
  /\ (forall u,
        u ∈ get_pdf_links (Some anchors) <->
        exists a href,
          a ∈ anchors /\ a_href a = Some href
          /\ str_endswith ".pdf" href = true
          /\ (occurs "WFP" href \/ occurs "Weekly" (a_text a)
              \/ occurs "FERTILIZER" (Str.upper href))
          /\ u = (if Str.startswith "http" href then href
                  else "https://fpa.da.gov.ph" +:+ href))
  /\ Forall (fun u => Str.startswith "http" u = true
                      /\ str_endswith ".pdf" u = true)
       (get_pdf_links (Some anchors))
  /\ get_pdf_links None = [].
Proof.
  split; [unfold get_pdf_links; apply NoDup_elements|].
  assert (M : forall u,
             u ∈ get_pdf_links (Some anchors) <->
             exists a href,
               a ∈ anchors /\ a_href a = Some href
               /\ str_endswith ".pdf" href = true
               /\ wanted href (a_text a) = true
               /\ u = full_url href).
  { intros u. rewrite elem_of_get_pdf_links. split.
    - intros (a & A & P). apply pdf_link_some in P as (h & P).
      now exists a, h.
    - intros (a & h & A & P). exists a. split; [exact A|].
      apply pdf_link_some. now exists h. }
  split; [|split; [|reflexivity]].
  - intros u. rewrite M. unfold wanted.
    split; intros (a & h & A & Hh & E & W & U); exists a, h;
      (split; [exact A|]); (split; [exact Hh|]); (split; [exact E|]);
      (split; [|exact U]).
    + rewrite !orb_true_iff, !contains_occurs in W. tauto.
    + rewrite !orb_true_iff, !contains_occurs. tauto.
  - apply Forall_forall. intros u Hu.
    apply M in Hu as (a & h & _ & _ & E & _ & ->).
    split; [apply full_url_absolute | now apply full_url_pdf].
Qed.

(** ** The names of the documents and of their cache artifacts *)

Lemma length_append_str (a b : string) :
  String.length (a +:+ b) = String.length a + String.length b.
Proof.
  induction a as [|x a IH]; [reflexivity|].
  rewrite append_cons. cbn [String.length]. now rewrite IH.
Qed.

Lemma substring_append_l (a b : string) :
  String.substring 0 (String.length a) (a +:+ b) = a.
Proof.
  induction a as [|x a IH].
  - rewrite append_nil. cbn [String.length]. now destruct b.
  - rewrite append_cons. cbn [String.length String.substring]. now rewrite IH.
Qed.

Lemma substring_append_r (a b : string) n :
  String.substring (String.length a) n (a +:+ b) = String.substring 0 n b.
Proof.
  induction a as [|x a IH]; [now rewrite append_nil|].
  rewrite append_cons. cbn [String.length String.substring]. exact IH.
Qed.

Lemma rfind_dot_pdf stem i acc :
  rfind_dot (stem +:+ ".pdf") i acc = Some (i + String.length stem).
Proof.
  revert i acc. induction stem as [|x stem IH]; intros i acc.
  - rewrite append_nil. cbn. f_equal. lia.
  - rewrite append_cons. cbn [rfind_dot String.length]. rewrite IH.
    f_equal. lia.
Qed.

Lemma suffix_pdf x stem : suffix (String x stem +:+ ".pdf") = ".pdf".
Proof.
  unfold suffix. rewrite rfind_dot_pdf, length_append_str.
  cbn [String.length Nat.add].
  replace (0 <? S (String.length stem))%nat with true
    by (symmetry; apply Nat.ltb_lt; lia).
  replace (S (String.length stem) <? S (String.length stem + 4) - 1)%nat
    with true by (symmetry; apply Nat.ltb_lt; lia).
  cbn [andb].
  replace (S (String.length stem + 4) - S (String.length stem)) with 4 by lia.
  exact (substring_append_r (String x stem) ".pdf" 4).
Qed.

Lemma with_suffix_pdf stem :
  stem <> "" ->
  with_suffix (stem +:+ ".pdf") ".csv" = Some (stem +:+ ".csv").
Proof.
  destruct stem as [|x stem]; [congruence|]. intros _.
  unfold with_suffix. rewrite append_cons. rewrite <- append_cons.
  rewrite suffix_pdf, length_append_str.
  replace (String.length (String x stem) + String.length ".pdf"
           - String.length ".pdf") with (String.length (String x stem))
    by (cbn [String.length]; lia).
  now rewrite substring_append_l.
Qed.

Lemma append_inj_l (a b t : string) : a +:+ t = b +:+ t -> a = b.
Proof.
  revert b. induction a as [|x a IH]; intros [|y b] E.
  - reflexivity.
  - apply (f_equal String.length) in E.
    rewrite append_nil, append_cons in E. cbn [String.length] in E.
    rewrite length_append_str in E. lia.
  - apply (f_equal String.length) in E.
    rewrite append_nil, append_cons in E. cbn [String.length] in E.
    rewrite length_append_str in E. lia.
  - rewrite !append_cons in E. injection E as -> E. f_equal. now apply IH.
Qed.

(** Every link that [get_pdf_links] returns names a file that ends in
    [".pdf"], so that [with_suffix] does not raise on it: the cache
    artifact of the document is the name with [".csv"] in the place of
    [".pdf"], or [".pdf.csv"] for the bare name [".pdf"]. *)
Theorem discovered_documents_have_a_cache_name (page : option (list anchor))
    (u : string) :
  u ∈ get_pdf_links page ->
  exists stem,
    url_filename u = stem +:+ ".pdf"
    /\ with_suffix (url_filename u) ".csv"
       = Some ((if String.eqb stem "" then ".pdf" else stem) +:+ ".csv").
Proof.
  destruct page as [anchors|]; [|intros H; inversion H].
  intros H.
  destruct (links_pdf anchors u H) as [_ E].
  destruct (pdf_url_filename u E) as [stem F]. exists stem.
  split; [exact F|]. rewrite F.
  destruct stem as [|x stem]; [reflexivity|].
  rewrite with_suffix_pdf by discriminate. reflexivity.
Qed.

Lemma discovered_documents_have_a_cache_name_witness :
  "https://fpa.da.gov.ph/wp-content/WFP_Sept_2023.pdf"
    ∈ get_pdf_links (Some example_page)
  /\ exists stem,
       url_filename "https://fpa.da.gov.ph/wp-content/WFP_Sept_2023.pdf"
         = stem +:+ ".pdf"
       /\ with_suffix
            (url_filename "https://fpa.da.gov.ph/wp-content/WFP_Sept_2023.pdf")
            ".csv"
          = Some ((if String.eqb stem "" then ".pdf" else stem) +:+ ".csv").
Proof.
  assert (H : "https://fpa.da.gov.ph/wp-content/WFP_Sept_2023.pdf"
                ∈ get_pdf_links (Some example_page)).
  { apply elem_of_get_pdf_links.
    exists {| a_href := Some "/wp-content/WFP_Sept_2023.pdf";
              a_text := "September" |}.
    split; [apply list_elem_of_here | reflexivity]. }
  split; [exact H|].
  exact (discovered_documents_have_a_cache_name (Some example_page) _ H).
Defined.

(** Documents with distinct names that end in [".pdf"] have distinct
    cache artifacts, whose names end in [".csv"]: no artifact is shared
    and none takes the place of a document. *)
Theorem cache_names_are_not_shared (stem1 stem2 : string) (name1 name2 : string) :
  stem1 <> "" -> stem2 <> "" ->
  with_suffix (stem1 +:+ ".pdf") ".csv" = Some name1 ->
  with_suffix (stem2 +:+ ".pdf") ".csv" = Some name2 ->
  (name1 = name2 -> stem1 = stem2)
  /\ str_endswith ".csv" name1 = true
  /\ name1 <> stem2 +:+ ".pdf".
Proof.
  intros N1 N2. rewrite !with_suffix_pdf by assumption.
  intros [= <-] [= <-]. split; [apply append_inj_l|].
  split; [apply str_endswith_spec; now exists stem1|].
  intros E.
  assert (L : String.length stem1 = String.length stem2).
  { apply (f_equal String.length) in E. rewrite !length_append_str in E.
    cbn [String.length] in E. lia. }
  assert (S : String.substring (String.length stem1) 4 (stem1 +:+ ".csv")
              = String.substring (String.length stem1) 4 (stem2 +:+ ".pdf"))
    by now rewrite E.
  rewrite substring_append_r in S. rewrite L, substring_append_r in S.
  discriminate.
Qed.

Lemma cache_names_are_not_shared_witness :
  ("WFP_Sept_2023.csv" = "WFP_Oct_2023.csv" -> "WFP_Sept_2023" = "WFP_Oct_2023")
  /\ str_endswith ".csv" "WFP_Sept_2023.csv" = true
  /\ "WFP_Sept_2023.csv" <> "WFP_Oct_2023" +:+ ".pdf".
Proof.
  apply (cache_names_are_not_shared "WFP_Sept_2023" "WFP_Oct_2023"
           "WFP_Sept_2023.csv" "WFP_Oct_2023.csv");
    try discriminate; reflexivity.
Defined.

(** ** Download of a document *)

Lemma append_nil_r (a : string) : a +:+ "" = a.
Proof.
  induction a as [|x a IH]; [reflexivity|]. rewrite append_cons. now f_equal.
Qed.



Lemma path_exists_insert out_dir filename content :
  path_exists (<[filename := content]> out_dir) filename = true.
Proof.
  unfold path_exists. apply orb_true_iff. right.
  apply bool_decide_eq_true. rewrite lookup_insert_eq. now eexists.
Qed.


(** A file that [download_file] has returned is not requested again: a
    later call for any address with the same last segment returns the same
    path and leaves the directory as it is, whatever the network
    answers. *)
Theorem returned_file_is_not_fetched_again
    (get get' : string -> option get_response) (url url' : string)
    (out_dir out_dir' : gmap string string) (p : string) :
  download_file get url out_dir = (Some p, out_dir') ->
  url_filename url' = url_filename url ->
  download_file get' url' out_dir' = (Some p, out_dir').
Proof.
  intros H E. unfold download_file in *. cbv zeta in *. rewrite E.
  destruct (path_exists out_dir (url_filename url)) eqn:X.
  - injection H as <- <-. now rewrite X.
  - destruct (get url) as [r|]; [|discriminate].
    destruct (resp_ok r); [|discriminate].
    destruct (content_length r); [|discriminate].
    destruct (write_chunks (iter_content r) "") as [content [|]];
      [|discriminate].
    injection H as <- <-. now rewrite path_exists_insert.
Qed.

Lemma returned_file_is_not_fetched_again_witness :
  download_file example_get
    "https://fpa.da.gov.ph/wp-content/WFP_Sept_2023.pdf" ∅
  = (Some "WFP_Sept_2023.pdf", {[ "WFP_Sept_2023.pdf" := "%PDF-1" ]})
  /\ download_file (fun _ => None)
       "https://cdn.example.org/mirror/WFP_Sept_2023.pdf"
       {[ "WFP_Sept_2023.pdf" := "%PDF-1" ]}
     = (Some "WFP_Sept_2023.pdf", {[ "WFP_Sept_2023.pdf" := "%PDF-1" ]}).
Proof.
  assert (H : download_file example_get
                "https://fpa.da.gov.ph/wp-content/WFP_Sept_2023.pdf" ∅
              = (Some "WFP_Sept_2023.pdf",
                 {[ "WFP_Sept_2023.pdf" := "%PDF-1" ]}))
    by (vm_compute; reflexivity).
  split; [exact H|].
  apply (returned_file_is_not_fetched_again example_get (fun _ => None)
           "https://fpa.da.gov.ph/wp-content/WFP_Sept_2023.pdf"
           "https://cdn.example.org/mirror/WFP_Sept_2023.pdf" ∅ _ _ H).
  reflexivity.
Defined.





(** ** A value read out of a table *)

Lemma extract_value_unmatched rows target_name :
  Forall (fun cols => matches target_name cols = false) rows ->
  extract_value_from_table rows target_name = None.
Proof.
  induction 1 as [|cols rows M _ IH]; [reflexivity|].
  cbn [extract_value_from_table]. destruct cols as [|c0 [|c1 rest]]; try exact IH.
  cbn [matches] in M. now rewrite M.
Qed.

Lemma extract_value_app pre rows target_name :
  Forall (fun cols => matches target_name cols = false) pre ->
  extract_value_from_table (pre ++ rows) target_name
  = extract_value_from_table rows target_name.
Proof.
  induction 1 as [|cols pre M _ IH]; [reflexivity|].
  rewrite <- app_comm_cons. cbn [extract_value_from_table].
  destruct cols as [|c0 [|c1 rest]]; try exact IH.
  cbn [matches] in M. now rewrite M.
Qed.

(** [extract_value_from_table] reads the second cell of the first row
    that has two cells or more and whose first cell is the target: the
    rows before it, the cells after the second and the rows after it have
    no part in the result, also when that cell is no number and a later
    row of the target holds one. With no such row there is no value. *)
Theorem first_matching_row_decides (pre post : list (list string))
    (target_name c1 : string) (rest : list string) :
  Forall (fun cols => matches target_name cols = false) pre ->
  extract_value_from_table (pre ++ (target_name :: c1 :: rest) :: post)
    target_name
  = PyFloat.of_string (Str.remove_char "," c1)
  /\ extract_value_from_table pre target_name = None.
Proof.
  intros H. split; [|now apply extract_value_unmatched].
  rewrite (extract_value_app _ _ _ H). cbn [extract_value_from_table].
  now rewrite String.eqb_refl.
Qed.

Lemma first_matching_row_decides_witness :
  extract_value_from_table
    ([["Region VI"; "300,100.5"]; ["Region VII"]]
       ++ ["Region VII"; "n/a"; "12"] :: [["Region VII"; "5"]])
    "Region VII"
  = PyFloat.of_string (Str.remove_char "," "n/a")
  /\ extract_value_from_table [["Region VI"; "300,100.5"]; ["Region VII"]]
       "Region VII" = None.
Proof.
  apply (first_matching_row_decides
           [["Region VI"; "300,100.5"]; ["Region VII"]] [["Region VII"; "5"]]
           "Region VII" "n/a" ["12"]).
  repeat constructor.
Defined.

(** ** The loop over the periods *)

Lemma elem_of_years year : year ∈ years <-> (2018 <= year <= 2026)%Z.
Proof.
  unfold years. rewrite list_elem_of_fmap. split.
  - intros (i & -> & I). apply elem_of_seqZ in I. lia.
  - intros H. exists (2026 - year)%Z. split; [lia|].
    apply elem_of_seqZ. lia.
Qed.

Lemma elem_of_sems sem : sem ∈ sems <-> sem = 1%Z \/ sem = 2%Z.
Proof.
  unfold sems. rewrite !elem_of_cons, elem_of_nil. tauto.
Qed.

Lemma elem_of_periods year sem :
  (year, sem) ∈ periods <-> year ∈ years /\ sem ∈ sems.
Proof.
  unfold periods. rewrite list_elem_of_bind. split.
  - intros (y & H & Y). apply list_elem_of_fmap in H as (s & [= -> ->] & S).
    now split.
  - intros [Y S]. exists year. split; [|exact Y].
    apply list_elem_of_fmap. now exists sem.
Qed.

Lemma NoDup_periods : NoDup periods.
Proof. apply (bool_decide_unpack (NoDup periods)). vm_compute. exact I. Qed.

Lemma period_leb_total (a b : Z * Z) :
  period_leb a b = true \/ period_leb b a = true.
Proof.
  unfold period_leb.
  destruct (Z.ltb_spec a.1 b.1); [now left|].
  destruct (Z.ltb_spec b.1 a.1); [now right|].
  replace (a.1 =? b.1)%Z with true by (symmetry; apply Z.eqb_eq; lia).
  replace (b.1 =? a.1)%Z with true by (symmetry; apply Z.eqb_eq; lia).
  cbn [orb andb].
  destruct (Z.leb_spec a.2 b.2); [now left|].
  right. apply Z.leb_le. lia.
Qed.

Lemma period_leb_lt (a b : Z * Z) :
  period_leb a b = true -> a <> b -> period_lt a b.
Proof.
  destruct a as [a1 a2], b as [b1 b2]. unfold period_leb, period_lt.
  cbn [fst snd]. intros H N.
  apply orb_true_iff in H as [H|H]; [left; now apply Z.ltb_lt|].
  apply andb_true_iff in H as [E L].
  apply Z.eqb_eq in E. apply Z.leb_le in L. right. split; [exact E|].
  destruct (decide (a2 = b2)) as [->|D]; [|lia].
  subst. congruence.
Qed.

Lemma sorted_strictly {A : Type} (by_key : A -> Z * Z) (l : list A) :
  Sorted (fun a b => period_leb (by_key a) (by_key b) = true) l ->
  NoDup (by_key <$> l) ->
  Sorted (fun a b => period_lt (by_key a) (by_key b)) l.
Proof.
  induction 1 as [|a l S IH Hd]; intros N; [constructor|].
  rewrite fmap_cons in N. apply NoDup_cons in N as [Na N].
  constructor; [now apply IH|].
  destruct Hd as [|b l' L]; constructor.
  apply period_leb_lt; [exact L|].
  intros E. apply Na. rewrite fmap_cons, E. apply list_elem_of_here.
Qed.

Lemma sort_values_some {A : Type} (by_key : A -> Z * Z) (results df : list A) :
  sort_values by_key results = Some df ->
  results <> []
  /\ Permutation df results
  /\ Sorted (fun a b => period_leb (by_key a) (by_key b) = true) df.
Proof.
  unfold sort_values. destruct results as [|r results]; [discriminate|].
  intros [= <-]. split; [discriminate|].
  split; [apply stable_sort_perm|].
  apply stable_sort_sorted. intros a b. apply period_leb_total.
Qed.

Lemma sort_values_none {A : Type} (by_key : A -> Z * Z) (results : list A) :
  sort_values by_key results = None <-> results = [].
Proof. unfold sort_values. now destruct results. Qed.

Section PrismFacts.
Variable post : string -> Z -> Z -> Z -> option prism_response.
Variable sum : list spec_float -> spec_float.

Lemma query_records st year sem :
  query post sum st year sem
  = (st.1 ++ option_list (area_record_of post (year, sem)),
     st.2 ++ option_list (yield_record_of post sum (year, sem))).
Proof.
  destruct st as [ra yl]. unfold query, area_record_of, yield_record_of,
    area_value, period_yields. cbn [fst snd].
  f_equal.
  - destruct (post "RA" year sem 0) as [r|]; [|now rewrite app_nil_r].
    destruct (status_code r =? 200)%Z; [|now rewrite app_nil_r].
    destruct (extract_value_from_table _ _); [reflexivity|].
    now rewrite app_nil_r.
  - destruct (post "yield_nodrill" year sem 7) as [r|]; [|now rewrite app_nil_r].
    destruct (status_code r =? 200)%Z; [|now rewrite app_nil_r].
    destruct (yields_of _) as [[|y ys]|]; [| reflexivity |];
      now rewrite app_nil_r.
Qed.

Lemma fold_query ps st :
  fold_left (fun st p => query post sum st p.1 p.2) ps st
  = (st.1 ++ omap (area_record_of post) ps,
     st.2 ++ omap (yield_record_of post sum) ps).
Proof.
  revert st. induction ps as [|[y s] ps IH]; intros [ra yl].
  - cbn. now rewrite !app_nil_r.
  - cbn [fold_left]. rewrite IH, query_records. cbn [fst snd omap list_omap].
    destruct (area_record_of post (y, s)), (yield_record_of post sum (y, s));
      cbn [option_list]; now rewrite <- ?app_assoc, ?app_nil_r.
Qed.

Lemma fold_years ys st :
  fold_left
    (fun st year => fold_left (fun st sem => query post sum st year sem) sems st)
    ys st
  = fold_left (fun st p => query post sum st p.1 p.2)
      (year ← ys; (fun sem => (year, sem)) <$> sems) st.
Proof.
  revert st. induction ys as [|y ys IH]; intros st; [reflexivity|].
  cbn [fold_left]. rewrite IH. rewrite bind_cons, fold_left_app. reflexivity.
Qed.

Lemma download_yield_data_results fs :
  download_yield_data post sum fs
  = match sort_values area_key (omap (area_record_of post) periods) with
    | Some df_ra =>
        match sort_values yield_key
                (omap (yield_record_of post sum) periods) with
        | Some df_yield =>
            (Yield_data_saved,
             {| rice_area_csv := Some df_ra; yield_csv := Some df_yield |})
        | None =>
            (KeyError_raised,
             {| rice_area_csv := Some df_ra; yield_csv := yield_csv fs |})
        end
    | None => (KeyError_raised, fs)
    end.
Proof.
  unfold download_yield_data. rewrite fold_years, fold_query. reflexivity.
Qed.

Lemma elem_of_area_records rec (ps : list (Z * Z)) :
  rec ∈ omap (area_record_of post) ps <->
  exists year sem v,
    (year, sem) ∈ ps /\ area_value post year sem = Some v
    /\ rec = {| ra_date := date_label year sem; ra_year := year;
                ra_semester := sem; ra_region := "Region VII";
                rice_area_ha := v |}.
Proof.
  rewrite list_elem_of_omap. unfold area_record_of. split.
  - intros ([y s] & P & H). cbn [fst snd] in H.
    destruct (area_value post y s) as [v|] eqn:V; [|discriminate].
    injection H as <-. now exists y, s, v.
  - intros (y & s & v & P & V & ->). exists (y, s). split; [exact P|].
    cbn [fst snd]. now rewrite V.
Qed.

Lemma elem_of_yield_records rec (ps : list (Z * Z)) :
  rec ∈ omap (yield_record_of post sum) ps <->
  exists year sem yields,
    (year, sem) ∈ ps /\ period_yields post year sem = Some yields
    /\ rec = {| yl_date := date_label year sem; yl_year := year;
                yl_semester := sem; yl_region := "Region VII";
                avg_yield_ton_per_ha :=
                  SFdiv PyFloat.prec PyFloat.emax (sum yields)
                    (PyFloat.of_decimal false (Z.of_nat (length yields)) 0) |}.
Proof.
  rewrite list_elem_of_omap. unfold yield_record_of. split.
  - intros ([y s] & P & H). cbn [fst snd] in H.
    destruct (period_yields post y s) as [v|] eqn:V; [|discriminate].
    injection H as <-. now exists y, s, v.
  - intros (y & s & v & P & V & ->). exists (y, s). split; [exact P|].
    cbn [fst snd]. now rewrite V.
Qed.

Lemma area_keys_sublist (ps : list (Z * Z)) :
  (area_key <$> omap (area_record_of post) ps) `sublist_of` ps.
Proof.
  induction ps as [|[y s] ps IH]; [constructor|].
  cbn [omap list_omap]. unfold area_record_of at 1. cbn [fst snd].
  destruct (area_value post y s); [|now apply sublist_cons].
  rewrite fmap_cons. now apply sublist_skip.
Qed.

Lemma yield_keys_sublist (ps : list (Z * Z)) :
  (yield_key <$> omap (yield_record_of post sum) ps) `sublist_of` ps.
Proof.
  induction ps as [|[y s] ps IH]; [constructor|].
  cbn [omap list_omap]. unfold yield_record_of at 1. cbn [fst snd].
  destruct (period_yields post y s); [|now apply sublist_cons].
  rewrite fmap_cons. now apply sublist_skip.
Qed.

End PrismFacts.

Lemma no_area_records post ps :
  (forall year sem, (year, sem) ∈ ps -> area_value post year sem = None) ->
  omap (area_record_of post) ps = [].
Proof.
  intros H. destruct (omap (area_record_of post) ps) as [|rec l] eqn:E;
    [reflexivity|].
  assert (R : rec ∈ omap (area_record_of post) ps)
    by (rewrite E; apply list_elem_of_here).
  apply elem_of_area_records in R as (y & s & v & P & V & _).
  rewrite (H y s P) in V. discriminate.
Qed.

Lemma no_yield_records post sum ps :
  (forall year sem, (year, sem) ∈ ps -> period_yields post year sem = None) ->
  omap (yield_record_of post sum) ps = [].
Proof.
  intros H. destruct (omap (yield_record_of post sum) ps) as [|rec l] eqn:E;
    [reflexivity|].
  assert (R : rec ∈ omap (yield_record_of post sum) ps)
    by (rewrite E; apply list_elem_of_here).
  apply elem_of_yield_records in R as (y & s & v & P & V & _).
  rewrite (H y s P) in V. discriminate.
Qed.

Lemma in_periods year sem :
  (year, sem) ∈ periods <->
  (2018 <= year <= 2026)%Z /\ (sem = 1%Z \/ sem = 2%Z).
Proof. now rewrite elem_of_periods, elem_of_years, elem_of_sems. Qed.

Lemma yields_of_unparsable rows c0 c1 rest :
  (c0 :: c1 :: rest) ∈ rows -> cell_value c1 = None -> yields_of rows = None.
Proof.
  intros H V. induction rows as [|cols rows IH]; [inversion H|].
  apply elem_of_cons in H as [<-|H]; cbn [yields_of].
  - now rewrite V.
  - rewrite (IH H). destruct cols as [|x [|y l]]; try reflexivity.
    now destruct (cell_value y).
Qed.

(** ** The outcomes of [download_yield_data] *)

(** When no period gives a rice area (its request raises, its status is
    not 200, or the table holds no value for Region VII),
    [download_yield_data] raises [KeyError] before it writes a file,
    whatever the yields are. *)
Theorem no_rice_area_raises_before_writing
    (post : string -> Z -> Z -> Z -> option prism_response)
    (sum : list spec_float -> spec_float) (fs : yield_files) :
  (forall year sem,
     (2018 <= year <= 2026)%Z -> sem = 1%Z \/ sem = 2%Z ->
     area_value post year sem = None) ->
  download_yield_data post sum fs = (KeyError_raised, fs).
Proof.
  intros H. rewrite download_yield_data_results.
  rewrite (no_area_records post periods); [reflexivity|].
  intros y s P. apply in_periods in P as [Y S]. now apply H.
Qed.

Lemma no_rice_area_raises_before_writing_witness :
  download_yield_data (fun _ _ _ _ => None) plain_sum no_yield_files
  = (KeyError_raised, no_yield_files).
Proof.
  apply (no_rice_area_raises_before_writing (fun _ _ _ _ => None) plain_sum
           no_yield_files).
  reflexivity.
Defined.

(** When some period gives a rice area and none gives a yield,
    [download_yield_data] writes the rice area table and then raises
    [KeyError]: the yield file is left as it was. *)
Theorem no_yield_raises_after_the_rice_area_table
    (post : string -> Z -> Z -> Z -> option prism_response)
    (sum : list spec_float -> spec_float) (fs : yield_files)
    (year sem : Z) (v : spec_float) :
  (2018 <= year <= 2026)%Z -> sem = 1%Z \/ sem = 2%Z ->
  area_value post year sem = Some v ->
  (forall y s,
     (2018 <= y <= 2026)%Z -> s = 1%Z \/ s = 2%Z ->
     period_yields post y s = None) ->
  exists df_ra,
    df_ra <> []
    /\ download_yield_data post sum fs
       = (KeyError_raised,
          {| rice_area_csv := Some df_ra; yield_csv := yield_csv fs |}).
Proof.
  intros Y S V H. rewrite download_yield_data_results.
  rewrite (no_yield_records post sum periods)
    by (intros y s P; apply in_periods in P as [? ?]; now apply H).
  destruct (sort_values area_key _) as [df_ra|] eqn:E.
  - exists df_ra. split; [|reflexivity].
    apply sort_values_some in E as (N & P & _). intros ->.
    apply Permutation_nil in P. contradiction.
  - apply sort_values_none in E.
    assert (R : {| ra_date := date_label year sem; ra_year := year;
                   ra_semester := sem; ra_region := "Region VII";
                   rice_area_ha := v |}
                  ∈ omap (area_record_of post) periods).
    { apply elem_of_area_records. exists year, sem, v.
      split; [now apply in_periods | now split]. }
    rewrite E in R. inversion R.
Qed.

Lemma no_yield_raises_after_the_rice_area_table_witness :
  exists df_ra,
    df_ra <> []
    /\ download_yield_data area_only_post plain_sum no_yield_files
       = (KeyError_raised,
          {| rice_area_csv := Some df_ra; yield_csv := None |}).
Proof.
  apply (no_yield_raises_after_the_rice_area_table area_only_post plain_sum
           no_yield_files 2024 2 (PyFloat.of_decimal false 98000 0)).
  - lia.
  - now right.
  - vm_compute. reflexivity.
  - reflexivity.
Defined.

(** When [download_yield_data] returns, both tables are written, neither
    is empty, and each is in strictly ascending order of (year,
    semester): no period occurs twice in a table. *)
Theorem saved_tables_are_sorted
    (post : string -> Z -> Z -> Z -> option prism_response)
    (sum : list spec_float -> spec_float) (fs fs' : yield_files) :
  download_yield_data post sum fs = (Yield_data_saved, fs') ->
  exists df_ra df_yield,
    fs' = {| rice_area_csv := Some df_ra; yield_csv := Some df_yield |}
    /\ df_ra <> [] /\ df_yield <> []
    /\ Sorted (fun a b => period_lt (area_key a) (area_key b)) df_ra
    /\ Sorted (fun a b => period_lt (yield_key a) (yield_key b)) df_yield.
Proof.
  rewrite download_yield_data_results.
  destruct (sort_values area_key _) as [df_ra|] eqn:A; [|discriminate].
  destruct (sort_values yield_key _) as [df_yield|] eqn:B; [|discriminate].
  intros [= <-]. exists df_ra, df_yield. split; [reflexivity|].
  apply sort_values_some in A as (NA & PA & SA).
  apply sort_values_some in B as (NB & PB & SB).
  split; [intros ->; apply Permutation_nil in PA; contradiction|].
  split; [intros ->; apply Permutation_nil in PB; contradiction|].
  split; apply sorted_strictly; try assumption.
  - rewrite PA. eapply sublist_NoDup; [apply NoDup_periods|].
    apply area_keys_sublist.
  - rewrite PB. eapply sublist_NoDup; [apply NoDup_periods|].
    apply yield_keys_sublist.
Qed.

Lemma saved_tables_are_sorted_witness :
  exists df_ra df_yield,
    (download_yield_data example_post plain_sum no_yield_files).2
    = {| rice_area_csv := Some df_ra; yield_csv := Some df_yield |}
    /\ df_ra <> [] /\ df_yield <> []
    /\ Sorted (fun a b => period_lt (area_key a) (area_key b)) df_ra
    /\ Sorted (fun a b => period_lt (yield_key a) (yield_key b)) df_yield.
Proof.
  apply (saved_tables_are_sorted example_post plain_sum no_yield_files).
  vm_compute. reflexivity.
Defined.

(** When [download_yield_data] returns, the rice area table has one row
    for each period of 2018 to 2026 whose request gave a value, and no
    other row; the yield table has one row for each period whose table
    gave yields, every one a number, holding their sum divided by their
    count. Each row carries its period, the label of the period and the
    region name. *)
Theorem saved_rows_are_the_answered_periods
    (post : string -> Z -> Z -> Z -> option prism_response)
    (sum : list spec_float -> spec_float) (fs fs' : yield_files) :
  download_yield_data post sum fs = (Yield_data_saved, fs') ->
  (forall rec,
     rec ∈ rows_of_file (rice_area_csv fs') <->
     exists year sem v,
       ((2018 <= year <= 2026)%Z /\ (sem = 1%Z \/ sem = 2%Z))
       /\ area_value post year sem = Some v
       /\ rec = {| ra_date := str_of_int year +:+ "-S" +:+ str_of_int sem;
                   ra_year := year; ra_semester := sem;
                   ra_region := "Region VII"; rice_area_ha := v |})
  /\ (forall rec,
        rec ∈ rows_of_file (yield_csv fs') <->
        exists year sem yields,
          ((2018 <= year <= 2026)%Z /\ (sem = 1%Z \/ sem = 2%Z))
          /\ period_yields post year sem = Some yields
          /\ rec = {| yl_date := str_of_int year +:+ "-S" +:+ str_of_int sem;
                      yl_year := year; yl_semester := sem;
                      yl_region := "Region VII";
                      avg_yield_ton_per_ha :=
                        SFdiv PyFloat.prec PyFloat.emax (sum yields)
                          (PyFloat.of_decimal false
                             (Z.of_nat (length yields)) 0) |}).
Proof.
  rewrite download_yield_data_results.
  destruct (sort_values area_key _) as [df_ra|] eqn:A; [|discriminate].
  destruct (sort_values yield_key _) as [df_yield|] eqn:B; [|discriminate].
  intros [= <-]. cbn [rice_area_csv yield_csv rows_of_file default]. unfold id.
  apply sort_values_some in A as (_ & PA & _).
  apply sort_values_some in B as (_ & PB & _).
  split; intros rec.
  - rewrite PA, elem_of_area_records.
    split; intros (y & s & v & P & H); exists y, s, v;
      (split; [now apply in_periods | exact H]).
  - rewrite PB, elem_of_yield_records.
    split; intros (y & s & v & P & H); exists y, s, v;
      (split; [now apply in_periods | exact H]).
Qed.

Lemma saved_rows_are_the_answered_periods_witness :
  (forall rec,
     rec ∈ rows_of_file
             (rice_area_csv
                (download_yield_data example_post plain_sum no_yield_files).2)
     <->
     exists year sem v,
       ((2018 <= year <= 2026)%Z /\ (sem = 1%Z \/ sem = 2%Z))
       /\ area_value example_post year sem = Some v
       /\ rec = {| ra_date := str_of_int year +:+ "-S" +:+ str_of_int sem;
                   ra_year := year; ra_semester := sem;
                   ra_region := "Region VII"; rice_area_ha := v |})
  /\ (ra_date <$> rows_of_file
                    (rice_area_csv
                       (download_yield_data example_post plain_sum
                          no_yield_files).2))
     = ["2024-S1"; "2024-S2"; "2025-S1"].
Proof.
  split; [|vm_compute; reflexivity].
  apply (saved_rows_are_the_answered_periods example_post plain_sum
           no_yield_files).
  vm_compute. reflexivity.
Defined.

(** A yield table with a cell that is no number gives no row for its
    period: the other cells of that table are lost with it. *)
Theorem unparsable_yield_cell_drops_the_period
    (post : string -> Z -> Z -> Z -> option prism_response)
    (sum : list spec_float -> spec_float) (fs fs' : yield_files)
    (year sem : Z) (r_yld : prism_response) (c0 c1 : string)
    (rest : list string) :
  post "yield_nodrill" year sem 7%Z = Some r_yld ->
  (c0 :: c1 :: rest) ∈ table_rows r_yld ->
  PyFloat.of_string (Str.remove_char "," c1) = None ->
  download_yield_data post sum fs = (Yield_data_saved, fs') ->
  Forall (fun rec => (yl_year rec, yl_semester rec) <> (year, sem))
    (rows_of_file (yield_csv fs')).
Proof.
  intros R C V. rewrite download_yield_data_results.
  destruct (sort_values area_key _) as [df_ra|] eqn:A; [|discriminate].
  destruct (sort_values yield_key _) as [df_yield|] eqn:B; [|discriminate].
  intros [= <-]. cbn [yield_csv rows_of_file default]. unfold id.
  apply sort_values_some in B as (_ & PB & _).
  apply Forall_forall. intros rec H. rewrite PB in H.
  apply elem_of_yield_records in H as (y & s & ys & _ & Y & ->).
  cbn [yl_year yl_semester]. intros [= -> ->].
  unfold period_yields in Y. rewrite R in Y.
  rewrite (yields_of_unparsable _ c0 c1 rest C V) in Y.
  now destruct (status_code r_yld =? 200)%Z.
Qed.

Lemma unparsable_yield_cell_drops_the_period_witness :
  Forall (fun rec => (yl_year rec, yl_semester rec) <> (2024%Z, 1%Z))
    (rows_of_file
       (yield_csv (download_yield_data example_post plain_sum no_yield_files).2))
  /\ (yl_date <$> rows_of_file
                    (yield_csv
                       (download_yield_data example_post plain_sum
                          no_yield_files).2))
     = ["2024-S2"; "2025-S1"].
Proof.
  split; [|vm_compute; reflexivity].
  apply (unparsable_yield_cell_drops_the_period example_post plain_sum
           no_yield_files _ 2024 1
           {| status_code := 200;
              table_rows := [["Bohol"; "3.5"]; ["Cebu"; "-"]] |}
           "Cebu" "-" []).
  - reflexivity.
  - apply list_elem_of_further, list_elem_of_here.
  - vm_compute. reflexivity.
  - vm_compute. reflexivity.
Defined.

(** * The currency normalizer and the texts of numbers *)

Lemma int_of_digits_app acc d d' :
  int_of_digits acc (d +:+ d') = int_of_digits (int_of_digits acc d) d'.
Proof.
  revert acc. induction d as [|c d IH]; intros acc; [reflexivity|].
  rewrite append_cons. cbn [int_of_digits]. apply IH.
Qed.

Lemma int_of_digits_acc acc d :
  int_of_digits acc d
  = (acc * 10 ^ Z.of_nat (String.length d) + int_of_digits 0 d)%Z.
Proof.
  revert acc. induction d as [|c d IH]; intros acc.
  - cbn. lia.
  - cbn [int_of_digits String.length]. rewrite IH, (IH (10 * 0 + _)%Z).
    rewrite Nat2Z.inj_succ, Z.pow_succ_r by lia. lia.
Qed.

(** *** What the reader of digits consumes *)

Lemma digit_tail_sound n :
  forall s acc cnt v k r c0,
    (String.length s <= n)%nat ->
    Str.is_digit c0 = true ->
    PyFloat.digit_tail acc cnt s = (v, k, r) ->
    exists t d,
      s = t +:+ r /\ digit_run (String c0 t) (String c0 d)
      /\ v = int_of_digits acc d
      /\ k = (cnt + Z.of_nat (String.length d))%Z.
Proof.
  induction n as [|n IH]; intros s acc cnt v k r c0 L C0 H.
  - destruct s; [|cbn in L; lia]. cbn in H. injection H as <- <- <-.
    exists "", "". repeat split; [now constructor | cbn; lia].
  - destruct s as [|c s].
    { cbn in H. injection H as <- <- <-.
      exists "", "". repeat split; [now constructor | cbn; lia]. }
    cbn [PyFloat.digit_tail] in H. cbn [String.length] in L.
    destruct (Str.is_digit c) eqn:Dc.
    + destruct (IH s _ _ v k r c ltac:(lia) Dc H) as (t & d & -> & R & -> & ->).
      exists (String c t), (String c d). rewrite append_cons.
      repeat split; [now constructor | cbn [String.length]; lia].
    + destruct (Ascii.eqb c "_") eqn:U.
      * apply Ascii.eqb_eq in U. subst c.
        destruct s as [|c' s].
        { injection H as <- <- <-. exists "", "".
          repeat split; [now constructor | cbn; lia]. }
        destruct (Str.is_digit c') eqn:Dc'.
        -- cbn [String.length] in L.
           destruct (IH s _ _ v k r c' ltac:(lia) Dc' H)
             as (t & d & -> & R & -> & ->).
           exists (String "_" (String c' t)), (String c' d).
           rewrite !append_cons.
           repeat split; [now constructor | cbn [String.length]; lia].
        -- injection H as <- <- <-. exists "", "".
           repeat split; [now constructor | cbn; lia].
      * injection H as <- <- <-. exists "", "".
        repeat split; [now constructor | cbn; lia].
Qed.

Lemma digitpart_sound s v k r :
  PyFloat.digitpart s = Some (v, k, r) ->
  exists t d,
    s = t +:+ r /\ digit_run t d /\ v = int_of_digits 0 d
    /\ k = Z.of_nat (String.length d).
Proof.
  unfold PyFloat.digitpart. destruct s as [|c s]; [discriminate|].
  destruct (Str.is_digit c) eqn:Dc; [|discriminate]. intros [= H].
  destruct (digit_tail_sound (String.length s) s _ _ v k r c (le_n _) Dc H)
    as (t & d & -> & R & -> & ->).
  exists (String c t), (String c d). rewrite append_cons.
  repeat split; [exact R | cbn [String.length]; lia].
Qed.

Lemma digit_tail_ends acc cnt r :
  ends_run r -> PyFloat.digit_tail acc cnt r = (acc, cnt, r).
Proof.
  destruct r as [|c r]; [reflexivity|]. intros [D U].
  cbn [PyFloat.digit_tail]. rewrite D.
  destruct (Ascii.eqb c "_") eqn:E; [|reflexivity].
  apply Ascii.eqb_eq in E. contradiction.
Qed.

Lemma digit_tail_complete t d :
  digit_run t d ->
  forall r acc cnt c0 t0 d0,
    t = String c0 t0 -> d = String c0 d0 -> ends_run r ->
    PyFloat.digit_tail acc cnt (t0 +:+ r)
    = (int_of_digits acc d0, (cnt + Z.of_nat (String.length d0))%Z, r).
Proof.
  induction 1 as [c C|c t d C R IH|c t d C R IH];
    intros r acc cnt c0 t0 d0 [= <- <-] [= <-] E.
  - rewrite append_nil, digit_tail_ends by exact E. cbn. now rewrite Z.add_0_r.
  - inversion R as [c1 C1|c1 t1 d1 C1 R1|c1 t1 d1 C1 R1]; subst.
    + rewrite append_cons. cbn [PyFloat.digit_tail]. rewrite C1.
      rewrite (IH r _ _ c1 "" "" eq_refl eq_refl E).
      cbn [int_of_digits String.length]. f_equal. f_equal. lia.
    + rewrite append_cons. cbn [PyFloat.digit_tail]. rewrite C1.
      rewrite (IH r _ _ c1 t1 d1 eq_refl eq_refl E).
      cbn [int_of_digits String.length]. f_equal. f_equal. lia.
    + rewrite append_cons. cbn [PyFloat.digit_tail]. rewrite C1.
      rewrite (IH r _ _ c1 _ d1 eq_refl eq_refl E).
      cbn [int_of_digits String.length]. f_equal. f_equal. lia.
  - assert (Hd : exists c1 t1 d1, t = String c1 t1 /\ d = String c1 d1
                                  /\ Str.is_digit c1 = true).
    { inversion R; subst; eauto 6. }
    destruct Hd as (c1 & t1 & d1 & -> & -> & C1).
    rewrite !append_cons. cbn [PyFloat.digit_tail].
    replace (Str.is_digit "_") with false by reflexivity.
    cbn [Ascii.eqb Bool.eqb]. rewrite C1.
    rewrite (IH r _ _ c1 t1 d1 eq_refl eq_refl E).
    cbn [int_of_digits String.length]. f_equal. f_equal. lia.
Qed.

Lemma digitpart_complete t d r :
  digit_run t d -> ends_run r ->
  PyFloat.digitpart (t +:+ r)
  = Some (int_of_digits 0 d, Z.of_nat (String.length d), r).
Proof.
  intros R E.
  assert (Hd : exists c t0 d0, t = String c t0 /\ d = String c d0
                               /\ Str.is_digit c = true).
  { inversion R; subst; eauto 6. }
  destruct Hd as (c & t0 & d0 & -> & -> & C).
  rewrite append_cons. unfold PyFloat.digitpart. rewrite C.
  rewrite (digit_tail_complete _ _ R r _ _ c t0 d0 eq_refl eq_refl E).
  cbn [int_of_digits String.length]. rewrite Z.mul_0_r, Z.add_0_l.
  f_equal. f_equal. f_equal. lia.
Qed.

(** *** The sign, the number and the exponent *)

Lemma read_sign_cons c t :
  PyFloat.read_sign (String c t) =
    if Ascii.eqb c "-" then (true, t)
    else if Ascii.eqb c "+" then (false, t)
    else (false, String c t).
Proof. destruct c as [[] [] [] [] [] [] [] []]; reflexivity. Qed.

Lemma read_sign_sound u neg r :
  PyFloat.read_sign u = (neg, r) -> exists s, u = s +:+ r /\ sign_text s neg.
Proof.
  destruct u as [|c t].
  - cbn. intros [= <- <-]. exists "". split; [reflexivity | constructor].
  - rewrite read_sign_cons.
    destruct (Ascii.eqb c "-") eqn:M; [|destruct (Ascii.eqb c "+") eqn:P].
    + apply Ascii.eqb_eq in M. subst c. intros [= <- <-].
      exists "-". split; [reflexivity | constructor].
    + apply Ascii.eqb_eq in P. subst c. intros [= <- <-].
      exists "+". split; [reflexivity | constructor].
    + intros [= <- <-]. exists "". split; [reflexivity | constructor].
Qed.

Lemma read_sign_complete s neg c t :
  sign_text s neg -> c <> "-"%char -> c <> "+"%char ->
  PyFloat.read_sign (s +:+ String c t) = (neg, String c t).
Proof.
  intros S M P. destruct S; try reflexivity.
  rewrite append_nil, read_sign_cons.
  destruct (Ascii.eqb_spec c "-"); [contradiction|].
  destruct (Ascii.eqb_spec c "+"); [contradiction|]. reflexivity.
Qed.

Lemma number_cases s :
  PyFloat.number s =
    match PyFloat.digitpart s with
    | Some (i, _, r) =>
        match r with
        | String c r' =>
            if Ascii.eqb c "." then
              match PyFloat.digitpart r' with
              | Some (f, nf, r'') => Some (i * 10 ^ nf + f, nf, r'')%Z
              | None => Some (i, 0%Z, r')
              end
            else Some (i, 0%Z, r)
        | EmptyString => Some (i, 0%Z, r)
        end
    | None =>
        match s with
        | String c r' => if Ascii.eqb c "." then PyFloat.digitpart r' else None
        | EmptyString => None
        end
    end.
Proof.
  unfold PyFloat.number.
  destruct (PyFloat.digitpart s) as [[[i k] r]|].
  - destruct r as [|c r']; [reflexivity|].
    destruct c as [[] [] [] [] [] [] [] []]; reflexivity.
  - destruct s as [|c r']; [reflexivity|].
    destruct c as [[] [] [] [] [] [] [] []]; reflexivity.
Qed.

Lemma number_sound s m nf r :
  PyFloat.number s = Some (m, nf, r) ->
  exists n, s = n +:+ r /\ number_text n m nf.
Proof.
  rewrite number_cases.
  destruct (PyFloat.digitpart s) as [[[i k] r0]|] eqn:D.
  - apply digitpart_sound in D as (t & d & -> & R & -> & ->).
    destruct r0 as [|c r'].
    + intros [= <- <- <-]. exists t. split; [reflexivity | now constructor].
    + destruct (Ascii.eqb_spec c ".") as [->|N].
      * destruct (PyFloat.digitpart r') as [[[f k'] r'']|] eqn:D'.
        -- apply digitpart_sound in D' as (t' & d' & -> & R' & -> & ->).
           intros [= <- <- <-]. exists (t +:+ "." +:+ t').
           split.
           ++ now rewrite !append_assoc_str.
           ++ rewrite <- int_of_digits_acc, <- int_of_digits_app.
              now constructor.
        -- intros [= <- <- <-]. exists (t +:+ ".").
           split; [now rewrite append_assoc_str | now constructor].
      * intros [= <- <- <-]. exists t. split; [reflexivity | now constructor].
  - destruct s as [|c r']; [discriminate|].
    destruct (Ascii.eqb_spec c ".") as [->|N]; [|discriminate].
    intros D'. apply digitpart_sound in D' as (t' & d' & -> & R' & -> & ->).
    exists ("." +:+ t'). split; [reflexivity | now constructor].
Qed.

Lemma digit_run_head t d :
  digit_run t d ->
  exists c t', t = String c t' /\ Str.is_digit c = true.
Proof. inversion 1; subst; eauto. Qed.

Lemma digitpart_not_digit c t :
  Str.is_digit c = false -> PyFloat.digitpart (String c t) = None.
Proof. intros H. unfold PyFloat.digitpart. now rewrite H. Qed.

Lemma after_number_ends x : after_number x -> ends_run x.
Proof.
  destruct x as [|c x]; [easy|]. intros [->| ->]; split; easy.
Qed.

Lemma after_number_digitpart x : after_number x -> PyFloat.digitpart x = None.
Proof.
  destruct x as [|c x]; [easy|]. intros [->| ->]; reflexivity.
Qed.

Lemma number_complete n m nf x :
  number_text n m nf -> after_number x ->
  PyFloat.number (n +:+ x) = Some (m, nf, x).
Proof.
  intros N A. pose proof (after_number_ends x A) as E.
  rewrite number_cases. destruct N as [t d R|t d R|t d t' d' R R'|t' d' R'].
  - rewrite (digitpart_complete t d x R E).
    destruct x as [|c x]; [reflexivity|].
    destruct A as [->| ->]; reflexivity.
  - rewrite append_assoc_str.
    rewrite (digitpart_complete t d ("." +:+ x) R) by (split; easy).
    rewrite append_cons, append_nil. cbn [Ascii.eqb Bool.eqb].
    now rewrite (after_number_digitpart x A).
  - rewrite !append_assoc_str.
    rewrite (digitpart_complete t d ("." +:+ t' +:+ x) R) by (split; easy).
    rewrite append_cons, append_nil. cbn [Ascii.eqb Bool.eqb].
    rewrite (digitpart_complete t' d' x R' E).
    now rewrite <- int_of_digits_acc, <- int_of_digits_app.
  - rewrite append_assoc_str, append_cons, append_nil.
    rewrite digitpart_not_digit by reflexivity. cbn [Ascii.eqb Bool.eqb].
    apply (digitpart_complete t' d' x R' E).
Qed.

Lemma exponent_sound x e :
  PyFloat.exponent x = Some (e, "") -> exponent_text x e /\ x <> "".
Proof.
  unfold PyFloat.exponent. destruct x as [|c x]; [discriminate|].
  destruct (Ascii.eqb c "e" || Ascii.eqb c "E") eqn:C; [|discriminate].
  destruct (PyFloat.read_sign x) as [neg r] eqn:S.
  destruct (PyFloat.digitpart r) as [[[v k] r']|] eqn:D; [|discriminate].
  intros [= <- ->]. split; [|discriminate].
  apply read_sign_sound in S as (s & -> & S).
  apply digitpart_sound in D as (t & d & -> & R & -> & _).
  rewrite append_nil_r. constructor; [|exact S|exact R].
  apply orb_true_iff in C as [C|C]; apply Ascii.eqb_eq in C; auto.
Qed.

Lemma exponent_complete x e :
  exponent_text x e -> x <> "" -> PyFloat.exponent x = Some (e, "").
Proof.
  intros [|c s neg t d C S R] N; [congruence|].
  unfold PyFloat.exponent.
  replace (Ascii.eqb c "e" || Ascii.eqb c "E") with true
    by (destruct C as [->| ->]; reflexivity).
  destruct (digit_run_head t d R) as (c1 & t1 & -> & C1).
  rewrite (read_sign_complete s neg c1 t1 S).
  - rewrite <- (append_nil_r (String c1 t1)).
    now rewrite (digitpart_complete _ d "" R I).
  - intros ->. discriminate.
  - intros ->. discriminate.
Qed.

Lemma exponent_after x e : exponent_text x e -> after_number x.
Proof. intros [|c s neg t d C S R]; [easy | exact C]. Qed.

(** *** The reader of floats *)

Lemma number_text_head n m nf :
  number_text n m nf ->
  exists c n', n = String c n' /\ (Str.is_digit c = true \/ c = "."%char).
Proof.
  intros [t d R|t d R|t d t' d' R R'|t' d' R'].
  - destruct (digit_run_head t d R) as (c & t0 & -> & C). eauto.
  - destruct (digit_run_head t d R) as (c & t0 & -> & C).
    rewrite append_cons. eauto.
  - destruct (digit_run_head t d R) as (c & t0 & -> & C).
    rewrite append_cons. eauto.
  - rewrite append_cons. eauto.
Qed.

Lemma numeral_head c t :
  Str.is_digit c = true \/ c = "."%char ->
  c <> "-"%char /\ c <> "+"%char
  /\ String.eqb (Str.lower (String c t)) "inf" = false
  /\ String.eqb (Str.lower (String c t)) "infinity" = false
  /\ String.eqb (Str.lower (String c t)) "nan" = false.
Proof.
  intros [D| ->].
  - destruct c as [[] [] [] [] [] [] [] []]; try discriminate;
      repeat split; try discriminate; reflexivity.
  - repeat split; try discriminate; reflexivity.
Qed.

Lemma name_head w name c rest :
  Str.lower w = name -> name = String c rest ->
  c <> "-"%char -> c <> "+"%char ->
  exists c1 w1, w = String c1 w1 /\ c1 <> "-"%char /\ c1 <> "+"%char.
Proof.
  intros L -> M P. destruct w as [|c1 w1]; [discriminate|].
  exists c1, w1. split; [reflexivity|].
  cbn [Str.lower Str.map] in L. injection L as L _.
  split; intros ->; vm_compute in L; congruence.
Qed.

Lemma of_string_sound t x :
  PyFloat.of_string t = Some x -> float_text (Str.strip t) x.
Proof.
  unfold PyFloat.of_string.
  destruct (PyFloat.read_sign (Str.strip t)) as [neg r] eqn:S.
  apply read_sign_sound in S as (s & -> & S). cbv zeta.
  destruct (String.eqb (Str.lower r) "inf" || String.eqb (Str.lower r) "infinity")
    eqn:I.
  { intros [= <-]. apply float_infinity; [exact S|].
    apply orb_true_iff in I as [I|I]; apply String.eqb_eq in I; auto. }
  destruct (String.eqb (Str.lower r) "nan") eqn:N.
  { intros [= <-]. apply String.eqb_eq in N. now apply (float_nan s neg). }
  destruct (PyFloat.number r) as [[[m nf] r']|] eqn:Nu; [|discriminate].
  apply number_sound in Nu as (n & -> & Nu).
  destruct r' as [|c r'].
  - intros [= <-]. replace (- nf)%Z with (0 - nf)%Z by lia.
    apply float_decimal; [exact S | exact Nu | constructor].
  - destruct (PyFloat.exponent (String c r')) as [[e [|]]|] eqn:E;
      try discriminate.
    intros [= <-]. apply exponent_sound in E as [E _].
    now apply float_decimal.
Qed.

Lemma of_string_complete u x :
  float_text u x -> Str.strip u = u -> PyFloat.of_string u = Some x.
Proof.
  intros F St. unfold PyFloat.of_string. rewrite St.
  destruct F as [s neg w S W|s neg w S W|s neg n m nf x e S N E].
  - assert (H : exists c1 w1, w = String c1 w1 /\ c1 <> "-"%char /\ c1 <> "+"%char).
    { destruct W as [W|W];
        eapply (name_head w _ "i"%char _ W eq_refl); discriminate. }
    destruct H as (c1 & w1 & -> & M & P).
    rewrite (read_sign_complete s neg c1 w1 S M P). cbv zeta.
    replace (String.eqb (Str.lower (String c1 w1)) "inf"
             || String.eqb (Str.lower (String c1 w1)) "infinity") with true;
      [reflexivity|].
    symmetry. apply orb_true_iff.
    destruct W as [W|W]; [left | right]; now apply String.eqb_eq.
  - assert (H : exists c1 w1, w = String c1 w1 /\ c1 <> "-"%char /\ c1 <> "+"%char).
    { eapply (name_head w _ "n"%char _ W eq_refl); discriminate. }
    destruct H as (c1 & w1 & -> & M & P).
    rewrite (read_sign_complete s neg c1 w1 S M P). cbv zeta.
    rewrite W. reflexivity.
  - destruct (number_text_head n m nf N) as (c & n' & -> & C).
    destruct (numeral_head c (n' +:+ x) C) as (M & P & I1 & I2 & I3).
    rewrite append_cons.
    rewrite (read_sign_complete s neg c (n' +:+ x) S M P). cbv zeta.
    rewrite I1, I2, I3. cbn [orb]. rewrite <- append_cons.
    rewrite (number_complete _ m nf x N (exponent_after x e E)).
    destruct x as [|cx x'].
    + inversion E; subst. reflexivity.
    + rewrite (exponent_complete _ e E) by discriminate. reflexivity.
Qed.

Lemma of_string_float_text u x :
  Str.strip u = u -> (PyFloat.of_string u = Some x <-> float_text u x).
Proof.
  intros St. split.
  - intros H. apply of_string_sound in H. now rewrite St in H.
  - intros F. now apply of_string_complete.
Qed.

(** ** The contract of the currency normalizer *)

Lemma remove_commas_and_spaces_stripped s :
  Str.strip (remove_commas_and_spaces s) = remove_commas_and_spaces s.
Proof. unfold remove_commas_and_spaces. apply strip_idem. Qed.

Lemma clean_currency_float_text s x :
  clean_currency (Some s) = Some x
  <-> float_text (remove_commas_and_spaces s) x.
Proof.
  rewrite clean_currency_text.
  apply of_string_float_text, remove_commas_and_spaces_stripped.
Qed.

(** C4, as amended. The currency normalizer returns no value for a missing
    cell and for a text of whitespace only (the empty text included). For
    any other text it removes the commas and the space characters, trims
    the whitespace at the two ends, and returns the float that the text
    left stands for: the binary64 number nearest to the value of a signed
    decimal numeral (a whole number below [2^53] exactly), an infinity or
    [NaN] for their names, and no value for any other text. It is a total
    function: no input makes it raise. *)
Theorem clean_currency_contract (value : cell) :
  (value = None -> clean_currency value = None)
  /\ (forall s, value = Some s -> whitespace_only s = true ->
        clean_currency value = None)
  /\ (forall s x, value = Some s ->
        (clean_currency value = Some x
         <-> float_text (remove_commas_and_spaces s) x))
  /\ (forall s, value = Some s ->
        (clean_currency value = None
         <-> forall x, ~ float_text (remove_commas_and_spaces s) x))
  /\ (forall s, value = Some s ->
        all_digits (remove_commas_and_spaces s) = true ->
        (1 <= int_of_digits 0 (remove_commas_and_spaces s) < 2 ^ 53)%Z ->
        clean_currency value
          = Some (whole (int_of_digits 0 (remove_commas_and_spaces s)))).
Proof.
  split; [now intros ->|].
  split; [|split; [|split]]; intros s.
  - intros -> W. rewrite clean_currency_text.
    now rewrite (remove_commas_and_spaces_blank s W).
  - intros x ->. apply clean_currency_float_text.
  - intros ->. split.
    + intros N x F. apply clean_currency_float_text in F. congruence.
    + intros N. destruct (clean_currency (Some s)) as [x|] eqn:E;
        [|reflexivity].
      apply clean_currency_float_text in E. now elim (N x).
  - intros -> D B. rewrite clean_currency_text.
    rewrite of_string_digits; [now rewrite of_decimal_whole | exact D |].
    intros E. rewrite E in B. cbn in B. lia.
Qed.

(** The examples of the specification: ["1,234.50"] is 1234.5, the
    binary64 number [5429388417957888 * 2^-42], which is 2469 halved;
    ["N/A"] and a blank cell are no value; ["1,234"] is the whole number
    1234; the name of [NaN] is read as [NaN]. *)
Lemma clean_currency_contract_witness :
  clean_currency (Some "1,234.50")
    = Some (PyFloat.of_decimal false 123450 (0 - 2))
  /\ PyFloat.of_decimal false 123450 (0 - 2)
     = S754_finite false 5429388417957888 (-42)
  /\ SFdiv 53 1024 (whole 2469) (whole 2)
     = S754_finite false 5429388417957888 (-42)
  /\ clean_currency (Some "N/A") = None
  /\ clean_currency (Some "   ") = None
  /\ clean_currency (Some "1,234") = Some (whole 1234)
  /\ clean_currency (Some "nan") = Some S754_nan.
Proof.
  split; [|split; [vm_compute; reflexivity|split;
           [vm_compute; reflexivity|split; [|split; [|split]]]]].
  - apply (proj1 (proj2 (proj2 (clean_currency_contract (Some "1,234.50"))))
             "1,234.50" _ eq_refl).
    apply (float_decimal "" false "1234.50" 123450 2 "" 0 sign_none);
      [|constructor].
    apply (number_fraction "1234" "1234" "50" "50"); repeat constructor.
  - apply (proj1 (proj2 (proj2 (proj2 (clean_currency_contract (Some "N/A")))))
             "N/A" eq_refl).
    intros x F. apply of_string_complete in F; [|reflexivity].
    vm_compute in F. discriminate.
  - apply (proj1 (proj2 (clean_currency_contract (Some "   "))) "   ");
      reflexivity.
  - apply (proj2 (proj2 (proj2 (proj2 (clean_currency_contract (Some "1,234")))))
             "1,234" eq_refl); [reflexivity | vm_compute; split; congruence].
  - apply (proj1 (proj2 (proj2 (clean_currency_contract (Some "nan"))))
             "nan" _ eq_refl).
    apply (float_nan "" false "nan" sign_none). reflexivity.
Defined.

(** C4, as stated, fails twice. With a line break between its digits the
    text ["12\n34"] is the number 1234 once commas and whitespace are
    removed, and the normalizer returns no value for it. The text
    ["nan"] is no decimal numeral, with or without its commas and
    whitespace, and the normalizer returns a value for it, which is no
    number. *)
Lemma clean_currency_not_as_stated :
  (let s := "12" +:+ String Str.newline "34" in
   float_text (remove_commas_and_whitespace s) (whole 1234)
   /\ clean_currency (Some s) = None)
  /\ (remove_commas_and_whitespace "nan" = "nan"
      /\ ~ (exists s neg n m nf x e,
              "nan" = s +:+ n +:+ x /\ sign_text s neg
              /\ number_text n m nf /\ exponent_text x e)
      /\ clean_currency (Some "nan") = Some S754_nan).
Proof.
  split; [cbv zeta; split|split; [reflexivity|split]].
  - apply of_string_float_text; [reflexivity|].
    change (remove_commas_and_whitespace ("12" +:+ String Str.newline "34"))
      with "1234".
    rewrite of_string_digits by (reflexivity || discriminate).
    rewrite of_decimal_whole by (vm_compute; split; congruence).
    reflexivity.
  - vm_compute; reflexivity.
  - intros (s & neg & n & m & nf & x & e & E & S & N & _).
    destruct (number_text_head n m nf N) as (c & n' & -> & C).
    destruct S; rewrite ?append_nil, ?append_cons in E;
      injection E as E _; subst c; destruct C; discriminate.
  - vm_compute; reflexivity.
Qed.
